(** * Residency on-call scheduling: the CP-SAT model of [cp_sat.py] and the
      off-day conversion of [app.py], embedded and verified.

    The scheduling core [cp_sat_generate_schedule] builds a constraint model
    (integer day variables, boolean indicators, linear constraints, one
    max-equality per doctor) and hands it to the CP-SAT engine of OR-Tools.
    The embedding keeps that split: the model is built here, constraint by
    constraint, in the order of the source; the engine is a function the
    development is parametric in, and is only ever assumed to answer
    [FEASIBLE]/[OPTIMAL] with a valuation that satisfies the model. *)

From Stdlib Require Import ZArith String Ascii Bool Lia List.
From Stdlib Require Import DecimalString DecimalPos DecimalZ.
Import ListNotations.
Open Scope string_scope.
Open Scope list_scope.
Open Scope Z_scope.

(* ------------------------------------------------------------------ *)
(** ** Python values and exceptions used by the two source files *)

Module Py.

Inductive exn : Type :=
| ValueError
| IndexError
| ZeroDivisionError
| RuntimeError (msg : string).

Inductive result (A : Type) : Type :=
| Ok (a : A)
| Raise (e : exn).
Arguments Ok {A} a.
Arguments Raise {A} e.

Definition bind {A B} (r : result A) (k : A -> result B) : result B :=
  match r with
  | Ok a => k a
  | Raise e => Raise e
  end.

(** [range(k)]: empty when [k <= 0]. *)
Definition range (k : Z) : list Z := map Z.of_nat (seq 0 (Z.to_nat k)).

Definition len {A} (l : list A) : Z := Z.of_nat (List.length l).

(** [l[d]] on a list: a negative index counts from the end, anything
    outside [-len, len) raises [IndexError]. *)
Definition getitem {A} (l : list A) (d : Z) : result A :=
  let pos := if d <? 0 then len l + d else d in
  if (0 <=? pos) && (pos <? len l) then
    match nth_error l (Z.to_nat pos) with
    | Some x => Ok x
    | None => Raise IndexError
    end
  else Raise IndexError.

(** [l.index(x)] on a list of strings. *)
Fixpoint index (x : string) (l : list string) : result Z :=
  match l with
  | [] => Raise ValueError
  | y :: l' => if String.eqb y x then Ok 0
               else bind (index x l') (fun k => Ok (k + 1))
  end.

(** [a // b]: floor division, as [Z.div] for every non-zero divisor. *)
Definition floordiv (a b : Z) : result Z :=
  if b =? 0 then Raise ZeroDivisionError else Ok (a / b).

(** [enumerate(l)]. *)
Definition enumerate {A} (l : list A) : list (Z * A) :=
  combine (range (len l)) l.

(** [for x in xs: acc.append(f(x))], stopping at the first exception. *)
Fixpoint mapM {A B} (f : A -> result B) (xs : list A) : result (list B) :=
  match xs with
  | [] => Ok []
  | x :: xs' => bind (f x) (fun y => bind (mapM f xs') (fun ys => Ok (y :: ys)))
  end.

(** [sum] of a list of integers. *)
Definition sum (l : list Z) : Z := fold_right Z.add 0 l.

End Py.

Notation "x <- e ;; k" := (Py.bind e (fun x => k))
  (at level 61, e at next level, right associativity).

(* ------------------------------------------------------------------ *)
(** ** The part of the CP-SAT modelling interface the source uses *)

Module CpModel.

(** The variables the source creates, by the names it gives them:
    [day_{d}], [b_{i}_{d}], [w_{i}_{k}], [weekend_used_{i}]. *)
Inductive var : Type :=
| day_ (d : Z)
| b_ (i d : Z)
| w_ (i k : Z)
| weekend_used_ (i : Z).

(** A boolean variable or its negation ([x.Not()]). *)
Inductive literal : Type :=
| Lit (v : var)
| Not (v : var).

(** The linear expressions of the source: a constant, a variable, a
    [sum(...)] of variables. *)
Inductive expr : Type :=
| Const (c : Z)
| Var (v : var)
| Sum (vs : list var).

Inductive rel : Type := Eq | Ne | Le | Ge.

Inductive body : Type :=
| Lin (lhs : expr) (r : rel) (rhs : expr)
| LinMax (target : var) (exprs : list var).

Record constraint : Type := mkConstraint {
  ct_body : body;
  enforcement_literal : list literal
}.

(** [model.Add(lhs r rhs)], [model.AddMaxEquality(target, exprs)] and
    [ct.OnlyEnforceIf(l)]. *)
Definition Add (lhs : expr) (r : rel) (rhs : expr) : constraint :=
  mkConstraint (Lin lhs r rhs) [].
Definition AddMaxEquality (target : var) (exprs : list var) : constraint :=
  mkConstraint (LinMax target exprs) [].
Definition OnlyEnforceIf (c : constraint) (l : literal) : constraint :=
  mkConstraint (ct_body c) (enforcement_literal c ++ [l]).

(** A model: the variables with their domains [lb, ub], in creation
    order, and the constraints, in the order they were added. *)
Record CpModel : Type := mkModel {
  variables : list (var * (Z * Z));
  constraints : list constraint
}.

Definition NewIntVar (lb ub : Z) (v : var) : var * (Z * Z) := (v, (lb, ub)).
Definition NewBoolVar (v : var) : var * (Z * Z) := (v, (0, 1)).

(** *** Meaning of a model under a valuation of its variables *)

Definition valuation : Type := var -> Z.

Definition eval (s : valuation) (e : expr) : Z :=
  match e with
  | Const c => c
  | Var v => s v
  | Sum vs => Py.sum (map s vs)
  end.

Definition rel_holds (r : rel) (x y : Z) : bool :=
  match r with
  | Eq => x =? y
  | Ne => negb (x =? y)
  | Le => x <=? y
  | Ge => y <=? x
  end.

Definition lit_holds (s : valuation) (l : literal) : bool :=
  match l with
  | Lit v => s v =? 1
  | Not v => s v =? 0
  end.

(** The maximum of a list of integers; an empty list has none. *)
Fixpoint max_of (l : list Z) : option Z :=
  match l with
  | [] => None
  | x :: l' => match max_of l' with
               | None => Some x
               | Some y => Some (Z.max x y)
               end
  end.

(** [target == max(exprs)]. No value is the maximum of an empty list, so
    a max-equality over no expression holds under no valuation (CP-SAT
    rejects such a constraint as unsatisfiable). *)
Definition body_holds (s : valuation) (b : body) : bool :=
  match b with
  | Lin lhs r rhs => rel_holds r (eval s lhs) (eval s rhs)
  | LinMax target exprs =>
      match max_of (map s exprs) with
      | Some x => s target =? x
      | None => false
      end
  end.

Definition constraint_holds (s : valuation) (c : constraint) : bool :=
  if forallb (lit_holds s) (enforcement_literal c)
  then body_holds s (ct_body c)
  else true.

Definition in_domain (s : valuation) (d : var * (Z * Z)) : bool :=
  let '(v, (lb, ub)) := d in (lb <=? s v) && (s v <=? ub).

Definition model_holds (s : valuation) (M : CpModel) : bool :=
  forallb (in_domain s) (variables M) &&
  forallb (constraint_holds s) (constraints M).

(** *** The solver *)

Inductive CpSolverStatus : Type :=
| UNKNOWN | MODEL_INVALID | FEASIBLE | INFEASIBLE | OPTIMAL.

Record SatParameters : Type := mkParameters {
  max_time_in_seconds : Z;
  num_search_workers : Z;
  random_seed : option Z   (* [None]: the engine's default is left alone *)
}.

Record CpSolverResponse : Type := mkResponse {
  status : CpSolverStatus;
  Value : valuation
}.

(** [solver.Solve(model)] with the parameters set on the solver. *)
Definition Solver : Type := CpModel -> SatParameters -> CpSolverResponse.

Definition has_solution (st : CpSolverStatus) : bool :=
  match st with
  | OPTIMAL | FEASIBLE => true
  | _ => false
  end.

(** What is assumed of the engine: a response that claims a solution
    carries a valuation satisfying the model. *)
Definition sound_on (solve : Solver) (M : CpModel) (p : SatParameters) : Prop :=
  has_solution (status (solve M p)) = true ->
  model_holds (Value (solve M p)) M = true.

Definition sound (solve : Solver) : Prop :=
  forall M p, sound_on solve M p.

(** The least engine: it checks one candidate valuation and answers
    [FEASIBLE] with it, or [UNKNOWN]. *)
Definition try_candidate (cand : valuation) : Solver :=
  fun M _ =>
    if model_holds cand M then mkResponse FEASIBLE cand
    else mkResponse UNKNOWN cand.

End CpModel.

(* ------------------------------------------------------------------ *)
(** ** [cp_sat.py] *)

Module CpSat.
Import Py CpModel.

Definition days : list string :=
  ["Monday"; "Tuesday"; "Wednesday"; "Thursday"; "Friday"; "Saturday"; "Sunday"].

(** [days.index("Friday")] *)
Definition friday : Z := 4.

(** Friday-Saturday weekend blocks, by the index of their Friday: a
    trailing Friday with no Saturday in the month is left out. *)
Definition weekend_fridays (start_idx m : Z) : list Z :=
  filter (fun d => ((start_idx + d) mod 7 =? friday) && (d + 1 <? m)) (range m).

Section Model.
Variables n m : Z.
Variable fridays : list Z.          (* [weekend_fridays] *)

Definition W : Z := len fridays.

(** Day assignment variables. Every later [day_vars[d]] but the one of
    the disallowed pairs has [d] in [range(m)], and is written [day_ d]. *)
Definition day_vars : list var := map day_ (range m).

Definition day_decls : list (var * (Z * Z)) :=
  map (fun d => NewIntVar 0 (n - 1) (day_ d)) (range m).

(** Boolean indicators for assignments, with their two links. *)
Definition b_decls : list (var * (Z * Z)) :=
  flat_map (fun i => map (fun d => NewBoolVar (b_ i d)) (range m)) (range n).

Definition b_links : list constraint :=
  flat_map (fun i =>
    flat_map (fun d =>
      [ OnlyEnforceIf (Add (Var (day_ d)) Eq (Const i)) (Lit (b_ i d));
        OnlyEnforceIf (Add (Var (day_ d)) Ne (Const i)) (Not (b_ i d)) ])
      (range m))
    (range n).

(** Weekend block indicators, with their three links. *)
Definition w_decls : list (var * (Z * Z)) :=
  flat_map (fun i => map (fun kd => NewBoolVar (w_ i (fst kd))) (enumerate fridays))
           (range n).

Definition w_links : list constraint :=
  flat_map (fun i =>
    flat_map (fun kd : Z * Z =>
      let (k, d) := kd in
      [ OnlyEnforceIf (Add (Var (day_ d)) Eq (Const i)) (Lit (w_ i k));
        OnlyEnforceIf (Add (Var (day_ (d + 1))) Eq (Const i)) (Lit (w_ i k));
        OnlyEnforceIf (Add (Var (day_ d)) Ne (Const i)) (Not (w_ i k)) ])
      (enumerate fridays))
    (range n).

(** 1. No doctor on 4 consecutive days *)
Definition four_days (i d : Z) : constraint :=
  Add (Sum (map (fun k => b_ i (d + k)) (range 4))) Le (Const 3).

Definition no_four_consecutive : list constraint :=
  flat_map (fun i => map (fun d => four_days i d) (range (m - 3))) (range n).

(** 2a. Weekend coverage: same doctor on Fri & Sat *)
Definition weekend_coverage : list constraint :=
  map (fun d => Add (Var (day_ d)) Eq (Var (day_ (d + 1)))) fridays.

(** 2b. Distinct number of weekend doctors = min(n, #weekends) *)
Definition weekend_used : list var := map weekend_used_ (range n).

Definition weekend_used_decls : list (var * (Z * Z)) :=
  map (fun i => NewBoolVar (weekend_used_ i)) (range n).

Definition weekend_spread : list constraint :=
  map (fun i => AddMaxEquality (weekend_used_ i) (map (fun k => w_ i k) (range W)))
      (range n)
  ++ [ Add (Sum weekend_used) Eq (Const (Z.min n W)) ].

(** 3. Disallowed assignments: the only place where [day_vars] is
    indexed by a caller-supplied integer. The doctor index goes to the
    library as a constant: this is the source for indices the library takes,
    those of [int64_constant] below; beyond them the library's own call
    raises. *)
Definition disallowed (disallowed_pairs : list (Z * Z)) : result (list constraint) :=
  mapM (fun id : Z * Z =>
          let (i, d) := id in
          v <- getitem day_vars d ;;
          Ok (Add (Var v) Ne (Const i)))
       disallowed_pairs.

(** 4a. Fair total assignment counts *)
Definition fair_totals (L H : Z) : list constraint :=
  flat_map (fun i =>
    let c := Sum (map (fun d => b_ i d) (range m)) in
    [ Add c Ge (Const L); Add c Le (Const H) ])
    (range n).

(** 4b. Every 3n-day window: each doctor at least once *)
Definition window_size : Z := 3 * n.

Definition window_coverage : list constraint :=
  if window_size <=? m then
    flat_map (fun i =>
      map (fun d => Add (Sum (map (fun k => b_ i (d + k)) (range window_size)))
                        Ge (Const 1))
          (range (m - window_size + 1)))
      (range n)
  else [].

(** 4c. Fair weekend assignment distribution *)
Definition fair_weekends : result (list constraint) :=
  if 0 <? W then
    Lw <- floordiv W n ;;
    Hw <- floordiv (W + n - 1) n ;;
    Ok (flat_map (fun i =>
          let c := Sum (map (fun k => w_ i k) (range W)) in
          [ Add c Ge (Const Lw); Add c Le (Const Hw) ])
          (range n))
  else Ok [].

(** The model as it stands when [solver.Solve] is called, or the
    exception that interrupted its construction. *)
Definition build (disallowed_pairs : list (Z * Z)) : result CpModel :=
  dis <- disallowed disallowed_pairs ;;
  L <- floordiv m n ;;
  H <- floordiv (m + n - 1) n ;;
  wfair <- fair_weekends ;;
  Ok (mkModel
        (day_decls ++ b_decls ++ w_decls ++ weekend_used_decls)
        (b_links ++ w_links ++ no_four_consecutive ++ weekend_coverage
           ++ weekend_spread ++ dis ++ fair_totals L H ++ window_coverage
           ++ wfair)).
End Model.

Definition build_model (n m start_idx : Z) (disallowed_pairs : list (Z * Z))
  : result CpModel :=
  build n m (weekend_fridays start_idx m) disallowed_pairs.

Definition no_schedule : exn := RuntimeError "No valid schedule found.".

Definition cp_sat_generate_schedule (solve : Solver) (n m : Z) (start_day : string)
    (disallowed_pairs : list (Z * Z))
    (time_limit num_workers : Z) (random_seed : option Z) : result (list Z) :=
  start_idx <- index start_day days ;;
  model <- build_model n m start_idx disallowed_pairs ;;
  let r := solve model (mkParameters time_limit num_workers random_seed) in
  if has_solution (status r)
  then Ok (map (fun d => Value r (day_ d)) (range m))
  else Raise no_schedule.

(** The defaults of the signature. *)
Definition default_time_limit : Z := 10.
Definition default_num_workers : Z := 8.

(** [examples]: the three fixtures of the module. *)
Record example : Type := mkExample {
  num_doctors : Z;
  month_length : Z;
  month_start_day : string;
  disallowed_pairs : list (Z * Z);
  valid_schedule : list Z;
  invalid_schedule : list Z
}.

Definition example0 : example :=
  mkExample 3 30 "Friday"
    [ (0, 5); (0, 12); (0, 19); (0, 26);
      (2, 2); (2, 9); (2, 16); (2, 23); (2, 4); (2, 11); (2, 18); (2, 25);
      (1, 0); (1, 1); (1, 28); (1, 29) ]
    [ 0; 0;
      1; 1; 0; 2; 0; 1; 2;
      0; 0; 0; 2; 2; 1; 1;
      1; 2; 0; 2; 1; 0; 2;
      1; 2; 1; 1; 0; 2; 2 ]
    [ 0; 0;
      1; 1; 0; 2; 0; 0; 2;
      0; 0; 0; 2; 2; 1; 1;
      1; 2; 0; 2; 0; 1; 2;
      1; 2; 1; 1; 1; 2; 2 ].

Definition example1 : example :=
  mkExample 4 30 "Sunday"
    [ (0, 2); (0, 9); (0, 16); (0, 23);
      (1, 4); (1, 11); (1, 18); (1, 25);
      (2, 4); (2, 11); (2, 18); (2, 25);
      (3, 3); (3, 10); (3, 17); (3, 24) ]
    [ 0; 1; 1; 2; 0; 2; 2;
      3; 2; 3; 0; 3; 1; 1;
      1; 0; 2; 0; 3; 3; 3;
      1; 3; 1; 1; 3; 0; 0;
      2; 2 ]
    [ 0; 1; 1; 2; 0; 2; 2;
      3; 2; 3; 0; 3; 3; 1;
      1; 0; 2; 0; 3; 1; 3;
      1; 3; 1; 1; 3; 0; 0;
      2; 0 ].

Definition example2 : example :=
  mkExample 5 31 "Sunday"
    [ (0, 1); (0, 8); (0, 15); (0, 22); (0, 29); (0, 4); (0, 11); (0, 18); (0, 25);
      (1, 0); (1, 7); (1, 14); (1, 21); (1, 28); (1, 4); (1, 11); (1, 18); (1, 25);
      (2, 1); (2, 8); (2, 15); (2, 22); (2, 29);
      (3, 2); (3, 9); (3, 16); (3, 23); (3, 30); (3, 3); (3, 10); (3, 17); (3, 24);
      (4, 3); (4, 10); (4, 17); (4, 24) ]
    [ 0; 1; 2; 1; 3; 2; 2;
      4; 1; 0; 2; 4; 3; 3;
      0; 3; 4; 1; 2; 1; 1;
      2; 3; 4; 0; 4; 0; 0;
      4; 3; 4 ]
    [ 0; 0; 0; 0; 0; 0; 0;
      1; 1; 1; 1; 1; 1; 1;
      2; 2; 2; 2; 2; 2; 2;
      3; 3; 3; 3; 3; 3; 3;
      4; 4; 4 ].

Definition examples : list example := [example0; example1; example2].

End CpSat.

(* ------------------------------------------------------------------ *)
(** ** [app.py]: from the off-day selections to the call of the core *)

Module App.
Import Py CpModel CpSat.

Definition weekdays : list string :=
  ["Sunday"; "Monday"; "Tuesday"; "Wednesday"; "Thursday"; "Friday"; "Saturday"].

(** [str(i)] and [int(s)] on decimal numerals (the option strings hold
    nothing else before their first slash). *)
Definition str (i : Z) : string := NilZero.string_of_int (Z.to_int i).

Definition int_ (s : string) : result Z :=
  match NilZero.int_of_string s with
  | Some d => Ok (Z.of_int d)
  | None => Raise ValueError
  end.

(** [s.split("/")[0]] *)
Fixpoint split_head (s : string) : string :=
  match s with
  | EmptyString => EmptyString
  | String c s' => if Ascii.eqb c "/" then EmptyString else String c (split_head s')
  end.

(** One entry of [off_days_options]: day [i] of the month, the month's
    number, and the weekday name [strftime('%A')] gives for that date. *)
Definition off_day_option (i month : Z) (weekday : string) : string :=
  (str i ++ "/" ++ str month ++ " - " ++ weekday)%string.

(** The comprehension of the "Generate Schedule" handler:
    [[(int(day.split("/")[0]) - 1, doctor_index)
      for doctor_index, days in off_days.items() for day in days]]. *)
Definition to_disallowed_pairs (off_days : list (Z * list string))
  : result (list (Z * Z)) :=
  mapM (fun dd : Z * string =>
          let (doctor_index, day) := dd in
          k <- int_ (split_head day) ;;
          Ok (k - 1, doctor_index))
       (flat_map (fun e : Z * list string =>
                    let (doctor_index, days) := e in
                    map (fun day => (doctor_index, day)) days)
                 off_days).

(** [generate_schedule], up to the schedule it lays out as a calendar. *)
Definition generate_schedule (solve : Solver)
    (num_doctors days_in_month starting_day : Z)
    (disallowed_pairs : list (Z * Z)) : result (list Z) :=
  starting_day_name <- getitem weekdays starting_day ;;
  solution <- cp_sat_generate_schedule solve num_doctors days_in_month
                starting_day_name disallowed_pairs
                default_time_limit default_num_workers None ;;
  Ok (match solution with
      | [] => map (fun _ => -1) (range days_in_month)
      | _ => solution
      end).

(** The handler of the "Generate Schedule" button. *)
Definition on_generate (solve : Solver)
    (num_doctors days_in_month starting_day : Z)
    (off_days : list (Z * list string)) : result (list Z) :=
  pairs <- to_disallowed_pairs off_days ;;
  generate_schedule solve num_doctors days_in_month starting_day pairs.

End App.

(* ------------------------------------------------------------------ *)
(** ** The schedule validator *)

Module Validator.
Import Py CpModel CpSat.

(* The Schedule Validator, which evaluates invariants 2 to 8 on a candidate
   assignment, has no code in the repository: each check below follows the
   wording of its invariant in the specification, on the weekend blocks and
   the parameters the source computes. *)

(** The doctor assigned to day [d] of schedule [s]. *)
Definition doctor_on (s : list Z) (d : Z) : Z := nth (Z.to_nat d) s (-1).

Definition count (p : Z -> bool) (l : list Z) : Z := len (filter p l).

Definition floor_div (a b : Z) : Z := a / b.
Definition ceil_div (a b : Z) : Z := - ((- a) / b).

Section Checks.
Variables n m : Z.
Variable fridays : list Z.
Variable forbidden : list (Z * Z).
Variable s : list Z.

(** Doctor [i] covers the weekend block whose Friday is [d]. *)
Definition covers (i d : Z) : bool :=
  (doctor_on s d =? i) && (doctor_on s (d + 1) =? i).

(** Modelled from the spec: invariant 2 of the absent validator. No doctor
    is assigned on a day in their forbidden set. *)
Definition inv2 : bool :=
  forallb (fun id : Z * Z => let (i, d) := id in negb (doctor_on s d =? i))
          forbidden.

(** Modelled from the spec: invariant 3 of the absent validator. In every
    4-day window a doctor covers at most 3 of the 4 days. *)
Definition inv3 : bool :=
  forallb (fun i =>
    forallb (fun d =>
      count (fun k => doctor_on s (d + k) =? i) (range 4) <=? 3)
      (range (m - 3)))
    (range n).

(** Modelled from the spec: invariant 4 of the absent validator. For every
    weekend block the same doctor covers both days. *)
Definition inv4 : bool :=
  forallb (fun d => doctor_on s d =? doctor_on s (d + 1)) fridays.

(** The number of doctors of [0, n) who cover at least one weekend block. *)
Definition weekend_doctors : Z :=
  count (fun i => existsb (covers i) fridays) (range n).

(** Modelled from the spec: invariant 5 of the absent validator. The number
    of distinct doctors covering at least one weekend block equals
    [min(n, W)]. *)
Definition inv5 : bool := weekend_doctors =? Z.min n (W fridays).

(** The number of days of doctor [i]. *)
Definition total (i : Z) : Z := count (fun d => doctor_on s d =? i) (range m).

(** Modelled from the spec: invariant 6 of the absent validator. Each
    doctor's total lies in [[floor(m/n), ceil(m/n)]]. *)
Definition inv6 : bool :=
  forallb (fun i => (floor_div m n <=? total i) && (total i <=? ceil_div m n))
          (range n).

(** Modelled from the spec: invariant 7 of the absent validator. If
    [m >= 3n], every doctor is in every window of [3n] days. *)
Definition inv7 : bool :=
  if 3 * n <=? m then
    forallb (fun i =>
      forallb (fun d => existsb (fun k => doctor_on s (d + k) =? i) (range (3 * n)))
              (range (m - 3 * n + 1)))
      (range n)
  else true.

(** The number of weekend blocks of doctor [i]. *)
Definition weekends_of (i : Z) : Z := count (covers i) fridays.

(** Modelled from the spec: invariant 8 of the absent validator. If
    [W > 0], each doctor's number of weekend blocks lies in
    [[floor(W/n), ceil(W/n)]]. *)
Definition inv8 : bool :=
  if 0 <? W fridays then
    forallb (fun i => (floor_div (W fridays) n <=? weekends_of i)
                      && (weekends_of i <=? ceil_div (W fridays) n))
            (range n)
  else true.

(** Modelled from the spec: the answer of the absent validator, the
    identifiers of the violated invariants; none when valid. *)
Definition violated : list Z :=
  map fst (filter (fun c : Z * bool => negb (snd c))
             [ (2, inv2); (3, inv3); (4, inv4); (5, inv5);
               (6, inv6); (7, inv7); (8, inv8) ]).
End Checks.

(** The valuation a schedule induces on the variables of the model: the
    indicators take the truth value of what they stand for. *)
Definition valuation_of (fridays : list Z) (s : list Z) : valuation :=
  fun v =>
    match v with
    | day_ d => doctor_on s d
    | b_ i d => if doctor_on s d =? i then 1 else 0
    | w_ i k =>
        match nth_error fridays (Z.to_nat k) with
        | Some d => if covers s i d then 1 else 0
        | None => 0
        end
    | weekend_used_ i => if existsb (covers s i) fridays then 1 else 0
    end.

(** Modelled from the spec: the absent validator on the parameters of the
    core; a starting weekday outside [days] is, as in the core, a
    [ValueError]. *)
Definition validate (n m : Z) (start_day : string) (forbidden : list (Z * Z))
    (s : list Z) : result (list Z) :=
  start_idx <- index start_day days ;;
  Ok (violated n m (weekend_fridays start_idx m) forbidden s).

End Validator.

(* ------------------------------------------------------------------ *)
(** ** [app.py]: the calendar, its display and its export *)

Module AppView.
Import Py CpModel CpSat App.

(** [starting_day] of the script, from [first_day_of_month.weekday()]
    (Monday is 0 there): Sunday = 0, ..., Saturday = 6. *)
Definition starting_day_of (weekday : Z) : Z := (weekday + 1) mod 7.

(** A cell of the schedule frame: a doctor index, or [None]/NaN. *)
Definition cell : Type := option Z.

(** One turn of the loop over the schedule: [weeks] is kept as the rows
    before the last and the last row, [weeks[-1]]. *)
Definition append_person (st : list (list cell) * list cell) (person : Z)
  : list (list cell) * list cell :=
  let (done, last) := st in
  if (length last =? 7)%nat then (done ++ [last], [Some person])
  else (done, last ++ [Some person]).

(** [weeks] of [generate_schedule]: the leading [None] of the first row,
    the schedule, the trailing [None] of the last row. *)
Definition weeks (starting_day : Z) (schedule : list Z) : list (list cell) :=
  let padded : list cell := repeat None (Z.to_nat starting_day) in
  let (done, last) := fold_left append_person schedule ([], padded) in
  done ++ [last ++ repeat None (7 - length last)].

(** [generate_schedule], to the rows of the frame it returns (the columns
    of the frame are [weekdays]). *)
Definition generate_schedule_weeks (solve : Solver)
    (num_doctors days_in_month starting_day : Z)
    (disallowed_pairs : list (Z * Z)) : result (list (list cell)) :=
  schedule <- generate_schedule solve num_doctors days_in_month starting_day
                disallowed_pairs ;;
  Ok (weeks starting_day schedule).

(** [df.at[row, column]], by positions. *)
Definition cell_at {A} (df : list (list A)) (row col : nat) : option A :=
  match nth_error df row with
  | Some r => nth_error r col
  | None => None
  end.

(** [doctors_names] on its integer keys, and [d.get(key, default)]. *)
Definition get {K} (d : K -> option string) (key : K) (default : string) : string :=
  match d key with
  | Some v => v
  | None => default
  end.

(** The text of a numbered cell: [f"{day_number} <br> {doctor_name}"]. *)
Definition day_text (day_number : Z) (doctor_name : string) : string :=
  (str day_number ++ " <br> " ++ doctor_name)%string.

Section Frames.
Variables start_day total_days : Z.
Variable doctors_names : Z -> option string.

(** The inner loop of [add_day_numbers] over the cells of one row, from
    column [col_idx] on, threading [day_number]. A cell of the result is a
    string, or NaN left as it was. *)
Fixpoint number_row (row_idx col_idx : Z) (row : list cell) (day_number : Z)
  : list (option string) * Z :=
  match row with
  | [] => ([], day_number)
  | current_value :: row' =>
      if (row_idx =? 0) && (col_idx <? start_day) then
        let (out, dn) := number_row row_idx (col_idx + 1) row' day_number in
        (Some "" :: out, dn)
      else if total_days <? day_number then
        let (out, dn) := number_row row_idx (col_idx + 1) row' day_number in
        (Some "" :: out, dn)
      else
        let shown :=
          match current_value with
          | Some v => Some (day_text day_number (get doctors_names v ""))
          | None => None
          end in
        let (out, dn) := number_row row_idx (col_idx + 1) row' (day_number + 1) in
        (shown :: out, dn)
  end.

Fixpoint number_rows (row_idx : Z) (df : list (list cell)) (day_number : Z)
  : list (list (option string)) :=
  match df with
  | [] => []
  | row :: df' =>
      let (out, dn) := number_row row_idx 0 row day_number in
      out :: number_rows (row_idx + 1) df' dn
  end.

Definition add_day_numbers (df : list (list cell)) : list (list (option string)) :=
  number_rows 0 df 1.

(** A row of the exported frame. *)
Record export_entry : Type := mkEntry {
  Day_Number : Z;
  Day_Name : string;
  Doctor_s_Name : string
}.

(** The inner loop of [prepare_export_df] over one row, the cells with
    their column names: [continue] goes on with the next cell, [break]
    leaves the row with what was collected. *)
Fixpoint export_row (row_idx col_idx : Z) (row : list (string * cell))
    (day_number : Z) (export_data : list export_entry)
  : Z * list export_entry :=
  match row with
  | [] => (day_number, export_data)
  | (col_name, doctor_index) :: row' =>
      if (row_idx =? 0) && (col_idx <? start_day) then
        export_row row_idx (col_idx + 1) row' day_number export_data
      else if total_days <? day_number then
        (day_number, export_data)
      else
        let export_data' :=
          match doctor_index with
          | Some v =>
              export_data ++ [mkEntry day_number col_name (get doctors_names v "")]
          | None => export_data
          end in
        export_row row_idx (col_idx + 1) row' (day_number + 1) export_data'
  end.

Fixpoint export_rows (row_idx : Z) (df : list (list cell)) (day_number : Z)
    (export_data : list export_entry) : list export_entry :=
  match df with
  | [] => export_data
  | row :: df' =>
      let (dn, data) :=
        export_row row_idx 0 (combine weekdays row) day_number export_data in
      export_rows (row_idx + 1) df' dn data
  end.

Definition prepare_export_df (df : list (list cell)) : list export_entry :=
  export_rows 0 df 1 [].

End Frames.

(** The cells of a frame with their positions, counted along the rows from
    [p] on. *)
Fixpoint positions_from {A} (p : Z) (cells : list A) : list (Z * A) :=
  match cells with
  | [] => []
  | c :: cells' => (p, c) :: positions_from (p + 1) cells'
  end.

(** What the loops of [add_day_numbers] and [prepare_export_df] have in
    [day_number] when they reach position [p], and what they make of the
    cell there, in a calendar whose first day is at position [start_day]. *)
Definition day_number_at (start_day total_days p : Z) : Z :=
  1 + Z.min (Z.max (p - start_day) 0) total_days.

Definition shown_at (start_day total_days : Z) (doctors_names : Z -> option string)
    (p : Z) (c : cell) : option string :=
  if (start_day <=? p) && (p <? start_day + total_days) then
    match c with
    | Some v => Some (day_text (p - start_day + 1) (get doctors_names v ""))
    | None => None
    end
  else Some "".

Definition entries_at (start_day total_days : Z) (doctors_names : Z -> option string)
    (pc : Z * cell) : list export_entry :=
  let (p, c) := pc in
  if (start_day <=? p) && (p <? start_day + total_days) then
    match c with
    | Some v =>
        [mkEntry (p - start_day + 1) (nth (Z.to_nat (p mod 7)) weekdays "")
                 (get doctors_names v "")]
    | None => []
    end
  else [].

(** A dictionary from strings to strings, by its lookups. *)
Definition dict : Type := string -> option string.

Definition empty : dict := fun _ => None.

Definition set (d : dict) (key value : string) : dict :=
  fun k => if String.eqb k key then Some value else d k.

(** [next(color_cycle)] at its [j]-th call, on a palette with a first
    colour (the palette of the source has ten). *)
Definition color_cycle (palette : string * list string) (j : nat) : string :=
  nth (j mod S (length (snd palette))) (fst palette :: snd palette) (fst palette).

(** The comprehension of [assign_colors]: an empty name is skipped and
    takes no colour of the cycle; a name met again takes the next colour. *)
Fixpoint assign_from (palette : string * list string) (doctors : list string)
    (j : nat) (out : dict) : dict :=
  match doctors with
  | [] => out
  | doctor :: rest =>
      if String.eqb doctor "" then assign_from palette rest j out
      else assign_from palette rest (S j) (set out doctor (color_cycle palette j))
  end.

Definition assign_colors (palette : string * list string) (doctors : list string)
  : dict :=
  set (assign_from palette doctors 0 empty) "" "#000000".










End AppView.


(** The variables a constraint mentions. *)
Definition literal_var (l : CpModel.literal) : CpModel.var :=
  match l with
  | CpModel.Lit v => v
  | CpModel.Not v => v
  end.

Definition expr_vars (e : CpModel.expr) : list CpModel.var :=
  match e with
  | CpModel.Const _ => []
  | CpModel.Var v => [v]
  | CpModel.Sum vs => vs
  end.

Definition constraint_vars (c : CpModel.constraint) : list CpModel.var :=
  match CpModel.ct_body c with
  | CpModel.Lin lhs _ rhs => expr_vars lhs ++ expr_vars rhs
  | CpModel.LinMax target exprs => target :: exprs
  end ++ map literal_var (CpModel.enforcement_literal c).

(** Engines for the fixtures of [examples]: each tries the fixture's valid
    schedule. *)
Definition fixture_solver (start_idx : Z) (e : CpSat.example) : CpModel.Solver :=
  CpModel.try_candidate
    (Validator.valuation_of (CpSat.weekend_fridays start_idx (CpSat.month_length e))
                            (CpSat.valid_schedule e)).

(* ------------------------------------------------------------------ *)
(** ** Facts about the Python primitives *)

Import Py CpModel CpSat.

Lemma friday_index : index "Friday" days = Ok friday.
Proof. reflexivity. Qed.

Lemma in_range (x k : Z) : In x (range k) <-> 0 <= x < k.
Proof.
  unfold range. rewrite in_map_iff. split.
  - intros (j & <- & Hj). apply in_seq in Hj. lia.
  - intros H. exists (Z.to_nat x). split; [lia|]. apply in_seq. lia.
Qed.

Lemma range_nonpos (k : Z) : k <= 0 -> range k = [].
Proof.
  intros H. unfold range. replace (Z.to_nat k) with 0%nat by lia. reflexivity.
Qed.

Lemma length_range (k : Z) : length (range k) = Z.to_nat k.
Proof. unfold range. now rewrite length_map, length_seq. Qed.

Lemma map_fst_combine_eq {A B} (l : list A) (l' : list B) :
  length l = length l' -> map fst (combine l l') = l.
Proof.
  revert l'. induction l as [|a l IH]; intros [|b l'] H; simpl in *;
    try discriminate; [reflexivity|]. f_equal. apply IH. lia.
Qed.

Lemma map_snd_combine_eq {A B} (l : list A) (l' : list B) :
  length l = length l' -> map snd (combine l l') = l'.
Proof.
  revert l'. induction l as [|a l IH]; intros [|b l'] H; simpl in *;
    try discriminate; [reflexivity|]. f_equal. apply IH. lia.
Qed.

Lemma map_fst_enumerate {A} (l : list A) : map fst (enumerate l) = range (len l).
Proof.
  unfold enumerate. apply map_fst_combine_eq.
  rewrite length_range. unfold len. lia.
Qed.

Lemma map_snd_enumerate {A} (l : list A) : map snd (enumerate l) = l.
Proof.
  unfold enumerate. apply map_snd_combine_eq.
  rewrite length_range. unfold len. lia.
Qed.

Lemma in_enumerate_l {A} (l : list A) (k : Z) (x : A) :
  In (k, x) (enumerate l) -> 0 <= k < len l /\ In x l.
Proof.
  intros H. split.
  - apply in_range. rewrite <- map_fst_enumerate.
    apply in_map_iff. now exists (k, x).
  - rewrite <- (map_snd_enumerate l). apply in_map_iff. now exists (k, x).
Qed.

Lemma in_enumerate_of_index {A} (l : list A) (k : Z) :
  0 <= k < len l -> exists x, In (k, x) (enumerate l).
Proof.
  intros H. apply in_range in H. rewrite <- map_fst_enumerate in H.
  apply in_map_iff in H. destruct H as ([k' x] & Hk & Hin). simpl in Hk.
  subst k'. now exists x.
Qed.

Lemma in_enumerate_of_elem {A} (l : list A) (x : A) :
  In x l -> exists k, In (k, x) (enumerate l).
Proof.
  intros H. rewrite <- (map_snd_enumerate l) in H.
  apply in_map_iff in H. destruct H as ([k x'] & Hx & Hin). simpl in Hx.
  subst x'. now exists k.
Qed.

(** Case analysis on every integer comparison of the goal. *)
Ltac zcases :=
  repeat match goal with
  | |- context [?a <? ?b] => destruct (Z.ltb_spec a b)
  | |- context [?a <=? ?b] => destruct (Z.leb_spec a b)
  | |- context [?a =? ?b] => destruct (Z.eqb_spec a b)
  end; simpl; try reflexivity; try lia.

Lemma nth_error_range (k : Z) (j : nat) :
  (j < Z.to_nat k)%nat -> nth_error (range k) j = Some (Z.of_nat j).
Proof.
  intros H. unfold range. rewrite nth_error_map, nth_error_seq.
  apply Nat.ltb_lt in H. now rewrite H.
Qed.

Lemma getitem_day_vars_nonneg (m d : Z) :
  0 <= d < m -> getitem (day_vars m) d = Ok (day_ d).
Proof.
  intros H. unfold getitem, day_vars, len. rewrite length_map, length_range.
  replace (Z.of_nat (Z.to_nat m)) with m by lia.
  rewrite nth_error_map.
  destruct (d <? 0) eqn:Hd; [lia|].
  rewrite nth_error_range by lia.
  replace (Z.of_nat (Z.to_nat d)) with d by lia. zcases.
Qed.

Lemma getitem_day_vars_neg (m d : Z) :
  - m <= d < 0 -> getitem (day_vars m) d = Ok (day_ (m + d)).
Proof.
  intros H. unfold getitem, day_vars, len. rewrite length_map, length_range.
  replace (Z.of_nat (Z.to_nat m)) with m by lia.
  rewrite nth_error_map.
  destruct (d <? 0) eqn:Hd; [|lia].
  rewrite nth_error_range by lia.
  replace (Z.of_nat (Z.to_nat (m + d))) with (m + d) by lia. zcases.
Qed.

Lemma getitem_day_vars_out (m d : Z) :
  d < - m \/ Z.max 0 m <= d -> getitem (day_vars m) d = Raise IndexError.
Proof.
  intros H. unfold getitem, day_vars, len. rewrite length_map, length_range.
  destruct (d <? 0) eqn:Hd; zcases.
Qed.

Lemma getitem_day_vars_ok (m d : Z) (v : var) :
  getitem (day_vars m) d = Ok v ->
  - m <= d < m /\ v = day_ (if d <? 0 then m + d else d).
Proof.
  intros H.
  destruct (Z_lt_ge_dec d (- m)) as [Hlo|Hlo];
    [rewrite getitem_day_vars_out in H by lia; discriminate|].
  destruct (Z_lt_ge_dec d (Z.max 0 m)) as [Hhi|Hhi];
    [|rewrite getitem_day_vars_out in H by lia; discriminate].
  destruct (d <? 0) eqn:Hd.
  - apply Z.ltb_lt in Hd. rewrite getitem_day_vars_neg in H by lia.
    inversion H. split; [lia|reflexivity].
  - apply Z.ltb_ge in Hd. rewrite getitem_day_vars_nonneg in H by lia.
    inversion H. split; [lia|reflexivity].
Qed.

(* ------------------------------------------------------------------ *)
(** ** Structure of the built model *)

Lemma disallowed_Ok_iff (m : Z) (pairs : list (Z * Z)) :
  Forall (fun id => - m <= snd id < m) pairs <->
  disallowed m pairs =
    Ok (map (fun id : Z * Z =>
               Add (Var (day_ (if snd id <? 0 then m + snd id else snd id)))
                   Ne (Const (fst id))) pairs).
Proof.
  induction pairs as [|[i d] ps IH]; simpl.
  - split; [reflexivity|constructor].
  - unfold disallowed in *. simpl. split.
    + intros H. inversion H as [|? ? Hd Hps]; subst. simpl in Hd.
      apply IH in Hps. rewrite Hps.
      destruct (d <? 0) eqn:E.
      * apply Z.ltb_lt in E. rewrite getitem_day_vars_neg by lia. reflexivity.
      * apply Z.ltb_ge in E. rewrite getitem_day_vars_nonneg by lia. reflexivity.
    + intros H.
      destruct (getitem (day_vars m) d) as [v|e] eqn:G; simpl in H;
        [|discriminate].
      apply getitem_day_vars_ok in G. destruct G as [Hd ->].
      match type of H with
      | Py.bind ?r _ = _ => destruct r as [cs|e] eqn:R
      end; simpl in H; [|discriminate].
      constructor; [exact Hd|]. apply IH. f_equal. now inversion H.
Qed.

Lemma disallowed_cases (m : Z) (pairs : list (Z * Z)) :
  (exists dis, disallowed m pairs = Ok dis) \/
  disallowed m pairs = Raise IndexError.
Proof.
  unfold disallowed. induction pairs as [|[i d] ps IH]; simpl.
  - left. now eexists.
  - destruct (Z_lt_ge_dec d (- m)) as [Hlo|Hlo];
      [rewrite getitem_day_vars_out by lia; now right|].
    destruct (Z_lt_ge_dec d (Z.max 0 m)) as [Hhi|Hhi];
      [|rewrite getitem_day_vars_out by lia; now right].
    assert (G : exists v, getitem (day_vars m) d = Ok v).
    { destruct (Z_lt_ge_dec d 0).
      - eexists. apply getitem_day_vars_neg. lia.
      - eexists. apply getitem_day_vars_nonneg. lia. }
    destruct G as [v ->]. simpl.
    destruct IH as [[dis ->]| ->]; simpl; [left; now eexists|now right].
Qed.

Lemma disallowed_Raise_iff (m : Z) (pairs : list (Z * Z)) :
  disallowed m pairs = Raise IndexError <->
  Exists (fun id => ~ (- m <= snd id < m)) pairs.
Proof.
  split.
  - intros H. apply neg_Forall_Exists_neg.
    + intros [i d]. simpl.
      destruct (Z_le_dec (- m) d), (Z_lt_dec d m); (left; lia) || (right; lia).
    + intros F. apply disallowed_Ok_iff in F. congruence.
  - intros E. destruct (disallowed_cases m pairs) as [[dis Hd]|Hr]; [|exact Hr].
    exfalso. apply Exists_exists in E. destruct E as (id & Hin & Hbad).
    assert (F : Forall (fun id => - m <= snd id < m) pairs).
    { apply disallowed_Ok_iff. rewrite Hd. f_equal.
      clear Hin Hbad id. revert dis Hd. unfold disallowed.
      induction pairs as [|[i d] ps IH]; simpl; intros dis Hd.
      - now inversion Hd.
      - destruct (getitem (day_vars m) d) as [v|e] eqn:G; simpl in Hd;
          [|discriminate].
        apply getitem_day_vars_ok in G. destruct G as [_ ->].
        match type of Hd with
        | Py.bind ?r _ = _ => destruct r as [cs|e] eqn:R
        end; simpl in Hd; [|discriminate].
        inversion Hd. f_equal. now apply IH. }
    rewrite Forall_forall in F. apply Hbad, F, Hin.
Qed.

Lemma fair_weekends_Ok (n : Z) (fr : list Z) :
  n <> 0 ->
  fair_weekends n fr =
    Ok (if 0 <? W fr then
          flat_map (fun i =>
            let c := Sum (map (fun k => w_ i k) (range (W fr))) in
            [ Add c Ge (Const (W fr / n)); Add c Le (Const ((W fr + n - 1) / n)) ])
            (range n)
        else []).
Proof.
  intros Hn. unfold fair_weekends, floordiv.
  destruct (0 <? W fr); [|reflexivity].
  destruct (Z.eqb_spec n 0); [contradiction|reflexivity].
Qed.

(** The model [build] returns, spelled out. *)
Lemma build_Ok_inv (n m : Z) (fr : list Z) (pairs : list (Z * Z)) (M : CpModel) :
  build n m fr pairs = Ok M ->
  n <> 0 /\
  exists dis wfair,
    disallowed m pairs = Ok dis /\
    fair_weekends n fr = Ok wfair /\
    variables M = day_decls n m ++ b_decls n m ++ w_decls n fr ++ weekend_used_decls n /\
    constraints M =
      b_links n m ++ w_links n fr ++ no_four_consecutive n m ++ weekend_coverage fr
        ++ weekend_spread n fr ++ dis
        ++ fair_totals n m (m / n) ((m + n - 1) / n) ++ window_coverage n m ++ wfair.
Proof.
  unfold build. intros H.
  destruct (disallowed m pairs) as [dis|e] eqn:D; simpl in H; [|discriminate].
  unfold floordiv in H at 1 2.
  destruct (Z.eqb_spec n 0) as [E|E]; simpl in H; [discriminate|].
  rewrite (fair_weekends_Ok n fr E) in H. simpl in H.
  split; [exact E|]. exists dis. eexists. split; [reflexivity|].
  split; [apply fair_weekends_Ok; exact E|].
  inversion H. split; reflexivity.
Qed.

(** The exceptions of model construction, in the order they can occur. *)
Lemma build_cases (n m : Z) (fr : list Z) (pairs : list (Z * Z)) :
  (Exists (fun id => ~ (- m <= snd id < m)) pairs /\
   build n m fr pairs = Raise IndexError) \/
  (Forall (fun id => - m <= snd id < m) pairs /\ n = 0 /\
   build n m fr pairs = Raise ZeroDivisionError) \/
  (Forall (fun id => - m <= snd id < m) pairs /\ n <> 0 /\
   exists M, build n m fr pairs = Ok M).
Proof.
  destruct (disallowed_cases m pairs) as [[dis Hd]|Hr].
  - right.
    assert (F : Forall (fun id => - m <= snd id < m) pairs).
    { apply Forall_forall. intros id Hin.
      destruct (Z_le_dec (- m) (snd id)), (Z_lt_dec (snd id) m); try lia;
        exfalso;
        assert (X : disallowed m pairs = Raise IndexError)
          by (apply disallowed_Raise_iff, Exists_exists; exists id; split;
              [exact Hin|cbv beta; lia]);
        congruence. }
    unfold build. rewrite Hd. simpl. unfold floordiv.
    destruct (Z.eqb_spec n 0) as [E|E]; simpl.
    + left. split; [exact F|]. split; [exact E|reflexivity].
    + right. rewrite (fair_weekends_Ok n fr E). simpl.
      split; [exact F|]. split; [exact E|]. eexists. reflexivity.
  - left. split; [now apply disallowed_Raise_iff|].
    unfold build. now rewrite Hr.
Qed.

(* ------------------------------------------------------------------ *)
(** ** What a valuation satisfying the model satisfies *)

Lemma lin_holds (s : valuation) (lhs rhs : expr) (r : rel) :
  constraint_holds s (Add lhs r rhs) = rel_holds r (eval s lhs) (eval s rhs).
Proof. reflexivity. Qed.

Lemma enforced_holds (s : valuation) (lhs rhs : expr) (r : rel) (l : literal) :
  constraint_holds s (OnlyEnforceIf (Add lhs r rhs) l) = true ->
  lit_holds s l = true -> rel_holds r (eval s lhs) (eval s rhs) = true.
Proof.
  unfold constraint_holds, OnlyEnforceIf, Add. simpl.
  intros H Hl. now rewrite Hl in H.
Qed.

Section Solutions.
Variables n m : Z.
Variable fr : list Z.
Variable pairs : list (Z * Z).
Variable M : CpModel.
Variable s : valuation.
Hypothesis HM : build n m fr pairs = Ok M.
Hypothesis Hs : model_holds s M = true.

Lemma sol_constraint (c : constraint) :
  In c (constraints M) -> constraint_holds s c = true.
Proof.
  intros H. unfold model_holds in Hs. apply andb_true_iff in Hs.
  destruct Hs as [_ Hc]. rewrite forallb_forall in Hc. now apply Hc.
Qed.

Lemma sol_domain (v : var) (lb ub : Z) :
  In (v, (lb, ub)) (variables M) -> lb <= s v <= ub.
Proof.
  intros H. unfold model_holds in Hs. apply andb_true_iff in Hs.
  destruct Hs as [Hd _]. rewrite forallb_forall in Hd.
  specialize (Hd _ H). simpl in Hd. apply andb_true_iff in Hd. lia.
Qed.

Lemma sol_n_nonzero : n <> 0.
Proof. now destruct (build_Ok_inv _ _ _ _ _ HM). Qed.

(** Membership in the model, block by block. *)
Lemma in_model_blocks (c : constraint) :
  In c (b_links n m) \/ In c (w_links n fr) \/ In c (no_four_consecutive n m)
  \/ In c (weekend_coverage fr) \/ In c (weekend_spread n fr)
  \/ In c (fair_totals n m (m / n) ((m + n - 1) / n))
  \/ In c (window_coverage n m) ->
  In c (constraints M).
Proof.
  destruct (build_Ok_inv _ _ _ _ _ HM) as (_ & dis & wfair & _ & _ & _ & ->).
  rewrite !in_app_iff. tauto.
Qed.

Lemma in_model_disallowed (i d : Z) :
  In (i, d) pairs ->
  In (Add (Var (day_ (if d <? 0 then m + d else d))) Ne (Const i)) (constraints M).
Proof.
  intros Hin.
  destruct (build_Ok_inv _ _ _ _ _ HM) as (_ & dis & wfair & Hd & _ & _ & ->).
  destruct (disallowed_cases m pairs) as [[dis' Hd']|Hr]; [|congruence].
  assert (F : Forall (fun id => - m <= snd id < m) pairs).
  { apply Forall_forall. intros id Hid.
    destruct (Z_le_dec (- m) (snd id)), (Z_lt_dec (snd id) m); try lia;
      exfalso;
      assert (X : disallowed m pairs = Raise IndexError)
        by (apply disallowed_Raise_iff, Exists_exists; exists id; split;
            [exact Hid|cbv beta; lia]);
      congruence. }
  apply disallowed_Ok_iff in F. rewrite F in Hd. inversion Hd as [E].
  rewrite !in_app_iff. do 5 right. left.
  apply in_map_iff. exists (i, d). split; [reflexivity|exact Hin].
Qed.

Lemma in_model_fair_weekends (c : constraint) (i : Z) :
  0 < W fr -> 0 <= i < n ->
  (let e := Sum (map (fun k => w_ i k) (range (W fr))) in
   c = Add e Ge (Const (W fr / n)) \/ c = Add e Le (Const ((W fr + n - 1) / n))) ->
  In c (constraints M).
Proof.
  intros HW Hi Hc.
  destruct (build_Ok_inv _ _ _ _ _ HM) as (Hn & dis & wfair & _ & Hw & _ & ->).
  rewrite fair_weekends_Ok in Hw by exact Hn.
  apply Z.ltb_lt in HW. rewrite HW in Hw. inversion Hw as [E].
  rewrite !in_app_iff. do 8 right.
  apply in_flat_map. exists i. split; [now apply in_range|].
  simpl in *. destruct Hc as [->| ->]; auto.
Qed.

Lemma in_variables (d : var * (Z * Z)) :
  In d (day_decls n m) \/ In d (b_decls n m) \/ In d (w_decls n fr)
  \/ In d (weekend_used_decls n) ->
  In d (variables M).
Proof.
  destruct (build_Ok_inv _ _ _ _ _ HM) as (_ & dis & wfair & _ & _ & -> & _).
  rewrite !in_app_iff. tauto.
Qed.

(** Domains. *)
Lemma sol_day_domain (d : Z) : 0 <= d < m -> 0 <= s (day_ d) <= n - 1.
Proof.
  intros Hd. apply sol_domain, in_variables. left.
  apply in_map_iff. exists d. split; [reflexivity|now apply in_range].
Qed.

Lemma sol_b_domain (i d : Z) :
  0 <= i < n -> 0 <= d < m -> s (b_ i d) = 0 \/ s (b_ i d) = 1.
Proof.
  intros Hi Hd. assert (0 <= s (b_ i d) <= 1); [|lia].
  apply sol_domain, in_variables. right. left.
  apply in_flat_map. exists i. split; [now apply in_range|].
  apply in_map_iff. exists d. split; [reflexivity|now apply in_range].
Qed.

Lemma sol_w_domain (i k d : Z) :
  0 <= i < n -> In (k, d) (enumerate fr) -> s (w_ i k) = 0 \/ s (w_ i k) = 1.
Proof.
  intros Hi Hk. assert (0 <= s (w_ i k) <= 1); [|lia].
  apply sol_domain, in_variables. right. right. left.
  apply in_flat_map. exists i. split; [now apply in_range|].
  apply in_map_iff. exists (k, d). split; [reflexivity|exact Hk].
Qed.

Lemma sol_weekend_used_domain (i : Z) :
  0 <= i < n -> s (weekend_used_ i) = 0 \/ s (weekend_used_ i) = 1.
Proof.
  intros Hi. assert (0 <= s (weekend_used_ i) <= 1); [|lia].
  apply sol_domain, in_variables. right. right. right.
  apply in_map_iff. exists i. split; [reflexivity|now apply in_range].
Qed.

(** The links of the indicators [b]. *)
Lemma sol_b_iff (i d : Z) :
  0 <= i < n -> 0 <= d < m -> (s (b_ i d) = 1 <-> s (day_ d) = i).
Proof.
  intros Hi Hd.
  assert (Hin : forall c,
    In c [ OnlyEnforceIf (Add (Var (day_ d)) Eq (Const i)) (Lit (b_ i d));
           OnlyEnforceIf (Add (Var (day_ d)) Ne (Const i)) (Not (b_ i d)) ] ->
    constraint_holds s c = true).
  { intros c Hc. apply sol_constraint, in_model_blocks. left.
    apply in_flat_map. exists i. split; [now apply in_range|].
    apply in_flat_map. exists d. split; [now apply in_range|exact Hc]. }
  pose proof (enforced_holds s _ _ _ _ (Hin _ (or_introl eq_refl))) as H1.
  pose proof (enforced_holds s _ _ _ _ (Hin _ (or_intror (or_introl eq_refl)))) as H0.
  simpl in H1, H0.
  destruct (sol_b_domain i d Hi Hd) as [E|E]; rewrite E in *.
  - specialize (H0 eq_refl). apply negb_true_iff, Z.eqb_neq in H0.
    split; [discriminate|contradiction].
  - specialize (H1 eq_refl). apply Z.eqb_eq in H1. tauto.
Qed.

(** 2a: both days of a weekend block have the same doctor. *)
Lemma sol_weekend_coverage (d : Z) : In d fr -> s (day_ d) = s (day_ (d + 1)).
Proof.
  intros Hd.
  assert (H : constraint_holds s (Add (Var (day_ d)) Eq (Var (day_ (d + 1)))) = true).
  { apply sol_constraint, in_model_blocks. do 3 right. left.
    apply in_map_iff. now exists d. }
  rewrite lin_holds in H. simpl in H. now apply Z.eqb_eq in H.
Qed.

(** The links of the indicators [w]: the constraints tie [w_ i k] to the
    Friday alone when it is false; 2a supplies the Saturday. *)
Lemma sol_w_iff (i k d : Z) :
  0 <= i < n -> In (k, d) (enumerate fr) ->
  (s (w_ i k) = 1 <-> s (day_ d) = i /\ s (day_ (d + 1)) = i).
Proof.
  intros Hi Hk.
  assert (Hin : forall c,
    In c [ OnlyEnforceIf (Add (Var (day_ d)) Eq (Const i)) (Lit (w_ i k));
           OnlyEnforceIf (Add (Var (day_ (d + 1))) Eq (Const i)) (Lit (w_ i k));
           OnlyEnforceIf (Add (Var (day_ d)) Ne (Const i)) (Not (w_ i k)) ] ->
    constraint_holds s c = true).
  { intros c Hc. apply sol_constraint, in_model_blocks. right. left.
    apply in_flat_map. exists i. split; [now apply in_range|].
    apply in_flat_map. exists (k, d). split; [exact Hk|exact Hc]. }
  pose proof (enforced_holds s _ _ _ _ (Hin _ (or_introl eq_refl))) as H1.
  pose proof (enforced_holds s _ _ _ _ (Hin _ (or_intror (or_introl eq_refl)))) as H2.
  pose proof (enforced_holds s _ _ _ _
                (Hin _ (or_intror (or_intror (or_introl eq_refl))))) as H0.
  simpl in H1, H2, H0.
  destruct (sol_w_domain i k d Hi Hk) as [E|E]; rewrite E in *.
  - specialize (H0 eq_refl). apply negb_true_iff, Z.eqb_neq in H0.
    split; [discriminate|tauto].
  - specialize (H1 eq_refl). specialize (H2 eq_refl).
    apply Z.eqb_eq in H1, H2. tauto.
Qed.

End Solutions.

(* ------------------------------------------------------------------ *)
(** ** Sums of indicators are counts *)

Lemma sum_indicator (p : Z -> bool) (l : list Z) :
  Py.sum (map (fun x => if p x then 1 else 0) l) = Validator.count p l.
Proof.
  unfold Validator.count, len.
  induction l as [|x l IH]; [reflexivity|].
  cbn [map Py.sum fold_right filter]. fold (Py.sum (map (fun x => if p x then 1 else 0) l)).
  rewrite IH. destruct (p x); cbn [length]; lia.
Qed.

Lemma sum_map_ext_in {A} (f g : A -> Z) (l : list A) :
  (forall x, In x l -> f x = g x) -> Py.sum (map f l) = Py.sum (map g l).
Proof. intros H. f_equal. now apply map_ext_in. Qed.

Lemma count_ext_in (p q : Z -> bool) (l : list Z) :
  (forall x, In x l -> p x = q x) -> Validator.count p l = Validator.count q l.
Proof.
  intros H. unfold Validator.count. f_equal. now apply filter_ext_in.
Qed.

Lemma count_bounds (p : Z -> bool) (l : list Z) :
  0 <= Validator.count p l <= len l.
Proof.
  unfold Validator.count, len. pose proof (filter_length_le p l). lia.
Qed.

Lemma max_of_bool (l : list Z) (x : Z) :
  (forall y, In y l -> y = 0 \/ y = 1) ->
  max_of l = Some x ->
  (x = 0 \/ x = 1) /\ (x = 1 <-> In 1 l).
Proof.
  revert x. induction l as [|y l IH]; simpl; intros x Hb Hm; [discriminate|].
  destruct (max_of l) as [z|] eqn:E.
  - inversion Hm; subst x.
    destruct (IH z (fun y' Hy => Hb y' (or_intror Hy)) eq_refl) as [Hz Hiff].
    destruct (Hb y (or_introl eq_refl)) as [Hy|Hy], Hz as [Hz|Hz]; subst y z;
      simpl; (split; [lia|]); split; intros H; try lia; try tauto.
  - inversion Hm; subst x. destruct l; [|simpl in E; destruct (max_of l); discriminate].
    split; [apply Hb; now left|]. split; [intros ->; now left|].
    intros [H|[]]. exact H.
Qed.

Lemma max_of_none (l : list Z) : max_of l = None <-> l = [].
Proof.
  destruct l; simpl; [tauto|]. destruct (max_of l); split; discriminate.
Qed.

Lemma in_weekend_fridays (start_idx m d : Z) :
  In d (weekend_fridays start_idx m) <->
  0 <= d /\ d + 1 < m /\ (start_idx + d) mod 7 = friday.
Proof.
  unfold weekend_fridays. rewrite filter_In, in_range, andb_true_iff.
  rewrite Z.eqb_eq, Z.ltb_lt. intuition lia.
Qed.

Lemma doctor_on_schedule (s : valuation) (m d : Z) :
  0 <= d < m ->
  Validator.doctor_on (map (fun d => s (day_ d)) (range m)) d = s (day_ d).
Proof.
  intros H. unfold Validator.doctor_on.
  apply nth_error_nth. rewrite nth_error_map, nth_error_range by lia.
  simpl. replace (Z.of_nat (Z.to_nat d)) with d by lia. reflexivity.
Qed.

(* ------------------------------------------------------------------ *)
(** ** The schedule read off a solution of the model *)

Section Agreement.
Variables n m start_idx : Z.
Variable pairs : list (Z * Z).
Variable M : CpModel.
Variable s : valuation.
Hypothesis HM : build_model n m start_idx pairs = Ok M.
Hypothesis Hs : model_holds s M = true.

Let fr : list Z := weekend_fridays start_idx m.
Let sched : list Z := map (fun d => s (day_ d)) (range m).

Lemma agree_doctor_on (d : Z) :
  0 <= d < m -> Validator.doctor_on sched d = s (day_ d).
Proof. apply doctor_on_schedule. Qed.

Lemma agree_covers (i d : Z) :
  In d fr ->
  Validator.covers sched i d = (s (day_ d) =? i) && (s (day_ (d + 1)) =? i).
Proof.
  intros Hd. apply in_weekend_fridays in Hd. unfold Validator.covers.
  rewrite !agree_doctor_on by lia. reflexivity.
Qed.

Lemma agree_w (i k d : Z) :
  0 <= i < n -> In (k, d) (enumerate fr) ->
  s (w_ i k) = if Validator.covers sched i d then 1 else 0.
Proof.
  intros Hi Hk.
  pose proof (sol_w_iff n m fr pairs M s HM Hs i k d Hi Hk) as Hiff.
  pose proof (sol_w_domain n m fr pairs M s HM Hs i k d Hi Hk) as Hdom.
  rewrite agree_covers by (eapply in_enumerate_l; exact Hk).
  destruct (Z.eqb_spec (s (day_ d)) i), (Z.eqb_spec (s (day_ (d + 1))) i);
    simpl; intuition lia.
Qed.

(** The max-equality of 2b, read on the schedule. *)
Lemma agree_weekend_used (i : Z) :
  0 <= i < n ->
  s (weekend_used_ i) = if existsb (Validator.covers sched i) fr then 1 else 0.
Proof.
  intros Hi.
  assert (Hc : constraint_holds s
            (AddMaxEquality (weekend_used_ i) (map (fun k => w_ i k) (range (W fr))))
          = true).
  { apply (sol_constraint M s Hs), (in_model_blocks n m fr pairs M HM).
    do 4 right. left. unfold weekend_spread. apply in_app_iff. left.
    apply in_map_iff. exists i. split; [reflexivity|now apply in_range]. }
  unfold constraint_holds in Hc. simpl in Hc.
  destruct (max_of (map s (map (fun k => w_ i k) (range (W fr))))) as [x|] eqn:E;
    [|discriminate].
  apply Z.eqb_eq in Hc. rewrite Hc.
  apply max_of_bool in E.
  - destruct E as [Hx Hiff].
    destruct (existsb (Validator.covers sched i) fr) eqn:Ex.
    + apply Hiff. apply existsb_exists in Ex. destruct Ex as (d & Hd & Hcov).
      destruct (in_enumerate_of_elem fr d Hd) as [k Hk].
      apply in_map_iff. exists (w_ i k). split.
      * rewrite (agree_w i k d Hi Hk), Hcov. reflexivity.
      * apply in_map_iff. exists k. split; [reflexivity|].
        apply in_range. eapply in_enumerate_l. exact Hk.
    + destruct Hx as [Hx|Hx]; [exact Hx|exfalso].
      apply Hiff in Hx. apply in_map_iff in Hx. destruct Hx as (v & Hv & Hin).
      apply in_map_iff in Hin. destruct Hin as (k & <- & Hk).
      apply in_range in Hk.
      destruct (in_enumerate_of_index fr k Hk) as [d Hd].
      rewrite (agree_w i k d Hi Hd) in Hv.
      destruct (Validator.covers sched i d) eqn:Hcov; [|discriminate].
      assert (X : existsb (Validator.covers sched i) fr = true)
        by (apply existsb_exists; exists d; split;
            [eapply in_enumerate_l; exact Hd|exact Hcov]).
      congruence.
  - intros y Hy. apply in_map_iff in Hy. destruct Hy as (v & <- & Hin).
    apply in_map_iff in Hin. destruct Hin as (k & <- & Hk).
    apply in_range in Hk.
    destruct (in_enumerate_of_index fr k Hk) as [d Hd].
    exact (sol_w_domain n m fr pairs M s HM Hs i k d Hi Hd).
Qed.

(** 2b on the schedule: the doctors with a weekend are [min(n, W)]. *)
Lemma agree_weekend_doctors :
  Validator.weekend_doctors n fr sched = Z.min n (W fr).
Proof.
  assert (Hc : constraint_holds s (Add (Sum (weekend_used n)) Eq (Const (Z.min n (W fr))))
               = true).
  { apply (sol_constraint M s Hs), (in_model_blocks n m fr pairs M HM).
    do 4 right. left. unfold weekend_spread. apply in_app_iff. right. now left. }
  rewrite lin_holds in Hc. simpl in Hc. apply Z.eqb_eq in Hc.
  rewrite <- Hc. unfold Validator.weekend_doctors, weekend_used.
  rewrite <- sum_indicator, map_map. apply sum_map_ext_in.
  intros i Hi. apply in_range in Hi. symmetry. now apply agree_weekend_used.
Qed.

(** A satisfiable model has a doctor and a weekend block. *)
Lemma agree_n_pos : 1 <= n.
Proof.
  pose proof agree_weekend_doctors as H.
  pose proof (sol_n_nonzero n m fr pairs M HM) as Hn.
  unfold Validator.weekend_doctors in H.
  pose proof (count_bounds (fun i => existsb (Validator.covers sched i) fr) (range n)).
  assert (0 <= W fr) by (unfold W, len; lia).
  lia.
Qed.

Lemma agree_W_pos : 1 <= W fr.
Proof.
  pose proof agree_n_pos as Hn.
  assert (Hc : constraint_holds s
            (AddMaxEquality (weekend_used_ 0) (map (fun k => w_ 0 k) (range (W fr))))
          = true).
  { apply (sol_constraint M s Hs), (in_model_blocks n m fr pairs M HM).
    do 4 right. left. unfold weekend_spread. apply in_app_iff. left.
    apply in_map_iff. exists 0. split; [reflexivity|apply in_range; lia]. }
  unfold constraint_holds in Hc. simpl in Hc.
  destruct (Z_le_gt_dec 1 (W fr)) as [H|H]; [exact H|exfalso].
  rewrite range_nonpos in Hc by lia. discriminate.
Qed.

End Agreement.

(* ------------------------------------------------------------------ *)
(** ** The engine *)

Lemma try_candidate_sound (cand : valuation) : sound (try_candidate cand).
Proof.
  intros M p. unfold sound_on, try_candidate.
  destruct (model_holds cand M) eqn:E; simpl; [intros _; exact E|discriminate].
Qed.

(** A returned schedule is the day values of a solution of the model. *)
Lemma generate_Ok_inv (solve : Solver) (n m : Z) (start_day : string)
    (pairs : list (Z * Z)) (tl nw : Z) (seed : option Z) (sched : list Z) :
  sound solve ->
  cp_sat_generate_schedule solve n m start_day pairs tl nw seed = Ok sched ->
  exists start_idx M s,
    index start_day days = Ok start_idx /\
    build_model n m start_idx pairs = Ok M /\
    model_holds s M = true /\
    sched = map (fun d => s (day_ d)) (range m).
Proof.
  intros Hsound H. unfold cp_sat_generate_schedule in H.
  destruct (index start_day days) as [start_idx|e] eqn:Hi; simpl in H; [|discriminate].
  destruct (build_model n m start_idx pairs) as [M|e] eqn:HM; simpl in H; [|discriminate].
  destruct (has_solution (status (solve M (mkParameters tl nw seed)))) eqn:Hst;
    [|discriminate].
  exists start_idx, M, (Value (solve M (mkParameters tl nw seed))).
  split; [first [reflexivity|assumption]|].
  split; [first [reflexivity|assumption]|]. split.
  - exact (Hsound M _ Hst).
  - now inversion H.
Qed.

(* ------------------------------------------------------------------ *)
(** ** Weekend spread and indicator channels *)

(** C5. Whenever [cp_sat_generate_schedule] returns an assignment (the
    engine being sound), the number of doctors who cover at least one
    Friday-Saturday weekend block of it is exactly [min(n, W)], [W] being the
    number of weekend blocks of the month. *)
Theorem weekend_spread_is_equality (solve : Solver) (n m : Z) (start_day : string)
    (pairs : list (Z * Z)) (tl nw : Z) (seed : option Z) (sched : list Z) :
  sound solve ->
  cp_sat_generate_schedule solve n m start_day pairs tl nw seed = Ok sched ->
  exists start_idx,
    index start_day days = Ok start_idx /\
    Validator.weekend_doctors n (weekend_fridays start_idx m) sched
      = Z.min n (W (weekend_fridays start_idx m)).
Proof.
  intros Hsound H.
  destruct (generate_Ok_inv _ _ _ _ _ _ _ _ _ Hsound H)
    as (start_idx & M & s & Hi & HM & Hs & ->).
  exists start_idx. split; [exact Hi|].
  exact (agree_weekend_doctors n m start_idx pairs M s HM Hs).
Qed.

Lemma weekend_spread_is_equality_witness :
  cp_sat_generate_schedule
    (try_candidate (Validator.valuation_of (weekend_fridays 4 3) [0; 0; 1]))
    2 3 "Friday" [] 10 8 None = Ok [0; 0; 1] /\
  exists start_idx,
    index "Friday" days = Ok start_idx /\
    Validator.weekend_doctors 2 (weekend_fridays start_idx 3) [0; 0; 1]
      = Z.min 2 (W (weekend_fridays start_idx 3)).
Proof.
  split; [vm_compute; reflexivity|].
  apply (weekend_spread_is_equality
           (try_candidate (Validator.valuation_of (weekend_fridays 4 3) [0; 0; 1]))
           2 3 "Friday" [] 10 8 None [0; 0; 1]).
  - apply try_candidate_sound.
  - vm_compute; reflexivity.
Defined.

(** C6. In every valuation that satisfies the constructed model, [b[i,d]]
    is true exactly when day [d] is assigned doctor [i], and [w[i,k]] is true
    exactly when doctor [i] has both days of weekend block [k]; both are
    0/1. *)
Theorem indicators_channel (n m start_idx : Z) (pairs : list (Z * Z))
    (M : CpModel) (s : valuation) :
  build_model n m start_idx pairs = Ok M ->
  model_holds s M = true ->
  (forall i d, 0 <= i < n -> 0 <= d < m ->
     (lit_holds s (Lit (b_ i d)) = true <-> s (day_ d) = i) /\
     (lit_holds s (Not (b_ i d)) = true <-> s (day_ d) <> i)) /\
  (forall i k d, 0 <= i < n -> In (k, d) (enumerate (weekend_fridays start_idx m)) ->
     (lit_holds s (Lit (w_ i k)) = true <-> s (day_ d) = i /\ s (day_ (d + 1)) = i) /\
     (lit_holds s (Not (w_ i k)) = true <-> ~ (s (day_ d) = i /\ s (day_ (d + 1)) = i))).
Proof.
  intros HM Hs. unfold build_model in HM. split.
  - intros i d Hi Hd. simpl. rewrite !Z.eqb_eq.
    pose proof (sol_b_iff _ _ _ _ _ _ HM Hs i d Hi Hd).
    pose proof (sol_b_domain _ _ _ _ _ _ HM Hs i d Hi Hd).
    intuition lia.
  - intros i k d Hi Hk. simpl. rewrite !Z.eqb_eq.
    pose proof (sol_w_iff _ _ _ _ _ _ HM Hs i k d Hi Hk).
    pose proof (sol_w_domain _ _ _ _ _ _ HM Hs i k d Hi Hk).
    intuition lia.
Qed.

Lemma indicators_channel_witness :
  exists M,
    build_model 2 3 4 [] = Ok M /\
    model_holds (Validator.valuation_of (weekend_fridays 4 3) [0; 0; 1]) M = true /\
    let s := Validator.valuation_of (weekend_fridays 4 3) [0; 0; 1] in
    (forall i d, 0 <= i < 2 -> 0 <= d < 3 ->
       (lit_holds s (Lit (b_ i d)) = true <-> s (day_ d) = i) /\
       (lit_holds s (Not (b_ i d)) = true <-> s (day_ d) <> i)) /\
    (forall i k d, 0 <= i < 2 -> In (k, d) (enumerate (weekend_fridays 4 3)) ->
       (lit_holds s (Lit (w_ i k)) = true <-> s (day_ d) = i /\ s (day_ (d + 1)) = i) /\
       (lit_holds s (Not (w_ i k)) = true
        <-> ~ (s (day_ d) = i /\ s (day_ (d + 1)) = i))).
Proof.
  eexists. split; [reflexivity|]. split; [vm_compute; reflexivity|].
  cbv zeta.
  eapply (indicators_channel 2 3 4 []); [reflexivity|vm_compute; reflexivity].
Defined.

(* ------------------------------------------------------------------ *)
(** ** The windows of the no-long-run constraint *)

Lemma disallowed_Ok_inv (m : Z) (pairs : list (Z * Z)) (dis : list constraint) :
  disallowed m pairs = Ok dis ->
  Forall (fun id => - m <= snd id < m) pairs /\
  dis = map (fun id : Z * Z =>
               Add (Var (day_ (if snd id <? 0 then m + snd id else snd id)))
                   Ne (Const (fst id))) pairs.
Proof.
  intros Hd.
  assert (F : Forall (fun id => - m <= snd id < m) pairs).
  { apply Forall_forall. intros id Hid.
    destruct (Z_le_dec (- m) (snd id)), (Z_lt_dec (snd id) m); try lia;
      exfalso;
      assert (X : disallowed m pairs = Raise IndexError)
        by (apply disallowed_Raise_iff, Exists_exists; exists id; split;
            [exact Hid|cbv beta; lia]);
      congruence. }
  split; [exact F|]. apply disallowed_Ok_iff in F. congruence.
Qed.

Lemma range_4 : range 4 = [0; 1; 2; 3].
Proof. reflexivity. Qed.

Lemma in_no_four_consecutive (n m : Z) (c : constraint) :
  In c (no_four_consecutive n m) <->
  exists i d, 0 <= i < n /\ 0 <= d < m - 3 /\ c = four_days i d.
Proof.
  unfold no_four_consecutive. rewrite in_flat_map. split.
  - intros (i & Hi & Hc). apply in_map_iff in Hc. destruct Hc as (d & <- & Hd).
    apply in_range in Hi, Hd. now exists i, d.
  - intros (i & d & Hi & Hd & ->). exists i. split; [now apply in_range|].
    apply in_map_iff. exists d. split; [reflexivity|now apply in_range].
Qed.

(** The only constraints of the model of the shape [four_days i d] are
    those of block 1. *)
Lemma four_days_in_model (n m : Z) (fr : list Z) (pairs : list (Z * Z))
    (M : CpModel) (i d : Z) :
  build n m fr pairs = Ok M ->
  (In (four_days i d) (constraints M) <-> 0 <= i < n /\ 0 <= d < m - 3).
Proof.
  intros HM. split.
  - destruct (build_Ok_inv _ _ _ _ _ HM) as (Hn & dis & wfair & Hd & Hw & _ & ->).
    apply disallowed_Ok_inv in Hd. destruct Hd as [_ ->].
    rewrite fair_weekends_Ok in Hw by exact Hn. inversion Hw as [Ew]. clear Hw.
    unfold four_days. rewrite range_4. cbn [map].
    rewrite !in_app_iff.
    intros [H|[H|[H|[H|[H|[H|[H|[H|H]]]]]]]].
    + apply in_flat_map in H. destruct H as (i' & _ & H).
      apply in_flat_map in H. destruct H as (d' & _ & [H|[H|[]]]); discriminate.
    + apply in_flat_map in H. destruct H as (i' & _ & H).
      apply in_flat_map in H.
      destruct H as ([k' d'] & _ & [H|[H|[H|[]]]]); discriminate.
    + apply in_no_four_consecutive in H. destruct H as (i' & d' & Hi & Hd & E).
      unfold four_days in E. rewrite range_4 in E. cbn [map] in E.
      inversion E. subst. lia.
    + apply in_map_iff in H. destruct H as (d' & E & _). discriminate.
    + unfold weekend_spread in H. apply in_app_iff in H. destruct H as [H|[H|[]]].
      * apply in_map_iff in H. destruct H as (i' & E & _). discriminate.
      * discriminate.
    + apply in_map_iff in H. destruct H as (id & E & _). discriminate.
    + apply in_flat_map in H. destruct H as (i' & Hi & [H|[H|[]]]);
        [discriminate|].
      apply in_range in Hi. inversion H as [[E1 E2]].
      destruct (Z_le_gt_dec m 0) as [Hm|Hm];
        [rewrite range_nonpos in E1 by lia; discriminate|].
      assert (Hlen : length (range m) = 4%nat)
        by (rewrite <- (length_map (fun d0 => b_ i' d0)), E1; reflexivity).
      rewrite length_range in Hlen.
      assert (H0 : nth_error (map (fun d0 => b_ i' d0) (range m)) 0 = Some (b_ i' 0))
        by (rewrite nth_error_map, nth_error_range by lia; reflexivity).
      rewrite E1 in H0. simpl in H0. inversion H0. subst. lia.
    + unfold window_coverage in H. destruct (window_size n <=? m); [|destruct H].
      apply in_flat_map in H. destruct H as (i' & _ & H).
      apply in_map_iff in H. destruct H as (d' & E & _). discriminate.
    + destruct (0 <? W fr); [|subst wfair; destruct H]. subst wfair.
      apply in_flat_map in H. destruct H as (i' & Hi & [H|[H|[]]]);
        [discriminate|].
      inversion H as [[E1 E2]].
      destruct (Z_le_gt_dec (W fr) 0) as [HW|HW];
        [rewrite range_nonpos in E1 by lia; discriminate|].
      assert (H0 : nth_error (map (fun k => w_ i' k) (range (W fr))) 0 = Some (w_ i' 0))
        by (rewrite nth_error_map, nth_error_range by lia; reflexivity).
      rewrite E1 in H0. discriminate.
  - intros [Hi Hd]. apply (in_model_blocks n m fr pairs M HM).
    right. right. left. apply in_no_four_consecutive. now exists i, d.
Qed.

(** Block 1 on a solution: no four consecutive days with one doctor. *)
Lemma sol_no_long_run (n m : Z) (fr : list Z) (pairs : list (Z * Z))
    (M : CpModel) (s : valuation) (d : Z) :
  build n m fr pairs = Ok M ->
  model_holds s M = true ->
  0 <= d < m - 3 ->
  ~ (s (day_ d) = s (day_ (d + 1)) /\ s (day_ (d + 1)) = s (day_ (d + 2))
     /\ s (day_ (d + 2)) = s (day_ (d + 3))).
Proof.
  intros HM Hs Hd (E1 & E2 & E3).
  pose proof (sol_day_domain n m fr pairs M s HM Hs d ltac:(lia)) as Hdom.
  set (i := s (day_ d)) in *.
  assert (Hi : 0 <= i < n) by lia.
  assert (Hc : constraint_holds s (four_days i d) = true).
  { apply (sol_constraint M s Hs). apply (four_days_in_model n m fr pairs M i d HM).
    split; assumption. }
  unfold four_days in Hc. rewrite lin_holds, range_4 in Hc.
  cbn [map eval Py.sum fold_right rel_holds] in Hc. apply Z.leb_le in Hc.
  assert (B : forall k, 0 <= k <= 3 -> s (day_ (d + k)) = i -> s (b_ i (d + k)) = 1).
  { intros k Hk E. apply (sol_b_iff n m fr pairs M s HM Hs i (d + k)); [lia|lia|exact E]. }
  rewrite (B 0), (B 1), (B 2), (B 3) in Hc; try lia.
  replace (d + 0) with d by lia. reflexivity.
Qed.

(** C7 (as amended). A no-long-run constraint is in the model for doctor
    [i] and window start [d] exactly when [0 <= i < n] and [0 <= d < m - 3]:
    the last window starts at [m - 4] and ends on the last day. For [m < 4]
    the model has none. On every solution no four consecutive days of the
    month have the same doctor. *)
Theorem no_long_run_windows (n m start_idx : Z) (pairs : list (Z * Z)) (M : CpModel) :
  build_model n m start_idx pairs = Ok M ->
  (forall i d, In (four_days i d) (constraints M) <-> 0 <= i < n /\ 0 <= d < m - 3) /\
  (m < 4 -> forall i d, ~ In (four_days i d) (constraints M)) /\
  (forall s, model_holds s M = true ->
     forall d, 0 <= d -> d + 3 < m ->
       ~ (s (day_ d) = s (day_ (d + 1)) /\ s (day_ (d + 1)) = s (day_ (d + 2))
          /\ s (day_ (d + 2)) = s (day_ (d + 3)))).
Proof.
  intros HM. unfold build_model in HM. split; [|split].
  - intros i d. exact (four_days_in_model _ _ _ _ _ i d HM).
  - intros Hm i d Hin. apply (four_days_in_model _ _ _ _ _ i d HM) in Hin. lia.
  - intros s Hs d Hd0 Hd3. apply (sol_no_long_run _ _ _ _ _ s d HM Hs). lia.
Qed.

Lemma no_long_run_windows_witness :
  exists M,
    build_model 2 4 4 [] = Ok M /\
    (forall i d, In (four_days i d) (constraints M) <-> 0 <= i < 2 /\ 0 <= d < 4 - 3) /\
    (4 < 4 -> forall i d, ~ In (four_days i d) (constraints M)) /\
    (forall s, model_holds s M = true ->
       forall d, 0 <= d -> d + 3 < 4 ->
         ~ (s (day_ d) = s (day_ (d + 1)) /\ s (day_ (d + 1)) = s (day_ (d + 2))
            /\ s (day_ (d + 2)) = s (day_ (d + 3)))).
Proof.
  eexists. split; [reflexivity|].
  eapply (no_long_run_windows 2 4 4 []). reflexivity.
Defined.

(** C7 as stated fails at the end of the closed interval: in a month of 4
    days the window start [m - 3 = 1] has no constraint (its window would
    end on day 4, after the month). *)
Lemma no_long_run_window_m_minus_3_absent :
  exists M,
    build_model 2 4 4 [] = Ok M /\
    0 <= 1 <= 4 - 3 /\
    ~ In (four_days 0 1) (constraints M).
Proof.
  eexists. split; [reflexivity|]. split; [lia|].
  intros H. apply (four_days_in_model 2 4 (weekend_fridays 4 4) [] _ 0 1) in H;
    [lia|reflexivity].
Qed.

(* ------------------------------------------------------------------ *)
(** ** Day indices of the disallowed pairs *)

Lemma disallowed_app (m : Z) (ps1 ps2 : list (Z * Z)) :
  disallowed m (ps1 ++ ps2) =
    (cs1 <- disallowed m ps1 ;; cs2 <- disallowed m ps2 ;; Ok (cs1 ++ cs2)).
Proof.
  unfold disallowed. induction ps1 as [|[i d] ps1 IH]; simpl.
  - destruct (mapM _ ps2); reflexivity.
  - destruct (getitem (day_vars m) d) as [v|e]; simpl; [|reflexivity].
    rewrite IH. destruct (mapM _ ps1); simpl; [|reflexivity].
    destruct (mapM _ ps2); reflexivity.
Qed.

Lemma disallowed_wrap (m i d : Z) (ps1 ps2 : list (Z * Z)) :
  - m <= d < 0 ->
  disallowed m (ps1 ++ (i, d) :: ps2) = disallowed m (ps1 ++ (i, m + d) :: ps2).
Proof.
  intros Hd. rewrite !disallowed_app. f_equal.
  unfold disallowed. simpl.
  rewrite getitem_day_vars_neg by lia.
  rewrite getitem_day_vars_nonneg by lia. reflexivity.
Qed.

(** C9. A forbidden pair [(i, d)] with [0 <= i < n] and [-m <= d < 0]
    raises nothing when its constraint is built ([day_vars[d]] is the
    variable of day [m + d]): the model is constructed whenever the day
    indices of the other pairs are in [-m, m). The call is the call with
    [(i, m + d)] in its place: same model, same outcome; a returned schedule
    never has doctor [i] on day [m + d]. *)
Theorem negative_day_index_wraps (solve : Solver) (n m : Z) (start_day : string)
    (ps1 ps2 : list (Z * Z)) (i d : Z) (tl nw : Z) (seed : option Z) :
  0 <= i < n ->
  - m <= d < 0 ->
  getitem (day_vars m) d = Ok (day_ (m + d)) /\
  (Forall (fun id => - m <= snd id < m) (ps1 ++ ps2) ->
   forall start_idx,
     exists M, build_model n m start_idx (ps1 ++ (i, d) :: ps2) = Ok M) /\
  (forall start_idx,
     build_model n m start_idx (ps1 ++ (i, d) :: ps2)
     = build_model n m start_idx (ps1 ++ (i, m + d) :: ps2)) /\
  cp_sat_generate_schedule solve n m start_day (ps1 ++ (i, d) :: ps2) tl nw seed
  = cp_sat_generate_schedule solve n m start_day (ps1 ++ (i, m + d) :: ps2) tl nw seed /\
  (sound solve ->
   forall sched,
     cp_sat_generate_schedule solve n m start_day (ps1 ++ (i, d) :: ps2) tl nw seed
     = Ok sched ->
     Validator.doctor_on sched (m + d) <> i).
Proof.
  intros Hi Hd.
  assert (HB : forall start_idx,
     build_model n m start_idx (ps1 ++ (i, d) :: ps2)
     = build_model n m start_idx (ps1 ++ (i, m + d) :: ps2)).
  { intros start_idx. unfold build_model, build.
    now rewrite (disallowed_wrap m i d ps1 ps2 Hd). }
  split; [apply getitem_day_vars_neg; exact Hd|].
  split.
  { intros F start_idx. unfold build_model.
    destruct (build_cases n m (weekend_fridays start_idx m) (ps1 ++ (i, d) :: ps2))
      as [[E _]|[(_ & Hn & _)|(_ & _ & HM)]]; [exfalso|lia|exact HM].
    apply Exists_exists in E. destruct E as (id & Hin & Hbad).
    rewrite Forall_forall in F. apply in_app_iff in Hin.
    destruct Hin as [Hin|[<-|Hin]].
    - apply Hbad, F, in_app_iff. now left.
    - simpl in Hbad. lia.
    - apply Hbad, F, in_app_iff. now right. }
  split; [exact HB|]. split.
  - unfold cp_sat_generate_schedule.
    destruct (index start_day days) as [start_idx|e]; simpl; [|reflexivity].
    now rewrite HB.
  - intros Hsound sched H.
    destruct (generate_Ok_inv _ _ _ _ _ _ _ _ _ Hsound H)
      as (start_idx & M & s & _ & HM & Hs & ->).
    rewrite doctor_on_schedule by lia.
    assert (Hc : constraint_holds s
              (Add (Var (day_ (if d <? 0 then m + d else d))) Ne (Const i)) = true).
    { apply (sol_constraint M s Hs).
      apply (in_model_disallowed n m _ _ M HM i d).
      apply in_app_iff. right. now left. }
    rewrite lin_holds in Hc. simpl in Hc.
    destruct (d <? 0) eqn:E; [|apply Z.ltb_ge in E; lia].
    now apply negb_true_iff, Z.eqb_neq in Hc.
Qed.

Lemma negative_day_index_wraps_witness :
  0 <= 0 < 2 /\ - 3 <= -1 < 0 /\
  let solve := try_candidate (Validator.valuation_of (weekend_fridays 4 3) [0; 0; 1]) in
  cp_sat_generate_schedule solve 2 3 "Friday" ([] ++ (0, -1) :: []) 10 8 None
  = Ok [0; 0; 1] /\
  getitem (day_vars 3) (-1) = Ok (day_ (3 + -1)) /\
  (Forall (fun id : Z * Z => - 3 <= snd id < 3) ([] ++ []) ->
   forall start_idx,
     exists M, build_model 2 3 start_idx ([] ++ (0, -1) :: []) = Ok M) /\
  (forall start_idx,
     build_model 2 3 start_idx ([] ++ (0, -1) :: [])
     = build_model 2 3 start_idx ([] ++ (0, 3 + -1) :: [])) /\
  cp_sat_generate_schedule solve 2 3 "Friday" ([] ++ (0, -1) :: []) 10 8 None
  = cp_sat_generate_schedule solve 2 3 "Friday" ([] ++ (0, 3 + -1) :: []) 10 8 None /\
  (sound solve ->
   forall sched,
     cp_sat_generate_schedule solve 2 3 "Friday" ([] ++ (0, -1) :: []) 10 8 None
     = Ok sched ->
     Validator.doctor_on sched (3 + -1) <> 0).
Proof.
  split; [lia|]. split; [lia|]. cbv zeta. split; [vm_compute; reflexivity|].
  apply (negative_day_index_wraps
           (try_candidate (Validator.valuation_of (weekend_fridays 4 3) [0; 0; 1]))
           2 3 "Friday" [] [] 0 (-1) 10 8 None); lia.
Defined.

(* ------------------------------------------------------------------ *)
(** ** Errors of the core *)

(** Every outcome of the call, by what the source does in order: the
    weekday lookup, the indexing of [day_vars] by the pairs, the division by
    [n], the solver status. *)
Lemma generate_cases (solve : Solver) (n m : Z) (start_day : string)
    (pairs : list (Z * Z)) (tl nw : Z) (seed : option Z) :
  let r := cp_sat_generate_schedule solve n m start_day pairs tl nw seed in
  (index start_day days = Raise ValueError /\ r = Raise ValueError) \/
  (exists start_idx, index start_day days = Ok start_idx /\
     ((Exists (fun id => ~ (- m <= snd id < m)) pairs /\ r = Raise IndexError) \/
      (Forall (fun id => - m <= snd id < m) pairs /\ n = 0 /\
       r = Raise ZeroDivisionError) \/
      (Forall (fun id => - m <= snd id < m) pairs /\ n <> 0 /\
       exists M, build_model n m start_idx pairs = Ok M /\
         let resp := solve M (mkParameters tl nw seed) in
         r = if has_solution (status resp)
             then Ok (map (fun d => Value resp (day_ d)) (range m))
             else Raise no_schedule))).
Proof.
  cbv zeta. unfold cp_sat_generate_schedule.
  destruct (index start_day days) as [start_idx|e] eqn:Hi; simpl.
  - right. exists start_idx. split; [reflexivity|]. unfold build_model.
    destruct (build_cases n m (weekend_fridays start_idx m) pairs)
      as [[E ->]|[(F & Hn & ->)|(F & Hn & M & ->)]]; simpl.
    + left. now split.
    + right. left. now repeat split.
    + right. right. split; [exact F|]. split; [exact Hn|].
      exists M. split; reflexivity.
  - left. assert (e = ValueError); [|subst; now split].
    clear - Hi. revert e Hi. generalize days.
    induction l as [|y l IH]; simpl; intros e H; [now inversion H|].
    destruct (String.eqb y start_day); [discriminate|].
    destruct (index start_day l) as [k|e'] eqn:E; simpl in H; [discriminate|].
    inversion H; subst. now apply IH.
Qed.

(** A sound engine never has a schedule for a month without doctor or
    without weekend block. *)
Lemma generate_Ok_pos (solve : Solver) (n m : Z) (start_day : string)
    (pairs : list (Z * Z)) (tl nw : Z) (seed : option Z) (sched : list Z) :
  sound solve ->
  cp_sat_generate_schedule solve n m start_day pairs tl nw seed = Ok sched ->
  exists start_idx,
    index start_day days = Ok start_idx /\
    1 <= n /\ 1 <= W (weekend_fridays start_idx m) /\ 2 <= m.
Proof.
  intros Hsound H.
  destruct (generate_Ok_inv _ _ _ _ _ _ _ _ _ Hsound H)
    as (start_idx & M & s & Hi & HM & Hs & _).
  exists start_idx. split; [exact Hi|].
  pose proof (agree_n_pos n m start_idx pairs M s HM Hs) as Hn.
  pose proof (agree_W_pos n m start_idx pairs M s HM Hs) as HW.
  split; [exact Hn|]. split; [exact HW|].
  destruct (weekend_fridays start_idx m) as [|d l] eqn:E;
    [unfold W, len in HW; simpl in HW; lia|].
  assert (Hd : In d (weekend_fridays start_idx m)) by (rewrite E; now left).
  apply in_weekend_fridays in Hd. lia.
Qed.


(** C3 (as amended). Whatever the status the engine ends with other than
    [OPTIMAL] and [FEASIBLE] - infeasibility proved, time limit reached
    without an answer, model rejected - the call raises the same
    [RuntimeError("No valid schedule found.")]. *)
Theorem failure_is_one_error (solve : Solver) (n m : Z) (start_day : string)
    (pairs : list (Z * Z)) (tl nw : Z) (seed : option Z)
    (start_idx : Z) (M : CpModel) :
  index start_day days = Ok start_idx ->
  build_model n m start_idx pairs = Ok M ->
  (let st := status (solve M (mkParameters tl nw seed)) in
   st = INFEASIBLE \/ st = UNKNOWN \/ st = MODEL_INVALID) ->
  cp_sat_generate_schedule solve n m start_day pairs tl nw seed
  = Raise (RuntimeError "No valid schedule found.").
Proof.
  intros Hi HM Hst. unfold cp_sat_generate_schedule.
  rewrite Hi. simpl. rewrite HM. simpl. cbv zeta in Hst.
  destruct Hst as [-> |[-> | ->]]; reflexivity.
Qed.

Lemma failure_is_one_error_witness :
  exists M,
    let solve : Solver := fun _ _ => mkResponse UNKNOWN (fun _ => 0) in
    index "Friday" days = Ok 4 /\
    build_model 2 5 4 [(0, 0); (0, 1); (0, 2); (0, 3); (0, 4)] = Ok M /\
    (let st := status (solve M (mkParameters 10 8 None)) in
     st = INFEASIBLE \/ st = UNKNOWN \/ st = MODEL_INVALID) /\
    cp_sat_generate_schedule solve 2 5 "Friday"
      [(0, 0); (0, 1); (0, 2); (0, 3); (0, 4)] 10 8 None
    = Raise (RuntimeError "No valid schedule found.").
Proof.
  eexists. cbv zeta. split; [reflexivity|]. split; [reflexivity|].
  split; [right; left; reflexivity|].
  eapply (failure_is_one_error (fun _ _ => mkResponse UNKNOWN (fun _ => 0))
            2 5 "Friday" [(0, 0); (0, 1); (0, 2); (0, 3); (0, 4)] 10 8 None 4).
  - reflexivity.
  - reflexivity.
  - right; left; reflexivity.
Defined.

(** C3 as stated fails. With doctor 0 forbidden on each of 5 days and 2
    doctors the model has no solution; an engine that proves it and an
    engine that runs out of time give the caller the same value. *)
Lemma infeasible_and_timed_out_alike :
  let pairs := [(0, 0); (0, 1); (0, 2); (0, 3); (0, 4)] in
  let proves_infeasible : Solver := fun _ _ => mkResponse INFEASIBLE (fun _ => 0) in
  let times_out : Solver := fun _ _ => mkResponse UNKNOWN (fun _ => 0) in
  (forall M s, build_model 2 5 4 pairs = Ok M -> model_holds s M = false) /\
  cp_sat_generate_schedule proves_infeasible 2 5 "Friday" pairs 10 8 None
  = cp_sat_generate_schedule times_out 2 5 "Friday" pairs 10 8 None.
Proof.
  cbv zeta. split; [|reflexivity].
  intros M s HM. destruct (model_holds s M) eqn:Hs; [exfalso|reflexivity].
  unfold build_model in HM.
  assert (D : forall d, 0 <= d < 5 -> s (day_ d) = 1).
  { intros d Hd.
    pose proof (sol_day_domain _ _ _ _ _ _ HM Hs d Hd) as Hdom.
    assert (Hc : constraint_holds s
              (Add (Var (day_ (if d <? 0 then 5 + d else d))) Ne (Const 0)) = true).
    { apply (sol_constraint M s Hs), (in_model_disallowed _ _ _ _ M HM 0 d).
      assert (Hd5 : d = 0 \/ d = 1 \/ d = 2 \/ d = 3 \/ d = 4) by lia.
      simpl. destruct Hd5 as [->|[->|[->|[->| ->]]]]; tauto. }
    rewrite lin_holds in Hc. simpl in Hc.
    destruct (d <? 0) eqn:E; [apply Z.ltb_lt in E; lia|].
    apply negb_true_iff, Z.eqb_neq in Hc. lia. }
  apply (sol_no_long_run _ _ _ _ _ s 0 HM Hs); [lia|].
  rewrite !D by lia. auto.
Qed.

(** C10: what the code does on [n = 1], [m = 1], ["Sunday"], no pair. The
    month has no weekend block and [[0]] satisfies invariants 2 to 8. The
    model is built without error, but its max-equality for doctor 0 ranges
    over no weekend indicator, which no valuation satisfies: with a sound
    engine the call raises [RuntimeError] and never returns [[0]]. *)
Theorem month_without_weekend_has_no_schedule (solve : Solver) (tl nw : Z)
    (seed : option Z) :
  sound solve ->
  W (weekend_fridays 6 1) = 0 /\
  Validator.validate 1 1 "Sunday" [] [0] = Ok [] /\
  (exists M, build_model 1 1 6 [] = Ok M /\
     In (AddMaxEquality (weekend_used_ 0) []) (constraints M) /\
     forall s, model_holds s M = false) /\
  cp_sat_generate_schedule solve 1 1 "Sunday" [] tl nw seed
  = Raise (RuntimeError "No valid schedule found.").
Proof.
  intros Hsound. split; [reflexivity|]. split; [reflexivity|]. split.
  - eexists. split; [reflexivity|]. split; [simpl; tauto|].
    intros s. destruct (model_holds s _) eqn:Hs; [exfalso|reflexivity].
    pose proof (agree_W_pos 1 1 6 [] _ s eq_refl Hs) as HW.
    vm_compute in HW. now apply HW.
  - destruct (cp_sat_generate_schedule solve 1 1 "Sunday" [] tl nw seed)
      as [sched|e] eqn:R.
    + exfalso.
      destruct (generate_Ok_pos _ _ _ _ _ _ _ _ _ Hsound R) as (idx & _ & _ & _ & Hm).
      lia.
    + destruct (generate_cases solve 1 1 "Sunday" [] tl nw seed)
        as [[Hv _]|(idx & Hidx & C)]; [discriminate|].
      rewrite R in C.
      destruct C as [[E _]|[(_ & Hn & _)|(_ & _ & M & _ & Hr)]].
      * inversion E.
      * discriminate.
      * cbv zeta in Hr. destruct (has_solution _); [discriminate|exact Hr].
Qed.

Lemma month_without_weekend_has_no_schedule_witness :
  let solve := try_candidate (Validator.valuation_of (weekend_fridays 6 1) [0]) in
  W (weekend_fridays 6 1) = 0 /\
  Validator.validate 1 1 "Sunday" [] [0] = Ok [] /\
  (exists M, build_model 1 1 6 [] = Ok M /\
     In (AddMaxEquality (weekend_used_ 0) []) (constraints M) /\
     forall s, model_holds s M = false) /\
  cp_sat_generate_schedule solve 1 1 "Sunday" [] 10 8 None
  = Raise (RuntimeError "No valid schedule found.").
Proof.
  cbv zeta.
  apply (month_without_weekend_has_no_schedule
           (try_candidate (Validator.valuation_of (weekend_fridays 6 1) [0]))
           10 8 None).
  apply try_candidate_sound.
Defined.

(* ------------------------------------------------------------------ *)
(** ** The first fixture of [examples] *)

(** C1 (as amended). For the first fixture ([n = 3], [m = 30], Friday),
    the sequence given as valid satisfies invariants 2, 3, 5, 6, 7 and 8 and
    violates invariant 4: the validator reports [4]. The sequence given as
    invalid violates invariants 4 and 7. No solution of the model of the
    source has either sequence as its day values. *)
Theorem example0_schedules :
  let e := example0 in
  let validate :=
    Validator.validate (num_doctors e) (month_length e) (month_start_day e)
                       (disallowed_pairs e) in
  index (month_start_day e) days = Ok 4 /\
  validate (valid_schedule e) = Ok [4] /\
  validate (invalid_schedule e) = Ok [4; 7] /\
  (forall M s,
     build_model (num_doctors e) (month_length e) 4 (disallowed_pairs e) = Ok M ->
     model_holds s M = true ->
     map (fun d => s (day_ d)) (range (month_length e)) <> valid_schedule e /\
     map (fun d => s (day_ d)) (range (month_length e)) <> invalid_schedule e).
Proof.
  cbv zeta. split; [reflexivity|]. split; [vm_compute; reflexivity|].
  split; [vm_compute; reflexivity|].
  intros M s HM Hs.
  assert (H7 : s (day_ 7) = s (day_ (7 + 1))).
  { apply (sol_weekend_coverage _ _ _ _ M s HM Hs). vm_compute. tauto. }
  assert (E : forall l, map (fun d => s (day_ d)) (range (month_length example0)) = l ->
                nth 7 l 0 = nth 8 l 0).
  { intros l <-. exact H7. }
  split; intros Hl; apply E in Hl; vm_compute in Hl; discriminate.
Qed.

(** C1 as stated fails: in the sequence given as valid, the Friday and the
    Saturday of the second weekend block (days 7 and 8) have doctors 1 and
    2. *)
Lemma example0_valid_schedule_splits_a_weekend :
  let e := example0 in
  In 7 (weekend_fridays 4 (month_length e)) /\
  Validator.doctor_on (valid_schedule e) 7 = 1 /\
  Validator.doctor_on (valid_schedule e) 8 = 2 /\
  Validator.inv4 (weekend_fridays 4 (month_length e)) (valid_schedule e) = false.
Proof.
  cbv zeta. split; [vm_compute; tauto|]. repeat split; reflexivity.
Qed.

(* ------------------------------------------------------------------ *)
(** ** The off-day conversion of the UI *)

Lemma split_head_digits (d : Decimal.uint) (rest : string) :
  App.split_head (NilEmpty.string_of_uint d ++ String "/" rest)%string
  = NilEmpty.string_of_uint d.
Proof.
  induction d; simpl; try (f_equal; exact IHd). reflexivity.
Qed.

Lemma split_head_str (k : Z) (rest : string) :
  0 <= k -> App.split_head (App.str k ++ String "/" rest)%string = App.str k.
Proof.
  intros Hk. unfold App.str. destruct k as [|p|p]; [reflexivity| |lia].
  simpl. unfold NilZero.string_of_uint.
  pose proof (DecimalPos.Unsigned.to_uint_nonnil p) as Hp.
  destruct (Pos.to_uint p) eqn:E; try contradiction;
    rewrite <- E; apply split_head_digits.
Qed.

Lemma int_str (k : Z) : App.int_ (App.str k) = Ok k.
Proof.
  unfold App.int_, App.str. rewrite NilZero.isi.
  - now rewrite DecimalZ.of_to.
  - destruct k; simpl; try discriminate.
    intros H. inversion H as [E]. now apply DecimalPos.Unsigned.to_uint_nonnil in E.
  - destruct k; simpl; try discriminate.
    intros H. inversion H as [E]. now apply DecimalPos.Unsigned.to_uint_nonnil in E.
Qed.

(** Day [k] of the month, selected by doctor [doctor_index], becomes the
    pair [(k - 1, doctor_index)]: day first, doctor second. *)
Lemma to_disallowed_pairs_one (doctor_index k month : Z) (weekday : string)
    (rest : list (Z * list string)) :
  0 <= k ->
  App.to_disallowed_pairs
    ((doctor_index, [App.off_day_option k month weekday]) :: rest)
  = (ps <- App.to_disallowed_pairs rest ;; Ok ((k - 1, doctor_index) :: ps)).
Proof.
  intros Hk. unfold App.to_disallowed_pairs. simpl.
  unfold App.off_day_option. simpl.
  rewrite split_head_str by exact Hk. rewrite int_str. reflexivity.
Qed.

(** C4: what the code does. The handler builds each pair as
    [(k - 1, doctor_index)], day first, and the core reads a pair as (doctor,
    day). In a 30-day month starting on a Friday with 3 doctors, doctor 0
    selecting day 6 as off-day yields the pair [(5, 0)], which forbids
    only a doctor 5 on day 0; the schedule returned below has doctor 0 on
    day 5 (the sixth day of the month). *)
Theorem off_day_pairs_are_day_first :
  (forall doctor_index k month weekday,
     0 <= k ->
     App.to_disallowed_pairs [(doctor_index, [App.off_day_option k month weekday])]
     = Ok [(k - 1, doctor_index)]) /\
  let off_days := [(0, [App.off_day_option 6 11 "Wednesday"]); (1, []); (2, [])] in
  let sched := [ 0; 0;
                 0; 1; 0; 0; 0; 2; 2;
                 0; 0; 1; 1; 1; 2; 2;
                 0; 1; 1; 2; 2; 1; 1;
                 2; 0; 2; 2; 2; 1; 1 ] in
  let solve := try_candidate (Validator.valuation_of (weekend_fridays 4 30) sched) in
  App.to_disallowed_pairs off_days = Ok [(5, 0)] /\
  App.on_generate solve 3 30 5 off_days = Ok sched /\
  Validator.validate 3 30 "Friday" [(5, 0)] sched = Ok [] /\
  Validator.doctor_on sched (6 - 1) = 0.
Proof.
  split.
  - intros doctor_index k month weekday Hk.
    now rewrite to_disallowed_pairs_one.
  - cbv zeta. repeat split; vm_compute; reflexivity.
Qed.

(* ------------------------------------------------------------------ *)
(** ** Agreement of the validator with the model of the source *)

Lemma count_map (p : Z -> bool) (f : Z -> Z) (l : list Z) :
  Validator.count p (map f l) = Validator.count (fun x => p (f x)) l.
Proof.
  unfold Validator.count, len. induction l as [|x l IH]; [reflexivity|].
  cbn [map filter]. destruct (p (f x)); cbn [length]; lia.
Qed.

Lemma count_pos_existsb (p : Z -> bool) (l : list Z) :
  1 <= Validator.count p l <-> existsb p l = true.
Proof.
  unfold Validator.count, len. induction l as [|x l IH]; simpl; [split; [lia|discriminate]|].
  destruct (p x); simpl; [split; [reflexivity|lia]|exact IH].
Qed.

Lemma ceil_div_pos (a n : Z) : 0 < n -> (a + n - 1) / n = Validator.ceil_div a n.
Proof.
  intros Hn. unfold Validator.ceil_div.
  pose proof (Z.div_mod (a + n - 1) n ltac:(lia)) as E1.
  pose proof (Z.mod_pos_bound (a + n - 1) n Hn) as B1.
  set (q := (a + n - 1) / n) in *. set (r := (a + n - 1) mod n) in *.
  assert (E : (- a) / n = - q); [|lia].
  symmetry. apply (Z.div_unique (- a) n (- q) (n - 1 - r)); lia.
Qed.

Section Accepted.
Variables n m start_idx : Z.
Variable pairs : list (Z * Z).
Variable M : CpModel.
Variable s : valuation.
Hypothesis HM : build_model n m start_idx pairs = Ok M.
Hypothesis Hs : model_holds s M = true.

Let fr : list Z := weekend_fridays start_idx m.
Let sched : list Z := map (fun d => s (day_ d)) (range m).

(** A sum of indicators [b] counts the days of the doctor. *)
Lemma agree_b_sum (i : Z) (l : list Z) :
  0 <= i < n -> (forall d, In d l -> 0 <= d < m) ->
  Py.sum (map s (map (fun d => b_ i d) l))
  = Validator.count (fun d => Validator.doctor_on sched d =? i) l.
Proof.
  intros Hi Hl. rewrite <- sum_indicator, map_map. apply sum_map_ext_in.
  intros d Hd. specialize (Hl d Hd).
  unfold sched. rewrite doctor_on_schedule by exact Hl.
  pose proof (sol_b_iff n m fr pairs M s HM Hs i d Hi Hl) as Hiff.
  pose proof (sol_b_domain n m fr pairs M s HM Hs i d Hi Hl) as Hdom.
  destruct (Z.eqb_spec (s (day_ d)) i); intuition lia.
Qed.

(** A sum of indicators [w] counts the weekend blocks of the doctor. *)
Lemma agree_w_sum (i : Z) :
  0 <= i < n ->
  Py.sum (map s (map (fun k => w_ i k) (range (W fr))))
  = Validator.weekends_of fr sched i.
Proof.
  intros Hi. unfold Validator.weekends_of, W.
  rewrite <- sum_indicator, <- map_fst_enumerate.
  rewrite <- (map_snd_enumerate fr) at 2. rewrite !map_map.
  apply sum_map_ext_in. intros [k d] Hkd. simpl.
  exact (agree_w n m start_idx pairs M s HM Hs i k d Hi Hkd).
Qed.

Lemma accepted_inv2 :
  Forall (fun id => 0 <= snd id < m) pairs -> Validator.inv2 pairs sched = true.
Proof.
  intros F. unfold Validator.inv2. apply forallb_forall. intros [i d] Hin.
  rewrite Forall_forall in F. pose proof (F _ Hin) as Hd. simpl in Hd.
  unfold sched. rewrite doctor_on_schedule by exact Hd.
  assert (Hc : constraint_holds s
            (Add (Var (day_ (if d <? 0 then m + d else d))) Ne (Const i)) = true)
    by (apply (sol_constraint M s Hs), (in_model_disallowed n m fr pairs M HM i d Hin)).
  rewrite lin_holds in Hc. simpl in Hc.
  destruct (d <? 0) eqn:E; [apply Z.ltb_lt in E; lia|exact Hc].
Qed.

Lemma accepted_inv3 : Validator.inv3 n m sched = true.
Proof.
  unfold Validator.inv3. apply forallb_forall. intros i Hi.
  apply forallb_forall. intros d Hd. apply in_range in Hi, Hd.
  assert (Hc : constraint_holds s (four_days i d) = true).
  { apply (sol_constraint M s Hs), (four_days_in_model n m fr pairs M i d HM).
    split; assumption. }
  unfold four_days in Hc. rewrite lin_holds in Hc. cbn [eval rel_holds] in Hc.
  replace (map (fun k => b_ i (d + k)) (range 4))
    with (map (fun d' => b_ i d') (map (fun k => d + k) (range 4))) in Hc
    by (now rewrite map_map).
  rewrite agree_b_sum in Hc.
  - rewrite count_map in Hc. exact Hc.
  - exact Hi.
  - intros d' Hd'. apply in_map_iff in Hd'. destruct Hd' as (k & <- & Hk).
    apply in_range in Hk. lia.
Qed.

Lemma accepted_inv4 : Validator.inv4 fr sched = true.
Proof.
  unfold Validator.inv4. apply forallb_forall. intros d Hd.
  pose proof (sol_weekend_coverage n m fr pairs M s HM Hs d Hd) as E.
  apply in_weekend_fridays in Hd.
  unfold sched. rewrite !doctor_on_schedule by lia. now apply Z.eqb_eq.
Qed.

Lemma accepted_inv5 : Validator.inv5 n fr sched = true.
Proof.
  unfold Validator.inv5. apply Z.eqb_eq.
  exact (agree_weekend_doctors n m start_idx pairs M s HM Hs).
Qed.

Lemma accepted_inv6 : Validator.inv6 n m sched = true.
Proof.
  pose proof (agree_n_pos n m start_idx pairs M s HM Hs) as Hn.
  unfold Validator.inv6. apply forallb_forall. intros i Hi. apply in_range in Hi.
  assert (Hc : forall c,
    In c [ Add (Sum (map (fun d => b_ i d) (range m))) Ge (Const (m / n));
           Add (Sum (map (fun d => b_ i d) (range m))) Le (Const ((m + n - 1) / n)) ] ->
    constraint_holds s c = true).
  { intros c Hc. apply (sol_constraint M s Hs), (in_model_blocks n m fr pairs M HM).
    do 5 right. left. apply in_flat_map. exists i.
    split; [now apply in_range|exact Hc]. }
  pose proof (Hc _ (or_introl eq_refl)) as HL.
  pose proof (Hc _ (or_intror (or_introl eq_refl))) as HH.
  rewrite lin_holds in HL, HH. simpl in HL, HH.
  rewrite agree_b_sum in HL, HH by (try exact Hi; intros d Hd; now apply in_range).
  rewrite ceil_div_pos in HH by lia.
  unfold Validator.total, Validator.floor_div. now rewrite HL, HH.
Qed.

Lemma accepted_inv7 : Validator.inv7 n m sched = true.
Proof.
  unfold Validator.inv7. destruct (3 * n <=? m) eqn:E; [|reflexivity].
  apply forallb_forall. intros i Hi. apply forallb_forall. intros d Hd.
  apply in_range in Hi, Hd.
  assert (Hc : constraint_holds s
            (Add (Sum (map (fun k => b_ i (d + k)) (range (3 * n)))) Ge (Const 1)) = true).
  { apply (sol_constraint M s Hs), (in_model_blocks n m fr pairs M HM).
    do 6 right. unfold window_coverage, window_size. rewrite E.
    apply in_flat_map. exists i. split; [now apply in_range|].
    apply in_map_iff. exists d. split; [reflexivity|now apply in_range]. }
  rewrite lin_holds in Hc. cbn [eval rel_holds] in Hc.
  replace (map (fun k => b_ i (d + k)) (range (3 * n)))
    with (map (fun d' => b_ i d') (map (fun k => d + k) (range (3 * n)))) in Hc
    by (now rewrite map_map).
  rewrite agree_b_sum in Hc.
  - rewrite count_map in Hc. apply Z.leb_le in Hc. now apply count_pos_existsb.
  - exact Hi.
  - intros d' Hd'. apply in_map_iff in Hd'. destruct Hd' as (k & <- & Hk).
    apply in_range in Hk. lia.
Qed.

Lemma accepted_inv8 : Validator.inv8 n fr sched = true.
Proof.
  pose proof (agree_n_pos n m start_idx pairs M s HM Hs) as Hn.
  unfold Validator.inv8. destruct (0 <? W fr) eqn:E; [|reflexivity].
  apply Z.ltb_lt in E.
  apply forallb_forall. intros i Hi. apply in_range in Hi.
  assert (Hc : forall c,
    (let e := Sum (map (fun k => w_ i k) (range (W fr))) in
     c = Add e Ge (Const (W fr / n)) \/ c = Add e Le (Const ((W fr + n - 1) / n))) ->
    constraint_holds s c = true).
  { intros c Hc. apply (sol_constraint M s Hs).
    exact (in_model_fair_weekends n m fr pairs M HM c i E Hi Hc). }
  pose proof (Hc _ (or_introl eq_refl)) as HL.
  pose proof (Hc _ (or_intror eq_refl)) as HH.
  rewrite lin_holds in HL, HH. simpl in HL, HH.
  rewrite agree_w_sum in HL, HH by exact Hi.
  rewrite ceil_div_pos in HH by lia.
  unfold Validator.floor_div. now rewrite HL, HH.
Qed.

End Accepted.

(** The validator accepts every schedule the core returns (the engine
    being sound), when the day indices of the pairs are in [0, m). *)
Lemma validator_accepts_engine (solve : Solver) (n m : Z) (start_day : string)
    (pairs : list (Z * Z)) (tl nw : Z) (seed : option Z) (sched : list Z) :
  sound solve ->
  Forall (fun id => 0 <= snd id < m) pairs ->
  cp_sat_generate_schedule solve n m start_day pairs tl nw seed = Ok sched ->
  Validator.validate n m start_day pairs sched = Ok [].
Proof.
  intros Hsound F H.
  destruct (generate_Ok_inv _ _ _ _ _ _ _ _ _ Hsound H)
    as (start_idx & M & s & Hi & HM & Hs & ->).
  unfold Validator.validate. rewrite Hi. simpl. unfold Validator.violated.
  rewrite (accepted_inv2 n m start_idx pairs M s HM Hs F).
  rewrite (accepted_inv3 n m start_idx pairs M s HM Hs).
  rewrite (accepted_inv4 n m start_idx pairs M s HM Hs).
  rewrite (accepted_inv5 n m start_idx pairs M s HM Hs).
  rewrite (accepted_inv6 n m start_idx pairs M s HM Hs).
  rewrite (accepted_inv7 n m start_idx pairs M s HM Hs).
  rewrite (accepted_inv8 n m start_idx pairs M s HM Hs).
  reflexivity.
Qed.

(* ------------------------------------------------------------------ *)
(** ** Every accepted schedule is a solution of the model *)

Lemma in_enumerate_nth {A} (l : list A) (k : Z) (x : A) :
  In (k, x) (enumerate l) -> nth_error l (Z.to_nat k) = Some x.
Proof.
  unfold enumerate, range, len.
  assert (G : forall a : nat,
    In (k, x) (combine (map Z.of_nat (seq a (length l))) l) ->
    (a <= Z.to_nat k)%nat /\ nth_error l (Z.to_nat k - a) = Some x).
  { induction l as [|y l IH]; intros a H; [destruct H|].
    replace (Z.to_nat (Z.of_nat (length (y :: l)))) with (S (length l)) in *
      by (simpl length; lia).
    simpl in H. destruct H as [H|H].
    - inversion H; subst. rewrite Nat2Z.id, Nat.sub_diag. split; [lia|reflexivity].
    - destruct (IH (S a) H) as [Ha Hn]. split; [lia|].
      replace (Z.to_nat k - a)%nat with (S (Z.to_nat k - S a)) by lia. exact Hn. }
  rewrite Nat2Z.id. intros H. destruct (G 0%nat H) as [_ Hn].
  now rewrite Nat.sub_0_r in Hn.
Qed.

Lemma max_of_indicator {A} (p : A -> bool) (l : list A) :
  l <> [] ->
  max_of (map (fun x => if p x then 1 else 0) l)
  = Some (if existsb p l then 1 else 0).
Proof.
  induction l as [|x l IH]; intros Hne; [contradiction|].
  destruct l as [|y l'].
  - simpl. destruct (p x); reflexivity.
  - cbn [map max_of existsb] in *. rewrite IH by discriminate.
    destruct (p x), (p y || existsb p l'); reflexivity.
Qed.

Section Complete.
Variables n m start_idx : Z.
Variable pairs : list (Z * Z).
Variable M : CpModel.
Variable sched : list Z.
Hypothesis HM : build_model n m start_idx pairs = Ok M.

Let fr : list Z := weekend_fridays start_idx m.
Let s : valuation := Validator.valuation_of fr sched.

Hypothesis Hn : 1 <= n.
Hypothesis HW : 1 <= W fr.
Hypothesis Hdom : forall d, 0 <= d < m -> 0 <= Validator.doctor_on sched d < n.
Hypothesis Hpairs : Forall (fun id => 0 <= snd id < m) pairs.
Hypothesis Hvalid : Validator.violated n m fr pairs sched = [].

Lemma complete_checks :
  Validator.inv2 pairs sched = true /\ Validator.inv3 n m sched = true /\
  Validator.inv4 fr sched = true /\ Validator.inv5 n fr sched = true /\
  Validator.inv6 n m sched = true /\ Validator.inv7 n m sched = true /\
  Validator.inv8 n fr sched = true.
Proof.
  unfold Validator.violated in Hvalid.
  destruct (Validator.inv2 pairs sched), (Validator.inv3 n m sched),
    (Validator.inv4 fr sched), (Validator.inv5 n fr sched),
    (Validator.inv6 n m sched), (Validator.inv7 n m sched),
    (Validator.inv8 n fr sched); simpl in Hvalid; try discriminate.
  repeat split.
Qed.

Lemma complete_b_sum (i : Z) (l : list Z) :
  Py.sum (map s (map (fun d => b_ i d) l))
  = Validator.count (fun d => Validator.doctor_on sched d =? i) l.
Proof. rewrite <- sum_indicator, map_map. reflexivity. Qed.

Lemma complete_w (i k d : Z) :
  In (k, d) (enumerate fr) ->
  s (w_ i k) = if Validator.covers sched i d then 1 else 0.
Proof.
  intros H. unfold s, Validator.valuation_of.
  now rewrite (in_enumerate_nth fr k d H).
Qed.

Lemma complete_w_list (i : Z) :
  map s (map (fun k => w_ i k) (range (W fr)))
  = map (fun d => if Validator.covers sched i d then 1 else 0) fr.
Proof.
  unfold W. rewrite <- map_fst_enumerate.
  rewrite <- (map_snd_enumerate fr) at 2. rewrite !map_map.
  apply map_ext_in. intros [k d] Hkd. simpl. now apply complete_w.
Qed.

Lemma complete_variables : forallb (in_domain s) (variables M) = true.
Proof.
  unfold build_model in HM.
  destruct (build_Ok_inv _ _ _ _ _ HM) as (_ & dis & wfair & _ & _ & -> & _).
  apply forallb_forall. intros [v [lb ub]] H. rewrite !in_app_iff in H.
  destruct H as [H|[H|[H|H]]].
  - apply in_map_iff in H. destruct H as (d & E & Hd). inversion E; subst.
    apply in_range in Hd. specialize (Hdom d Hd). simpl. zcases.
  - apply in_flat_map in H. destruct H as (i & _ & H).
    apply in_map_iff in H. destruct H as (d & E & _). inversion E; subst.
    simpl. destruct (Validator.doctor_on sched d =? i); reflexivity.
  - apply in_flat_map in H. destruct H as (i & _ & H).
    apply in_map_iff in H. destruct H as ([k d] & E & Hkd). inversion E; subst.
    simpl fst. cbn [in_domain]. rewrite (complete_w i k d Hkd).
    destruct (Validator.covers sched i d); reflexivity.
  - apply in_map_iff in H. destruct H as (i & E & _). inversion E; subst.
    simpl. destruct (existsb (Validator.covers sched i) fr); reflexivity.
Qed.

Lemma complete_constraints : forallb (constraint_holds s) (constraints M) = true.
Proof.
  destruct complete_checks as (I2 & I3 & I4 & I5 & I6 & I7 & I8).
  unfold build_model in HM.
  destruct (build_Ok_inv _ _ _ _ _ HM) as (Hn0 & dis & wfair & Hd & Hw & _ & ->).
  apply disallowed_Ok_inv in Hd. destruct Hd as [_ ->].
  rewrite fair_weekends_Ok in Hw by exact Hn0. inversion Hw as [Ew]. clear Hw.
  fold fr in Ew |- *.
  assert (HWb : (0 <? W fr) = true) by (apply Z.ltb_lt; lia).
  rewrite HWb in Ew.
  apply forallb_forall. intros c H. rewrite !in_app_iff in H.
  destruct H as [H|[H|[H|[H|[H|[H|[H|[H|H]]]]]]]].
  - (* links of b *)
    apply in_flat_map in H. destruct H as (i & _ & H).
    apply in_flat_map in H. destruct H as (d & _ & [<-|[<-|[]]]);
      unfold constraint_holds; simpl;
      destruct (Validator.doctor_on sched d =? i) eqn:E; simpl;
      try reflexivity; now rewrite E.
  - (* links of w *)
    apply in_flat_map in H. destruct H as (i & _ & H).
    apply in_flat_map in H. destruct H as ([k d] & Hkd & H).
    pose proof (complete_w i k d Hkd) as Ew'.
    assert (Hfr : In d fr) by (eapply in_enumerate_l; exact Hkd).
    unfold Validator.inv4 in I4. rewrite forallb_forall in I4.
    specialize (I4 d Hfr). apply Z.eqb_eq in I4.
    unfold Validator.covers in Ew'.
    destruct H as [<-|[<-|[<-|[]]]]; unfold constraint_holds;
      cbn [OnlyEnforceIf Add ct_body enforcement_literal app forallb lit_holds
           body_holds eval rel_holds andb];
      rewrite Ew';
      change (s (day_ d)) with (Validator.doctor_on sched d);
      change (s (day_ (d + 1))) with (Validator.doctor_on sched (d + 1));
      rewrite <- I4;
      destruct (Validator.doctor_on sched d =? i); reflexivity.
  - (* no four consecutive days *)
    apply in_no_four_consecutive in H. destruct H as (i & d & Hi & Hd & ->).
    unfold four_days. rewrite lin_holds. cbn [eval rel_holds].
    replace (map (fun k => b_ i (d + k)) (range 4))
      with (map (fun d' => b_ i d') (map (fun k => d + k) (range 4)))
      by (now rewrite map_map).
    rewrite complete_b_sum, count_map.
    unfold Validator.inv3 in I3. rewrite forallb_forall in I3.
    specialize (I3 i ltac:(now apply in_range)). rewrite forallb_forall in I3.
    exact (I3 d ltac:(now apply in_range)).
  - (* weekend coverage *)
    apply in_map_iff in H. destruct H as (d & <- & Hd).
    unfold Validator.inv4 in I4. rewrite forallb_forall in I4. exact (I4 d Hd).
  - (* weekend spread *)
    unfold weekend_spread in H. apply in_app_iff in H. destruct H as [H|[<-|[]]].
    + apply in_map_iff in H. destruct H as (i & <- & _).
      unfold constraint_holds. cbn [AddMaxEquality ct_body enforcement_literal forallb
                                    body_holds].
      rewrite complete_w_list, max_of_indicator.
      * apply Z.eqb_eq. reflexivity.
      * intros E. unfold W, len in HW. rewrite E in HW. simpl in HW. lia.
    + rewrite lin_holds. cbn [eval rel_holds]. unfold weekend_used.
      rewrite map_map.
      change (map (fun x => s (weekend_used_ x)) (range n))
        with (map (fun i => if existsb (Validator.covers sched i) fr then 1 else 0)
                  (range n)).
      rewrite sum_indicator. exact I5.
  - (* disallowed assignments *)
    apply in_map_iff in H. destruct H as ([i d] & <- & Hin).
    rewrite Forall_forall in Hpairs. pose proof (Hpairs _ Hin) as Hd. simpl in Hd.
    simpl fst. simpl snd. destruct (d <? 0) eqn:E; [apply Z.ltb_lt in E; lia|].
    unfold Validator.inv2 in I2. rewrite forallb_forall in I2.
    exact (I2 _ Hin).
  - (* fair totals *)
    apply in_flat_map in H. destruct H as (i & Hi & H).
    unfold Validator.inv6 in I6. rewrite forallb_forall in I6.
    specialize (I6 i Hi). apply andb_true_iff in I6. destruct I6 as [IL IH].
    unfold Validator.total, Validator.floor_div in IL, IH.
    rewrite <- ceil_div_pos in IH by lia.
    destruct H as [<-|[<-|[]]]; rewrite lin_holds; cbn [eval rel_holds];
      rewrite complete_b_sum; assumption.
  - (* window coverage *)
    unfold window_coverage, window_size in H. unfold Validator.inv7 in I7.
    destruct (3 * n <=? m); [|destruct H].
    apply in_flat_map in H. destruct H as (i & Hi & H).
    apply in_map_iff in H. destruct H as (d & <- & Hd).
    rewrite forallb_forall in I7. specialize (I7 i Hi).
    rewrite forallb_forall in I7. specialize (I7 d Hd).
    rewrite lin_holds. cbn [eval rel_holds].
    replace (map (fun k => b_ i (d + k)) (range (3 * n)))
      with (map (fun d' => b_ i d') (map (fun k => d + k) (range (3 * n))))
      by (now rewrite map_map).
    rewrite complete_b_sum, count_map. apply Z.leb_le.
    now apply count_pos_existsb.
  - (* fair weekends *)
    try subst wfair. try rewrite HWb in H.
    apply in_flat_map in H. destruct H as (i & Hi & H).
    unfold Validator.inv8 in I8. rewrite HWb in I8. rewrite forallb_forall in I8.
    specialize (I8 i Hi). apply andb_true_iff in I8. destruct I8 as [IL IH].
    unfold Validator.weekends_of, Validator.floor_div in IL, IH.
    rewrite <- ceil_div_pos in IH by lia.
    destruct H as [<-|[<-|[]]]; rewrite lin_holds; cbn [eval rel_holds];
      rewrite complete_w_list, sum_indicator; assumption.
Qed.

Lemma complete_model_holds : model_holds s M = true.
Proof.
  unfold model_holds. now rewrite complete_variables, complete_constraints.
Qed.

End Complete.

Lemma schedule_of_valuation_of (fr sched : list Z) (m : Z) :
  length sched = Z.to_nat m ->
  map (fun d => Validator.valuation_of fr sched (day_ d)) (range m) = sched.
Proof.
  intros Hlen. simpl. unfold Validator.doctor_on, range. rewrite map_map.
  rewrite <- Hlen. clear Hlen.
  apply nth_error_ext. intros j. rewrite nth_error_map, nth_error_seq.
  destruct (j <? length sched)%nat eqn:E; simpl.
  - apply Nat.ltb_lt in E. rewrite Nat2Z.id. symmetry. now apply nth_error_nth'.
  - apply Nat.ltb_ge in E. symmetry. now apply nth_error_None.
Qed.

(** For day indices of the pairs in [0, m): the schedules of [m] days
    that are the day values of a solution of the model are those the
    validator accepts, provided the month has a weekend block; without one
    the model has no solution. *)
Lemma validator_characterises_solutions (n m start_idx : Z) (pairs : list (Z * Z))
    (M : CpModel) (sched : list Z) :
  build_model n m start_idx pairs = Ok M ->
  Forall (fun id => 0 <= snd id < m) pairs ->
  length sched = Z.to_nat m ->
  (exists s, model_holds s M = true /\ sched = map (fun d => s (day_ d)) (range m))
  <->
  (1 <= n /\ 1 <= W (weekend_fridays start_idx m) /\
   (forall d, 0 <= d < m -> 0 <= Validator.doctor_on sched d < n) /\
   Validator.violated n m (weekend_fridays start_idx m) pairs sched = []).
Proof.
  intros HM F Hlen. split.
  - intros (s & Hs & ->).
    split; [exact (agree_n_pos n m start_idx pairs M s HM Hs)|].
    split; [exact (agree_W_pos n m start_idx pairs M s HM Hs)|]. split.
    + intros d Hd. rewrite doctor_on_schedule by exact Hd.
      pose proof (sol_day_domain n m _ pairs M s HM Hs d Hd). lia.
    + unfold Validator.violated.
      rewrite (accepted_inv2 n m start_idx pairs M s HM Hs F).
      rewrite (accepted_inv3 n m start_idx pairs M s HM Hs).
      rewrite (accepted_inv4 n m start_idx pairs M s HM Hs).
      rewrite (accepted_inv5 n m start_idx pairs M s HM Hs).
      rewrite (accepted_inv6 n m start_idx pairs M s HM Hs).
      rewrite (accepted_inv7 n m start_idx pairs M s HM Hs).
      rewrite (accepted_inv8 n m start_idx pairs M s HM Hs).
      reflexivity.
  - intros (Hn & HW & Hdom & Hv).
    exists (Validator.valuation_of (weekend_fridays start_idx m) sched). split.
    + exact (complete_model_holds n m start_idx pairs M sched HM Hn HW Hdom F Hv).
    + symmetry. now apply schedule_of_valuation_of.
Qed.

(** The other two fixtures: their valid schedules are solutions of the
    model, their invalid ones are not accepted. *)
Lemma example1_example2_schedules :
  let run (e : example) :=
    cp_sat_generate_schedule
      (try_candidate
         (Validator.valuation_of (weekend_fridays 6 (month_length e)) (valid_schedule e)))
      (num_doctors e) (month_length e) (month_start_day e) (disallowed_pairs e)
      default_time_limit default_num_workers None in
  let rejected (e : example) :=
    Validator.validate (num_doctors e) (month_length e) (month_start_day e)
                       (disallowed_pairs e) (invalid_schedule e) in
  run example1 = Ok (valid_schedule example1) /\
  run example2 = Ok (valid_schedule example2) /\
  rejected example1 = Ok [4; 5; 6; 8] /\
  rejected example2 = Ok [2; 3; 6; 7].
Proof.
  cbv zeta. repeat split; vm_compute; reflexivity.
Qed.

(* ------------------------------------------------------------------ *)
(** ** What every returned schedule satisfies *)

Lemma index_not_In (x : string) (l : list string) :
  ~ In x l -> index x l = Raise ValueError.
Proof.
  induction l as [|y l IH]; simpl; intros H; [reflexivity|].
  destruct (String.eqb_spec y x) as [E|E]; [exfalso; apply H; now left|].
  rewrite IH; [reflexivity|]. intros Hin. apply H. now right.
Qed.

Lemma index_Ok_bounds (x : string) (l : list string) (k : Z) :
  index x l = Ok k -> 0 <= k < len l /\ nth_error l (Z.to_nat k) = Some x.
Proof.
  revert k. unfold len. induction l as [|y l IH]; simpl; intros k H; [discriminate|].
  destruct (String.eqb_spec y x) as [E|E].
  - inversion H; subst. split; [lia|reflexivity].
  - destruct (index x l) as [j|e]; simpl in H; [|discriminate].
    inversion H; subst. destruct (IH j eq_refl) as [Hj Hn]. split; [lia|].
    replace (Z.to_nat (j + 1)) with (S (Z.to_nat j)) by lia. exact Hn.
Qed.

(** A call that cannot return a schedule, with a weekday the core knows,
    day indices in [-m, m) and [n <> 0], ends in the error of the search. *)
Lemma generate_no_schedule (solve : Solver) (n m : Z) (start_day : string)
    (pairs : list (Z * Z)) (tl nw : Z) (seed : option Z) (start_idx : Z) :
  index start_day days = Ok start_idx ->
  Forall (fun id => - m <= snd id < m) pairs ->
  n <> 0 ->
  (forall sched, cp_sat_generate_schedule solve n m start_day pairs tl nw seed
                 <> Ok sched) ->
  cp_sat_generate_schedule solve n m start_day pairs tl nw seed = Raise no_schedule.
Proof.
  intros Hi F Hn Hno.
  destruct (generate_cases solve n m start_day pairs tl nw seed)
    as [[Hv _]|(idx & Hidx & [[E _]|[(_ & Hn0 & _)|(_ & _ & M & _ & Hr)]])].
  - congruence.
  - exfalso. apply Exists_exists in E. destruct E as (id & Hin & Hbad).
    rewrite Forall_forall in F. exact (Hbad (F id Hin)).
  - contradiction.
  - cbv zeta in Hr. revert Hr.
    destruct (has_solution _); intros Hr; [exfalso; exact (Hno _ Hr)|exact Hr].
Qed.

(** X1. A returned schedule has one entry per day of the month, each a
    doctor index of [0, n); the month then has at least two days. *)
Theorem returned_schedule_is_total (solve : Solver) (n m : Z) (start_day : string)
    (pairs : list (Z * Z)) (tl nw : Z) (seed : option Z) (sched : list Z) :
  sound solve ->
  cp_sat_generate_schedule solve n m start_day pairs tl nw seed = Ok sched ->
  2 <= m /\ len sched = m /\ Forall (fun x => 0 <= x < n) sched.
Proof.
  intros Hsound H.
  destruct (generate_Ok_pos _ _ _ _ _ _ _ _ _ Hsound H) as (_ & _ & _ & _ & Hm).
  destruct (generate_Ok_inv _ _ _ _ _ _ _ _ _ Hsound H)
    as (start_idx & M & s & _ & HM & Hs & ->).
  split; [exact Hm|]. split.
  - unfold len. rewrite length_map, length_range. lia.
  - apply Forall_forall. intros x Hx. apply in_map_iff in Hx.
    destruct Hx as (d & <- & Hd). apply in_range in Hd.
    pose proof (sol_day_domain n m _ pairs M s HM Hs d Hd). lia.
Qed.

(** X2. A returned schedule obeys every disallowed pair [(i, d)] as the
    core reads it: the day index is in [-m, m) and doctor [i] is not on day
    [d], counted from the end of the month when [d] is negative. *)
Theorem returned_schedule_excludes_pairs (solve : Solver) (n m : Z)
    (start_day : string) (pairs : list (Z * Z)) (tl nw : Z) (seed : option Z)
    (sched : list Z) :
  sound solve ->
  cp_sat_generate_schedule solve n m start_day pairs tl nw seed = Ok sched ->
  forall i d, In (i, d) pairs ->
    - m <= d < m /\
    Validator.doctor_on sched (if d <? 0 then m + d else d) <> i.
Proof.
  intros Hsound H i d Hin.
  destruct (generate_Ok_inv _ _ _ _ _ _ _ _ _ Hsound H)
    as (start_idx & M & s & _ & HM & Hs & ->).
  assert (Hd : - m <= d < m).
  { unfold build_model in HM.
    destruct (build_Ok_inv _ _ _ _ _ HM) as (_ & dis & _ & Hdis & _).
    apply disallowed_Ok_inv in Hdis. destruct Hdis as [F _].
    rewrite Forall_forall in F. exact (F _ Hin). }
  split; [exact Hd|].
  assert (Hc : constraint_holds s
            (Add (Var (day_ (if d <? 0 then m + d else d))) Ne (Const i)) = true)
    by (apply (sol_constraint M s Hs), (in_model_disallowed n m _ _ M HM i d Hin)).
  rewrite lin_holds in Hc. simpl in Hc.
  rewrite doctor_on_schedule by (destruct (d <? 0) eqn:E; lia).
  now apply negb_true_iff, Z.eqb_neq in Hc.
Qed.

(** X3. In a returned schedule every Friday that has its Saturday in the
    month is given to the doctor of that Saturday. *)
Theorem returned_schedule_pairs_weekends (solve : Solver) (n m : Z)
    (start_day : string) (pairs : list (Z * Z)) (tl nw : Z) (seed : option Z)
    (sched : list Z) (start_idx : Z) :
  sound solve ->
  index start_day days = Ok start_idx ->
  cp_sat_generate_schedule solve n m start_day pairs tl nw seed = Ok sched ->
  forall d, 0 <= d -> d + 1 < m -> (start_idx + d) mod 7 = friday ->
    Validator.doctor_on sched d = Validator.doctor_on sched (d + 1).
Proof.
  intros Hsound Hi H d Hd0 Hd1 Hfri.
  destruct (generate_Ok_inv _ _ _ _ _ _ _ _ _ Hsound H)
    as (idx & M & s & Hidx & HM & Hs & ->).
  assert (idx = start_idx) by congruence. subst idx.
  rewrite !doctor_on_schedule by lia.
  apply (sol_weekend_coverage n m _ pairs M s HM Hs d).
  apply in_weekend_fridays. lia.
Qed.

(** X4. In a returned schedule each doctor has between [m // n] and
    [(m + n - 1) // n] days, and these two bounds differ by at most one. *)
Theorem returned_schedule_totals_fair (solve : Solver) (n m : Z)
    (start_day : string) (pairs : list (Z * Z)) (tl nw : Z) (seed : option Z)
    (sched : list Z) :
  sound solve ->
  cp_sat_generate_schedule solve n m start_day pairs tl nw seed = Ok sched ->
  (m + n - 1) / n <= m / n + 1 /\
  forall i, 0 <= i < n ->
    m / n <= Validator.total m sched i <= (m + n - 1) / n.
Proof.
  intros Hsound H.
  destruct (generate_Ok_inv _ _ _ _ _ _ _ _ _ Hsound H)
    as (start_idx & M & s & _ & HM & Hs & ->).
  pose proof (agree_n_pos n m start_idx pairs M s HM Hs) as Hn.
  split.
  - replace (m + n - 1) with ((n - 1) + m) by lia.
    pose proof (Z.div_mod m n ltac:(lia)) as E.
    pose proof (Z.mod_pos_bound m n ltac:(lia)) as B.
    replace (m / n + 1) with ((m + n) / n)
      by (replace (m + n) with (m + 1 * n) by lia; rewrite Z.div_add by lia; lia).
    apply Z.div_le_mono; lia.
  - intros i Hi.
    pose proof (accepted_inv6 n m start_idx pairs M s HM Hs) as I6.
    unfold Validator.inv6 in I6. rewrite forallb_forall in I6.
    specialize (I6 i ltac:(now apply in_range)).
    apply andb_true_iff in I6. destruct I6 as [IL IH].
    unfold Validator.floor_div in IL. rewrite <- ceil_div_pos in IH by lia.
    apply Z.leb_le in IL, IH. lia.
Qed.

(** X5. In a returned schedule of a month of at least [3n] days, every
    doctor is on call at least once in every [3n] consecutive days. *)
Theorem returned_schedule_covers_windows (solve : Solver) (n m : Z)
    (start_day : string) (pairs : list (Z * Z)) (tl nw : Z) (seed : option Z)
    (sched : list Z) :
  sound solve ->
  cp_sat_generate_schedule solve n m start_day pairs tl nw seed = Ok sched ->
  3 * n <= m ->
  forall i d, 0 <= i < n -> 0 <= d -> d + 3 * n <= m ->
    exists k, 0 <= k < 3 * n /\ Validator.doctor_on sched (d + k) = i.
Proof.
  intros Hsound H Hm i d Hi Hd0 Hd1.
  destruct (generate_Ok_inv _ _ _ _ _ _ _ _ _ Hsound H)
    as (start_idx & M & s & _ & HM & Hs & ->).
  pose proof (accepted_inv7 n m start_idx pairs M s HM Hs) as I7.
  unfold Validator.inv7 in I7.
  apply Z.leb_le in Hm. rewrite Hm in I7.
  rewrite forallb_forall in I7. specialize (I7 i ltac:(now apply in_range)).
  rewrite forallb_forall in I7. specialize (I7 d ltac:(apply in_range; lia)).
  apply existsb_exists in I7. destruct I7 as (k & Hk & E).
  apply in_range in Hk. apply Z.eqb_eq in E. now exists k.
Qed.

(** X6. In a returned schedule each doctor has between [W // n] and
    [(W + n - 1) // n] weekend blocks, [W] being their number in the month. *)
Theorem returned_schedule_weekends_fair (solve : Solver) (n m : Z)
    (start_day : string) (pairs : list (Z * Z)) (tl nw : Z) (seed : option Z)
    (sched : list Z) (start_idx : Z) :
  sound solve ->
  index start_day days = Ok start_idx ->
  cp_sat_generate_schedule solve n m start_day pairs tl nw seed = Ok sched ->
  forall i, 0 <= i < n ->
    W (weekend_fridays start_idx m) / n
    <= Validator.weekends_of (weekend_fridays start_idx m) sched i
    <= (W (weekend_fridays start_idx m) + n - 1) / n.
Proof.
  intros Hsound Hi H i Hin.
  destruct (generate_Ok_inv _ _ _ _ _ _ _ _ _ Hsound H)
    as (idx & M & s & Hidx & HM & Hs & ->).
  assert (idx = start_idx) by congruence. subst idx.
  pose proof (agree_n_pos n m start_idx pairs M s HM Hs) as Hn.
  pose proof (agree_W_pos n m start_idx pairs M s HM Hs) as HW.
  pose proof (accepted_inv8 n m start_idx pairs M s HM Hs) as I8.
  unfold Validator.inv8 in I8.
  replace (0 <? W (weekend_fridays start_idx m)) with true in I8
    by (symmetry; apply Z.ltb_lt; lia).
  rewrite forallb_forall in I8. specialize (I8 i ltac:(now apply in_range)).
  apply andb_true_iff in I8. destruct I8 as [IL IH].
  unfold Validator.floor_div in IL. rewrite <- ceil_div_pos in IH by lia.
  apply Z.leb_le in IL, IH. lia.
Qed.

(** X7. A month without a Friday followed by its Saturday never gets a
    schedule: the call ends in the error of the search. *)
Theorem no_weekend_block_no_schedule (solve : Solver) (n m : Z)
    (start_day : string) (pairs : list (Z * Z)) (tl nw : Z) (seed : option Z)
    (start_idx : Z) :
  sound solve ->
  index start_day days = Ok start_idx ->
  Forall (fun id => - m <= snd id < m) pairs ->
  n <> 0 ->
  weekend_fridays start_idx m = [] ->
  cp_sat_generate_schedule solve n m start_day pairs tl nw seed = Raise no_schedule.
Proof.
  intros Hsound Hi F Hn HW.
  apply (generate_no_schedule solve n m start_day pairs tl nw seed start_idx Hi F Hn).
  intros sched H.
  destruct (generate_Ok_pos _ _ _ _ _ _ _ _ _ Hsound H) as (idx & Hidx & _ & HW1 & _).
  assert (idx = start_idx) by congruence. subst idx.
  rewrite HW in HW1. vm_compute in HW1. now apply HW1.
Qed.

(** X8. With a single doctor a month of four days or more never gets a
    schedule: the doctor would be on call four days in a row. *)
Theorem single_doctor_no_schedule (solve : Solver) (m : Z)
    (start_day : string) (pairs : list (Z * Z)) (tl nw : Z) (seed : option Z)
    (start_idx : Z) :
  sound solve ->
  index start_day days = Ok start_idx ->
  Forall (fun id => - m <= snd id < m) pairs ->
  4 <= m ->
  cp_sat_generate_schedule solve 1 m start_day pairs tl nw seed = Raise no_schedule.
Proof.
  intros Hsound Hi F Hm.
  apply (generate_no_schedule solve 1 m start_day pairs tl nw seed start_idx Hi F);
    [lia|].
  intros sched H.
  destruct (generate_Ok_inv _ _ _ _ _ _ _ _ _ Hsound H)
    as (idx & M & s & _ & HM & Hs & _).
  unfold build_model in HM.
  assert (D : forall d, 0 <= d < m -> s (day_ d) = 0).
  { intros d Hd. pose proof (sol_day_domain 1 m _ pairs M s HM Hs d Hd). lia. }
  apply (sol_no_long_run 1 m _ pairs M s 0 HM Hs); [lia|].
  rewrite !D by lia. auto.
Qed.

(** X9. A starting weekday that is not one of the seven English names of
    [days], capitalised, raises [ValueError], whatever the other
    parameters. *)
Theorem unknown_weekday_is_ValueError (solve : Solver) (n m : Z)
    (start_day : string) (pairs : list (Z * Z)) (tl nw : Z) (seed : option Z) :
  ~ In start_day days ->
  cp_sat_generate_schedule solve n m start_day pairs tl nw seed = Raise ValueError.
Proof.
  intros H. unfold cp_sat_generate_schedule.
  now rewrite (index_not_In start_day days H).
Qed.

(* ------------------------------------------------------------------ *)
(** ** The calendar of [generate_schedule] *)

Import App AppView.

Lemma fold_append_person (schedule : list Z) (done done' : list (list cell))
    (last last' : list cell) :
  Forall (fun row => length row = 7%nat) done ->
  (length last <= 7)%nat ->
  fold_left append_person schedule (done, last) = (done', last') ->
  Forall (fun row => length row = 7%nat) done' /\
  (length last' <= 7)%nat /\
  concat done' ++ last' = concat done ++ last ++ map Some schedule.
Proof.
  revert done last. induction schedule as [|p schedule IH]; intros done last Hd Hl F.
  - simpl in F. inversion F; subst. simpl. rewrite app_nil_r. auto.
  - change (fold_left append_person (p :: schedule) (done, last))
      with (fold_left append_person schedule (append_person (done, last) p)) in F.
    change (append_person (done, last) p)
      with (if (length last =? 7)%nat then (done ++ [last], [Some p])
            else (done, last ++ [Some p])) in F.
    destruct (Nat.eqb_spec (length last) 7) as [E|E].
    + cbv iota in F.
      assert (Hd' : Forall (fun row : list cell => length row = 7%nat) (done ++ [last]))
        by (apply Forall_app; split; [exact Hd|now constructor]).
      assert (Hl' : (length [Some p] <= 7)%nat) by (simpl; lia).
      destruct (IH (done ++ [last]) [Some p] Hd' Hl' F) as (H1 & H2 & H3).
      split; [exact H1|]. split; [exact H2|].
      rewrite H3, concat_app. simpl. rewrite app_nil_r, <- !app_assoc. reflexivity.
    + cbv iota in F.
      assert (Hl' : (length (last ++ [Some p]) <= 7)%nat)
        by (rewrite length_app; simpl; lia).
      destruct (IH done (last ++ [Some p]) Hd Hl' F) as (H1 & H2 & H3).
      split; [exact H1|]. split; [exact H2|].
      rewrite H3, <- !app_assoc. reflexivity.
Qed.

(** In a frame of rows of 7 cells, the cell in position [p], rows read one
    after the other, is the cell of row [p / 7] and column [p mod 7]. *)
Lemma cell_at_concat {A} (df : list (list A)) (p : nat) :
  Forall (fun row => length row = 7%nat) df ->
  cell_at df (p / 7) (p mod 7) = nth_error (concat df) p.
Proof.
  revert p. induction df as [|row df IH]; intros p H.
  - unfold cell_at. simpl concat. now rewrite !nth_error_nil.
  - inversion H as [|? ? Hrow Hdf]; subst. cbn [concat].
    destruct (Nat.lt_ge_cases p 7) as [Hp|Hp].
    + rewrite Nat.div_small, Nat.mod_small by exact Hp. unfold cell_at.
      cbn [nth_error]. rewrite nth_error_app1 by lia. reflexivity.
    + rewrite nth_error_app2 by lia. rewrite Hrow, <- IH by exact Hdf.
      assert (Ed : (p / 7 = S ((p - 7) / 7))%nat).
      { replace p with ((p - 7) + 1 * 7)%nat at 1 by lia.
        rewrite Nat.div_add by lia. lia. }
      assert (Em : (p mod 7 = (p - 7) mod 7)%nat).
      { replace p with ((p - 7) + 1 * 7)%nat at 1 by lia.
        now rewrite Nat.Div0.mod_add. }
      rewrite Ed, Em. reflexivity.
Qed.

(** X10. The calendar of [generate_schedule], for a first weekday column
    from 0 to 6: every row has 7 cells; the cells before column
    [starting_day] of the first row are empty; day [k] of the schedule is in
    row [(starting_day + k) / 7], column [(starting_day + k) mod 7]; fewer
    than 7 empty cells follow the last day. *)
Theorem weeks_layout (starting_day : Z) (schedule : list Z) :
  0 <= starting_day <= 6 ->
  let sd := Z.to_nat starting_day in
  let df := weeks starting_day schedule in
  Forall (fun row => length row = 7%nat) df /\
  (forall p, (p < sd)%nat -> cell_at df 0 p = Some None) /\
  (forall k person, nth_error schedule k = Some person ->
     cell_at df ((sd + k) / 7) ((sd + k) mod 7) = Some (Some person)) /\
  (exists t, (t <= 7)%nat /\ (length df * 7 = sd + length schedule + t)%nat /\
     (t = 7%nat -> starting_day = 0 /\ schedule = []) /\
     concat df = repeat None sd ++ map Some schedule ++ repeat None t).
Proof.
  intros Hsd sd df.
  assert (Hshape : exists t, (t <= 7)%nat /\
            (t = 7%nat -> starting_day = 0 /\ schedule = []) /\
            Forall (fun row => length row = 7%nat) df /\
            concat df = repeat None sd ++ map Some schedule ++ repeat None t).
  { unfold df, weeks. cbv zeta.
    match goal with
    | |- context [fold_left append_person schedule ?x] => set (init := x)
    end.
    assert (Hinit : init = ([], repeat None sd)) by reflexivity.
    assert (Hne : forall done last,
              fold_left append_person schedule init = (done, last) ->
              last = [] -> starting_day = 0 /\ schedule = []).
    { intros done last E Hl. rewrite Hinit in E.
      destruct schedule as [|p sch] using rev_ind.
      - simpl in E. inversion E as [[E1 E2]]. subst last.
        unfold sd in E2.
        destruct (Z.to_nat starting_day) eqn:Z0; [split; [lia|reflexivity]|discriminate].
      - rewrite fold_left_app in E. simpl in E.
        destruct (fold_left append_person sch _) as [d0 l0]. simpl in E.
        destruct (length l0 =? 7)%nat; inversion E; subst;
          [discriminate|now destruct l0]. }
    destruct (fold_left append_person schedule init) as [done last] eqn:E.
    rewrite Hinit in E.
    destruct (fold_append_person schedule [] done (repeat None sd)
                last (Forall_nil _) ltac:(rewrite repeat_length; unfold sd; lia) E)
      as (H1 & H2 & H3). simpl in H3.
    exists (7 - length last)%nat. split; [lia|]. split.
    - intros Ht. apply (Hne done last eq_refl). destruct last; [reflexivity|cbn [length] in Ht; lia].
    - split.
      + apply Forall_app. split; [exact H1|]. constructor; [|constructor].
        rewrite length_app, repeat_length. lia.
      + rewrite concat_app. simpl. rewrite app_nil_r, app_assoc, H3.
        rewrite <- !app_assoc. reflexivity. }
  destruct Hshape as (t & Ht & Ht7 & Hrows & Hcat).
  split; [exact Hrows|]. split; [|split].
  - intros p Hp.
    replace 0%nat with (p / 7)%nat at 1 by (apply Nat.div_small; lia).
    replace p with (p mod 7)%nat at 2 by (apply Nat.mod_small; lia).
    rewrite cell_at_concat by exact Hrows.
    rewrite Hcat, nth_error_app1 by (rewrite repeat_length; exact Hp).
    now rewrite nth_error_repeat.
  - intros k person Hk.
    rewrite cell_at_concat by exact Hrows.
    rewrite Hcat, nth_error_app2 by (rewrite repeat_length; lia).
    rewrite repeat_length. replace (sd + k - sd)%nat with k by lia.
    assert (k < length schedule)%nat by (apply nth_error_Some; congruence).
    rewrite nth_error_app1 by (now rewrite length_map).
    now rewrite nth_error_map, Hk.
  - exists t. split; [exact Ht|]. split; [|split; [exact Ht7|exact Hcat]].
    assert (L : length (concat df) = (length df * 7)%nat).
    { clear - Hrows. induction df as [|r df IH]; [reflexivity|].
      inversion Hrows; subst. simpl. rewrite length_app, IH by assumption. lia. }
    rewrite <- L, Hcat, !length_app, !repeat_length, length_map. lia.
Qed.

(* ------------------------------------------------------------------ *)
(** ** The numbered calendar and the export *)

Lemma positions_from_app {A} (p : Z) (l1 l2 : list A) :
  positions_from p (l1 ++ l2) = positions_from p l1 ++ positions_from (p + len l1) l2.
Proof.
  revert p. unfold len. induction l1 as [|c l1 IH]; intros p; simpl.
  - now rewrite Z.add_0_r.
  - rewrite IH. do 3 f_equal. lia.
Qed.

Lemma nth_error_positions_from {A} (p : Z) (l : list A) (j : nat) :
  nth_error (positions_from p l) j
  = option_map (fun c => (p + Z.of_nat j, c)) (nth_error l j).
Proof.
  revert p j. induction l as [|c l IH]; intros p [|j]; simpl; try reflexivity.
  - now rewrite Z.add_0_r.
  - rewrite IH. destruct (nth_error l j); simpl; [|reflexivity]. do 2 f_equal. lia.
Qed.

Section Traversal.
Variables start_day total_days : Z.
Variable doctors_names : Z -> option string.
Hypothesis Hsd : 0 <= start_day <= 6.
Hypothesis Htotal : 0 <= total_days.

Let dn_at := day_number_at start_day total_days.

(** One row of [add_day_numbers], from column [c] of row [r] on. *)
Lemma number_row_positions (r c : Z) (row : list cell) :
  0 <= r -> 0 <= c -> c + len row <= 7 ->
  number_row start_day total_days doctors_names r c row (dn_at (7 * r + c))
  = (map (fun pc => shown_at start_day total_days doctors_names (fst pc) (snd pc))
         (positions_from (7 * r + c) row),
     dn_at (7 * r + c + len row)).
Proof.
  intros Hr. revert c. unfold len.
  induction row as [|x row IH]; intros c Hc Hlen.
  - simpl. now rewrite Z.add_0_r.
  - cbn [length] in Hlen. cbn [number_row positions_from map fst snd].
    assert (IH' := IH (c + 1) ltac:(lia) ltac:(lia)).
    replace (7 * r + (c + 1)) with (7 * r + c + 1) in IH' by lia.
    replace (7 * r + c + Z.of_nat (length (x :: row)))
      with (7 * r + c + 1 + Z.of_nat (length row)) by (cbn [length]; lia).
    unfold shown_at at 1.
    destruct ((r =? 0) && (c <? start_day)) eqn:C1.
    + apply andb_true_iff in C1. destruct C1 as [R0 C0].
      apply Z.eqb_eq in R0. apply Z.ltb_lt in C0.
      replace (dn_at (7 * r + c)) with (dn_at (7 * r + c + 1))
        by (unfold dn_at, day_number_at; lia).
      rewrite IH'.
      replace ((start_day <=? 7 * r + c) && (7 * r + c <? start_day + total_days))
        with false by (symmetry; apply andb_false_iff; left; apply Z.leb_gt; lia).
      reflexivity.
    + assert (P : start_day <= 7 * r + c).
      { apply andb_false_iff in C1. destruct C1 as [R0|C0].
        - apply Z.eqb_neq in R0. lia.
        - apply Z.ltb_ge in C0. lia. }
      destruct (total_days <? dn_at (7 * r + c)) eqn:C2.
      * apply Z.ltb_lt in C2.
        assert (Q : start_day + total_days <= 7 * r + c)
          by (unfold dn_at, day_number_at in C2; lia).
        replace (dn_at (7 * r + c)) with (dn_at (7 * r + c + 1))
          by (unfold dn_at, day_number_at; lia).
        rewrite IH'.
        replace ((start_day <=? 7 * r + c) && (7 * r + c <? start_day + total_days))
          with false by (symmetry; apply andb_false_iff; right; apply Z.ltb_ge; lia).
        reflexivity.
      * apply Z.ltb_ge in C2.
        assert (Q : 7 * r + c < start_day + total_days)
          by (unfold dn_at, day_number_at in C2; lia).
        replace (dn_at (7 * r + c) + 1) with (dn_at (7 * r + c + 1))
          by (unfold dn_at, day_number_at; lia).
        rewrite IH'.
        replace ((start_day <=? 7 * r + c) && (7 * r + c <? start_day + total_days))
          with true
          by (symmetry; apply andb_true_iff; split; [apply Z.leb_le|apply Z.ltb_lt]; lia).
        replace (dn_at (7 * r + c)) with (7 * r + c - start_day + 1)
          by (unfold dn_at, day_number_at; lia).
        reflexivity.
Qed.

(** The rows of [add_day_numbers], from row [r] on. *)
Lemma number_rows_positions (r : Z) (df : list (list cell)) :
  0 <= r ->
  Forall (fun row => length row = 7%nat) df ->
  Forall (fun row => length row = 7%nat)
         (number_rows start_day total_days doctors_names r df (dn_at (7 * r))) /\
  concat (number_rows start_day total_days doctors_names r df (dn_at (7 * r)))
  = map (fun pc => shown_at start_day total_days doctors_names (fst pc) (snd pc))
        (positions_from (7 * r) (concat df)).
Proof.
  intros Hr Hdf. revert r Hr.
  induction Hdf as [|row df Hrow Hdf IH]; intros r Hr.
  - simpl. split; [constructor|reflexivity].
  - cbn [number_rows concat].
    pose proof (number_row_positions r 0 row Hr ltac:(lia)
                  ltac:(unfold len; rewrite Hrow; lia)) as E.
    rewrite Z.add_0_r in E. rewrite E.
    replace (7 * r + len row) with (7 * (r + 1)) by (unfold len; rewrite Hrow; lia).
    destruct (IH (r + 1) ltac:(lia)) as [IH1 IH2]. split.
    + constructor; [|exact IH1].
      rewrite length_map.
      clear - Hrow. revert Hrow. generalize (7 * r). generalize 7%nat.
      induction row; intros k z <-; simpl; [reflexivity|]. f_equal.
      now apply IHrow.
    + cbn [concat]. rewrite IH2, positions_from_app, map_app.
      replace (7 * r + len row) with (7 * (r + 1)) by (unfold len; rewrite Hrow; lia).
      reflexivity.
Qed.

(** One row of [prepare_export_df], from column [c] of row [r] on: leaving
    the row by [break] loses no entry. *)
Lemma export_row_positions (r c : Z) (row : list cell) (acc : list export_entry) :
  0 <= r -> 0 <= c -> c + len row = 7 ->
  export_row start_day total_days doctors_names r c
             (combine (skipn (Z.to_nat c) weekdays) row) (dn_at (7 * r + c)) acc
  = (dn_at (7 * r + c + len row),
     acc ++ flat_map (entries_at start_day total_days doctors_names)
                     (positions_from (7 * r + c) row)).
Proof.
  intros Hr. revert c acc. unfold len.
  induction row as [|x row IH]; intros c acc Hc Hlen.
  - simpl. destruct (skipn (Z.to_nat c) weekdays); simpl;
      now rewrite Z.add_0_r, app_nil_r.
  - cbn [length] in Hlen.
    assert (Hw : skipn (Z.to_nat c) weekdays
                 = nth (Z.to_nat c) weekdays "" :: skipn (Z.to_nat (c + 1)) weekdays).
    { assert (Hc7 : c = 0 \/ c = 1 \/ c = 2 \/ c = 3 \/ c = 4 \/ c = 5 \/ c = 6) by lia.
      destruct Hc7 as [->|[->|[->|[->|[->|[->| ->]]]]]]; reflexivity. }
    rewrite Hw. cbn [combine export_row positions_from flat_map].
    assert (IH' := fun acc' => IH (c + 1) acc' ltac:(lia) ltac:(lia)).
    replace (7 * r + (c + 1)) with (7 * r + c + 1) in IH' by lia.
    replace (7 * r + c + Z.of_nat (length (x :: row)))
      with (7 * r + c + 1 + Z.of_nat (length row)) by (cbn [length]; lia).
    unfold entries_at at 1.
    destruct ((r =? 0) && (c <? start_day)) eqn:C1.
    + apply andb_true_iff in C1. destruct C1 as [R0 C0].
      apply Z.eqb_eq in R0. apply Z.ltb_lt in C0.
      replace (dn_at (7 * r + c)) with (dn_at (7 * r + c + 1))
        by (unfold dn_at, day_number_at; lia).
      rewrite IH'.
      replace ((start_day <=? 7 * r + c) && (7 * r + c <? start_day + total_days))
        with false by (symmetry; apply andb_false_iff; left; apply Z.leb_gt; lia).
      reflexivity.
    + assert (P : start_day <= 7 * r + c).
      { apply andb_false_iff in C1. destruct C1 as [R0|C0].
        - apply Z.eqb_neq in R0. lia.
        - apply Z.ltb_ge in C0. lia. }
      destruct (total_days <? dn_at (7 * r + c)) eqn:C2.
      * apply Z.ltb_lt in C2.
        assert (Q : start_day + total_days <= 7 * r + c)
          by (unfold dn_at, day_number_at in C2; lia).
        replace ((start_day <=? 7 * r + c) && (7 * r + c <? start_day + total_days))
          with false by (symmetry; apply andb_false_iff; right; apply Z.ltb_ge; lia).
        assert (G : forall q (l : list cell), 7 * r + c <= q ->
                  flat_map (entries_at start_day total_days doctors_names)
                           (positions_from q l) = []).
        { intros q l. revert q. induction l as [|y l IHl]; intros q Hq; [reflexivity|].
          cbn [positions_from flat_map]. rewrite IHl by lia. unfold entries_at.
          replace ((start_day <=? q) && (q <? start_day + total_days))
            with false by (symmetry; apply andb_false_iff; right; apply Z.ltb_ge; lia).
          reflexivity. }
        rewrite G by lia. cbn [app]. rewrite app_nil_r.
        f_equal. unfold dn_at, day_number_at. lia.
      * apply Z.ltb_ge in C2.
        assert (Q : 7 * r + c < start_day + total_days)
          by (unfold dn_at, day_number_at in C2; lia).
        replace (dn_at (7 * r + c) + 1) with (dn_at (7 * r + c + 1))
          by (unfold dn_at, day_number_at; lia).
        rewrite IH'.
        replace ((start_day <=? 7 * r + c) && (7 * r + c <? start_day + total_days))
          with true
          by (symmetry; apply andb_true_iff; split; [apply Z.leb_le|apply Z.ltb_lt]; lia).
        replace (dn_at (7 * r + c)) with (7 * r + c - start_day + 1)
          by (unfold dn_at, day_number_at; lia).
        replace ((7 * r + c) mod 7) with c
          by (rewrite Z.add_comm, Z.mul_comm, Z.mod_add by lia;
              symmetry; apply Z.mod_small; lia).
        f_equal. destruct x; [now rewrite <- app_assoc|reflexivity].
Qed.

Lemma export_rows_positions (r : Z) (df : list (list cell)) (acc : list export_entry) :
  0 <= r ->
  Forall (fun row => length row = 7%nat) df ->
  export_rows start_day total_days doctors_names r df (dn_at (7 * r)) acc
  = acc ++ flat_map (entries_at start_day total_days doctors_names)
                    (positions_from (7 * r) (concat df)).
Proof.
  intros Hr Hdf. revert r acc Hr.
  induction Hdf as [|row df Hrow Hdf IH]; intros r acc Hr.
  - simpl. now rewrite app_nil_r.
  - cbn [export_rows concat].
    pose proof (export_row_positions r 0 row acc Hr ltac:(lia)
                  ltac:(unfold len; rewrite Hrow; lia)) as E.
    rewrite Z.add_0_r in E. change (skipn (Z.to_nat 0) weekdays) with weekdays in E.
    rewrite E.
    replace (7 * r + len row) with (7 * (r + 1)) by (unfold len; rewrite Hrow; lia).
    rewrite IH by lia. rewrite positions_from_app, flat_map_app, <- app_assoc.
    replace (7 * r + len row) with (7 * (r + 1)) by (unfold len; rewrite Hrow; lia).
    reflexivity.
Qed.

End Traversal.

Lemma positions_from_enumerate {A} (l : list A) : positions_from 0 l = enumerate l.
Proof.
  unfold enumerate, range, len. rewrite Nat2Z.id.
  change 0 with (Z.of_nat 0). generalize 0%nat.
  induction l as [|c l IH]; intros a; simpl; [reflexivity|].
  f_equal. rewrite <- IH. f_equal. lia.
Qed.

Lemma length_concat_rows {A} (df : list (list A)) :
  Forall (fun row => length row = 7%nat) df ->
  length (concat df) = (length df * 7)%nat.
Proof.
  induction 1 as [|r df Hr Hdf IH]; [reflexivity|].
  simpl. rewrite length_app, IH, Hr. lia.
Qed.

(** X11. [add_day_numbers] on the calendar of [generate_schedule], for the
    same first column and the length of the schedule as number of days: the
    frame keeps its rows of 7 cells; the cell of day [k] (from 0) reads
    ["k+1 <br> name"], the name being that of the doctor of the day in
    [doctors_names], or empty when the doctor has none; every other cell is
    the empty string, so that no NaN is left. *)
Theorem numbered_calendar (starting_day : Z) (schedule : list Z)
    (doctors_names : Z -> option string) :
  0 <= starting_day <= 6 ->
  let sd := Z.to_nat starting_day in
  let df := weeks starting_day schedule in
  let shown := add_day_numbers starting_day (len schedule) doctors_names df in
  Forall (fun row => length row = 7%nat) shown /\
  length shown = length df /\
  (forall k person, nth_error schedule k = Some person ->
     cell_at shown ((sd + k) / 7) ((sd + k) mod 7)
     = Some (Some (day_text (Z.of_nat k + 1) (get doctors_names person "")))) /\
  (forall p, (p < sd \/ sd + length schedule <= p)%nat -> (p < length df * 7)%nat ->
     cell_at shown (p / 7) (p mod 7) = Some (Some "")).
Proof.
  intros Hsd sd df shown.
  destruct (weeks_layout starting_day schedule Hsd) as (Hrows & _ & Hday & _).
  fold df in Hrows, Hday. fold sd in Hday.
  assert (Htotal : 0 <= len schedule) by (unfold len; lia).
  destruct (number_rows_positions starting_day (len schedule) doctors_names Hsd Htotal
              0 df ltac:(lia) Hrows) as [Hshape Hcat].
  replace (day_number_at starting_day (len schedule) (7 * 0)) with 1 in Hshape, Hcat
    by (unfold day_number_at; lia).
  change (7 * 0) with 0 in Hcat.
  fold (add_day_numbers starting_day (len schedule) doctors_names df) in Hshape, Hcat.
  fold shown in Hshape, Hcat.
  assert (Hlen : length shown = length df).
  { pose proof (length_concat_rows shown Hshape) as L1.
    pose proof (length_concat_rows df Hrows) as L2.
    rewrite Hcat, length_map in L1.
    assert (L3 : forall (l : list cell) q, length (positions_from q l) = length l)
      by (induction l; intros q; simpl; [reflexivity|now rewrite IHl]).
    rewrite L3 in L1. lia. }
  assert (Hcell : forall p,
    cell_at shown (p / 7) (p mod 7)
    = option_map (shown_at starting_day (len schedule) doctors_names (Z.of_nat p))
                 (cell_at df (p / 7) (p mod 7))).
  { intros p. rewrite !cell_at_concat by assumption.
    rewrite Hcat, nth_error_map, nth_error_positions_from.
    destruct (nth_error (concat df) p); reflexivity. }
  split; [exact Hshape|]. split; [exact Hlen|]. split.
  - intros k person Hk. rewrite Hcell, (Hday k person Hk). simpl. unfold shown_at.
    assert (k < length schedule)%nat by (apply nth_error_Some; congruence).
    replace ((starting_day <=? Z.of_nat (sd + k))
             && (Z.of_nat (sd + k) <? starting_day + len schedule)) with true
      by (symmetry; apply andb_true_iff; unfold len, sd;
          split; [apply Z.leb_le|apply Z.ltb_lt]; lia).
    do 3 f_equal. unfold sd. lia.
  - intros p Hp Hin. rewrite Hcell, cell_at_concat by exact Hrows.
    pose proof (length_concat_rows df Hrows) as L.
    destruct (nth_error (concat df) p) as [c|] eqn:E;
      [|apply nth_error_None in E; lia].
    simpl. unfold shown_at.
    replace ((starting_day <=? Z.of_nat p)
             && (Z.of_nat p <? starting_day + len schedule)) with false;
      [reflexivity|].
    symmetry. apply andb_false_iff. unfold len, sd in *.
    destruct Hp; [left; apply Z.leb_gt|right; apply Z.ltb_ge]; lia.
Qed.

(** X12. [prepare_export_df] on the calendar of [generate_schedule]: one
    entry per day of the schedule, in order; the entry of day [k] (from 0)
    has day number [k + 1], the name of the column the day is in, and the
    doctor's name, empty when [doctors_names] has none. *)
Theorem exported_schedule (starting_day : Z) (schedule : list Z)
    (doctors_names : Z -> option string) :
  0 <= starting_day <= 6 ->
  prepare_export_df starting_day (len schedule) doctors_names
                    (weeks starting_day schedule)
  = map (fun kp : Z * Z =>
           mkEntry (fst kp + 1)
                   (nth (Z.to_nat ((starting_day + fst kp) mod 7)) weekdays "")
                   (get doctors_names (snd kp) ""))
        (enumerate schedule).
Proof.
  intros Hsd.
  destruct (weeks_layout starting_day schedule Hsd)
    as (Hrows & _ & _ & t & _ & _ & _ & Hcat).
  assert (Htotal : 0 <= len schedule) by (unfold len; lia).
  unfold prepare_export_df.
  pose proof (export_rows_positions starting_day (len schedule) doctors_names Hsd Htotal
                0 (weeks starting_day schedule) [] ltac:(lia) Hrows) as E.
  replace (day_number_at starting_day (len schedule) (7 * 0)) with 1 in E
    by (unfold day_number_at; lia).
  change (7 * 0) with 0 in E. rewrite E, Hcat. cbn [app].
  rewrite !positions_from_app, !flat_map_app.
  assert (Outside : forall q (l : list cell),
            (forall j, 0 <= j < len l ->
               q + j < starting_day \/ starting_day + len schedule <= q + j) ->
            flat_map (entries_at starting_day (len schedule) doctors_names)
                     (positions_from q l) = []).
  { intros q l. revert q. unfold len at 1.
    induction l as [|c l IH]; intros q H; [reflexivity|].
    cbn [positions_from flat_map]. rewrite IH.
    - unfold entries_at.
      replace ((starting_day <=? q) && (q <? starting_day + len schedule)) with false;
        [reflexivity|].
      symmetry. apply andb_false_iff.
      destruct (H 0 ltac:(cbn [length]; lia)); [left; apply Z.leb_gt|right; apply Z.ltb_ge];
        lia.
    - intros j Hj. specialize (H (j + 1) ltac:(cbn [length]; lia)). lia. }
  rewrite (Outside 0) by (unfold len; rewrite repeat_length; intros; lia).
  rewrite (Outside _ (repeat None t))
    by (unfold len; rewrite !repeat_length, length_map; intros; lia).
  rewrite app_nil_r. cbn [app].
  rewrite <- positions_from_enumerate.
  match goal with
  | |- context [positions_from ?q (map Some schedule)] =>
      replace q with (starting_day + 0) by (unfold len; rewrite repeat_length; lia)
  end.
  assert (Inside : forall q (l : list Z),
            0 <= q -> q + len l <= len schedule ->
            flat_map (entries_at starting_day (len schedule) doctors_names)
                     (positions_from (starting_day + q) (map Some l))
            = map (fun kp : Z * Z =>
                     mkEntry (fst kp + 1)
                       (nth (Z.to_nat ((starting_day + fst kp) mod 7)) weekdays "")
                       (get doctors_names (snd kp) ""))
                  (positions_from q l)).
  { intros q l. revert q. unfold len at 1.
    induction l as [|v l IH]; intros q Hq Hl; [reflexivity|].
    cbn [length] in Hl. cbn [map positions_from flat_map fst snd].
    replace (starting_day + q + 1) with (starting_day + (q + 1)) by lia.
    rewrite IH by lia. unfold entries_at.
    replace ((starting_day <=? starting_day + q)
             && (starting_day + q <? starting_day + len schedule)) with true
      by (symmetry; apply andb_true_iff; split; [apply Z.leb_le|apply Z.ltb_lt]; lia).
    cbn [app]. do 2 f_equal. f_equal. lia. }
  apply Inside; lia.
Qed.

(* ------------------------------------------------------------------ *)
(** ** Weekdays, from the interface to the core and back to the calendar *)

(** X13. The first weekday of the month survives the two conversions: for
    Python's [weekday()] value [wd] (Monday = 0), the interface's
    [starting_day] is a column from 0 to 6, the name [generate_schedule]
    reads in [weekdays] for it is the name the core finds at index [wd] of
    [days], and for every day [d] the name of the calendar column of [d] is
    the name of the weekday the core computes for [d]. *)
Theorem weekday_round_trip (wd : Z) :
  0 <= wd < 7 ->
  0 <= starting_day_of wd <= 6 /\
  (exists name,
     getitem weekdays (starting_day_of wd) = Ok name /\ index name days = Ok wd) /\
  (forall d, 0 <= d ->
     nth (Z.to_nat ((starting_day_of wd + d) mod 7)) weekdays ""
     = nth (Z.to_nat ((wd + d) mod 7)) days "").
Proof.
  intros Hwd. unfold starting_day_of. split; [|split].
  - pose proof (Z.mod_pos_bound (wd + 1) 7 ltac:(lia)). lia.
  - assert (H : wd = 0 \/ wd = 1 \/ wd = 2 \/ wd = 3 \/ wd = 4 \/ wd = 5 \/ wd = 6) by lia.
    destruct H as [->|[->|[->|[->|[->|[->| ->]]]]]]; eexists; split; reflexivity.
  - intros d Hd.
    rewrite Z.add_mod_idemp_l by lia.
    replace (wd + 1 + d) with ((wd + d) + 1) by lia.
    rewrite <- Z.add_mod_idemp_l by lia.
    pose proof (Z.mod_pos_bound (wd + d) 7 ltac:(lia)) as B.
    set (r := (wd + d) mod 7) in *.
    assert (H : r = 0 \/ r = 1 \/ r = 2 \/ r = 3 \/ r = 4 \/ r = 5 \/ r = 6) by lia.
    destruct H as [->|[->|[->|[->|[->|[->| ->]]]]]]; reflexivity.
Qed.

Lemma weekday_round_trip_witness :
  0 <= 4 < 7 /\
  starting_day_of 4 = 5 /\
  0 <= starting_day_of 4 <= 6 /\
  (exists name,
     getitem weekdays (starting_day_of 4) = Ok name /\ index name days = Ok 4) /\
  (forall d, 0 <= d ->
     nth (Z.to_nat ((starting_day_of 4 + d) mod 7)) weekdays ""
     = nth (Z.to_nat ((4 + d) mod 7)) days "").
Proof.
  split; [lia|]. split; [reflexivity|]. apply (weekday_round_trip 4). lia.
Defined.

(** The schedule the calendar is made of is the one the core returned. *)
Lemma generate_schedule_weeks_Ok_inv (solve : Solver) (n m wd : Z)
    (pairs : list (Z * Z)) (df : list (list cell)) :
  sound solve ->
  0 <= wd < 7 ->
  generate_schedule_weeks solve n m (starting_day_of wd) pairs = Ok df ->
  exists name sched,
    index name days = Ok wd /\
    cp_sat_generate_schedule solve n m name pairs default_time_limit
                             default_num_workers None = Ok sched /\
    df = weeks (starting_day_of wd) sched.
Proof.
  intros Hsound Hwd H.
  destruct (weekday_round_trip wd Hwd) as (_ & (name & Hname & Hidx) & _).
  unfold generate_schedule_weeks, generate_schedule in H. rewrite Hname in H.
  simpl in H.
  destruct (cp_sat_generate_schedule solve n m name pairs default_time_limit
              default_num_workers None) as [sched|e] eqn:R; simpl in H; [|discriminate].
  exists name, sched. split; [exact Hidx|]. split; [exact R|].
  destruct (returned_schedule_is_total _ _ _ _ _ _ _ _ _ Hsound R) as (Hm & Hlen & _).
  destruct sched as [|x sched]; [unfold len in Hlen; simpl in Hlen; lia|].
  now inversion H.
Qed.

(** X14. In the calendar [generate_schedule] returns for a month whose
    first day has Python weekday [wd] (the engine being sound), every row
    with a doctor in its Friday column and a doctor in its Saturday column
    has the same doctor in both. *)
Theorem calendar_weekends_paired (solve : Solver) (n m wd : Z)
    (pairs : list (Z * Z)) (df : list (list cell)) :
  sound solve ->
  0 <= wd < 7 ->
  generate_schedule_weeks solve n m (starting_day_of wd) pairs = Ok df ->
  nth 5 weekdays "" = "Friday" /\ nth 6 weekdays "" = "Saturday" /\
  forall row a b,
    cell_at df row 5 = Some (Some a) -> cell_at df row 6 = Some (Some b) -> a = b.
Proof.
  intros Hsound Hwd H. split; [reflexivity|]. split; [reflexivity|].
  intros row a b Ha Hb.
  destruct (generate_schedule_weeks_Ok_inv _ _ _ _ _ _ Hsound Hwd H)
    as (name & sched & Hidx & R & ->).
  destruct (weekday_round_trip wd Hwd) as (Hsd & _ & _).
  destruct (weeks_layout (starting_day_of wd) sched Hsd)
    as (Hrows & _ & _ & t & _ & _ & _ & Hcat).
  destruct (returned_schedule_is_total _ _ _ _ _ _ _ _ _ Hsound R) as (Hm & Hlen & _).
  set (sd := Z.to_nat (starting_day_of wd)) in *.
  assert (Hpos : forall c x, (c < 7)%nat ->
            cell_at (weeks (starting_day_of wd) sched) row c = Some (Some x) ->
            exists k, (row * 7 + c = sd + k)%nat /\ nth_error sched k = Some x).
  { intros c x Hc Hx.
    replace row with ((row * 7 + c) / 7)%nat in Hx at 1
      by (rewrite Nat.add_comm, Nat.div_add by lia; rewrite Nat.div_small by lia; lia).
    replace c with ((row * 7 + c) mod 7)%nat in Hx at 2
      by (rewrite Nat.add_comm, Nat.Div0.mod_add; apply Nat.mod_small; lia).
    rewrite cell_at_concat in Hx by exact Hrows. rewrite Hcat in Hx.
    set (p := (row * 7 + c)%nat) in *.
    destruct (Nat.lt_ge_cases p sd) as [Hp|Hp].
    - rewrite nth_error_app1 in Hx by (now rewrite repeat_length).
      rewrite nth_error_repeat in Hx by exact Hp. discriminate.
    - rewrite nth_error_app2 in Hx by (rewrite repeat_length; exact Hp).
      rewrite repeat_length in Hx.
      destruct (Nat.lt_ge_cases (p - sd) (length sched)) as [Hq|Hq].
      + rewrite nth_error_app1 in Hx by (now rewrite length_map).
        rewrite nth_error_map in Hx.
        destruct (nth_error sched (p - sd)) as [y|] eqn:E; [|discriminate].
        exists (p - sd)%nat. split; [lia|]. simpl in Hx. congruence.
      + rewrite nth_error_app2 in Hx by (now rewrite length_map).
        destruct (Nat.lt_ge_cases (p - sd - length (map Some sched)) t) as [Ht|Ht].
        * rewrite nth_error_repeat in Hx by exact Ht. discriminate.
        * assert (X : nth_error (repeat (@None Z) t)
                                (p - sd - length (map Some sched)) = None)
            by (apply nth_error_None; now rewrite repeat_length).
          congruence. }
  destruct (Hpos 5%nat a ltac:(lia) Ha) as (k & Hk & Hka).
  destruct (Hpos 6%nat b ltac:(lia) Hb) as (k' & Hk' & Hkb).
  assert (k' = S k) by lia. subst k'.
  assert (Hlt : (S k < length sched)%nat) by (apply nth_error_Some; congruence).
  pose proof (returned_schedule_pairs_weekends solve n m name pairs
                default_time_limit default_num_workers None sched wd Hsound Hidx R
                (Z.of_nat k) ltac:(lia) ltac:(unfold len in Hlen; lia)) as P.
  assert (Hfri : (wd + Z.of_nat k) mod 7 = friday).
  { assert (E : (starting_day_of wd + Z.of_nat k) mod 7 = 5).
    { replace (starting_day_of wd + Z.of_nat k) with (5 + Z.of_nat row * 7)
        by (unfold sd in Hk; lia).
      now rewrite Z.mod_add by lia. }
    unfold starting_day_of in E. rewrite Z.add_mod_idemp_l in E by lia.
    replace (wd + 1 + Z.of_nat k) with ((wd + Z.of_nat k) + 1) in E by lia.
    rewrite <- Z.add_mod_idemp_l in E by lia.
    pose proof (Z.mod_pos_bound (wd + Z.of_nat k) 7 ltac:(lia)) as B.
    set (r := (wd + Z.of_nat k) mod 7) in *. unfold friday.
    assert (Hr : r = 0 \/ r = 1 \/ r = 2 \/ r = 3 \/ r = 4 \/ r = 5 \/ r = 6) by lia.
    destruct Hr as [->|[->|[->|[->|[->|[->| ->]]]]]]; try reflexivity;
      vm_compute in E; discriminate. }
  specialize (P Hfri). unfold Validator.doctor_on in P.
  rewrite Nat2Z.id in P.
  replace (Z.to_nat (Z.of_nat k + 1)) with (S k) in P by lia.
  rewrite (nth_error_nth _ _ _ Hka), (nth_error_nth _ _ _ Hkb) in P. exact P.
Qed.

(* ------------------------------------------------------------------ *)
(** ** The off-days of the interface, as the core receives them *)

Lemma mapM_app {A B} (f : A -> result B) (l1 l2 : list A) :
  mapM f (l1 ++ l2)
  = (a <- mapM f l1 ;; b <- mapM f l2 ;; Ok (a ++ b)).
Proof.
  induction l1 as [|x l1 IH]; simpl.
  - destruct (mapM f l2); reflexivity.
  - destruct (f x); simpl; [|reflexivity]. rewrite IH.
    destruct (mapM f l1); simpl; [|reflexivity].
    destruct (mapM f l2); reflexivity.
Qed.

Lemma getitem_cases {A} (l : list A) (d : Z) :
  (exists x, getitem l d = Ok x /\ In x l) \/ getitem l d = Raise IndexError.
Proof.
  unfold getitem.
  destruct ((0 <=? (if d <? 0 then len l + d else d))
            && ((if d <? 0 then len l + d else d) <? len l)); [|now right].
  destruct (nth_error l _) as [x|] eqn:E; [|now right].
  left. exists x. split; [reflexivity|]. eapply nth_error_In. exact E.
Qed.

Lemma weekdays_in_days (name : string) :
  In name weekdays -> exists idx, index name days = Ok idx.
Proof.
  intros H. simpl in H.
  destruct H as [<-|[<-|[<-|[<-|[<-|[<-|[<-|[]]]]]]]]; eexists; reflexivity.
Qed.

(** What [generate_schedule] hands back is what the core returned, for the
    weekday name of the column [starting_day]. *)
Lemma generate_schedule_Ok_inv (solve : Solver) (n m starting_day : Z)
    (pairs : list (Z * Z)) (sched : list Z) :
  sound solve ->
  generate_schedule solve n m starting_day pairs = Ok sched ->
  exists name,
    getitem weekdays starting_day = Ok name /\
    cp_sat_generate_schedule solve n m name pairs default_time_limit
                             default_num_workers None = Ok sched.
Proof.
  intros Hsound H. unfold generate_schedule in H.
  destruct (getitem weekdays starting_day) as [name|e]; simpl in H; [|discriminate].
  destruct (cp_sat_generate_schedule solve n m name pairs default_time_limit
              default_num_workers None) as [s|e] eqn:R; simpl in H; [|discriminate].
  exists name. split; [reflexivity|].
  destruct (returned_schedule_is_total _ _ _ _ _ _ _ _ _ Hsound R) as (Hm & Hlen & _).
  destruct s as [|x s]; [unfold len in Hlen; simpl in Hlen; lia|].
  now inversion H.
Qed.

(** The options a doctor selected, as (day of the month, month, weekday
    name) triples, and the strings of [off_days_options] for them. *)
Lemma selected_options_pairs (doctor_index : Z) (sel : list (Z * (Z * string))) :
  (forall o, In o sel -> 0 <= fst o) ->
  mapM (fun dd : Z * string =>
          let (i, day) := dd in
          k <- int_ (split_head day) ;; Ok (k - 1, i))
       (map (fun day => (doctor_index, day))
            (map (fun o => off_day_option (fst o) (fst (snd o)) (snd (snd o))) sel))
  = Ok (map (fun o => (fst o - 1, doctor_index)) sel).
Proof.
  induction sel as [|[k [mo wd]] sel IH]; intros H; [reflexivity|].
  cbn [map mapM fst snd]. unfold off_day_option at 1.
  change (str k ++ "/" ++ str mo ++ " - " ++ wd)%string
    with (str k ++ String "/" (str mo ++ " - " ++ wd))%string.
  rewrite split_head_str by (apply (H (k, (mo, wd))); now left).
  rewrite int_str. cbn [Py.bind].
  rewrite IH by (intros o Ho; apply H; now right). reflexivity.
Qed.

(** X15. The conversion of the off-days never fails on strings taken from
    [off_days_options], and gives, for each doctor in turn and each of the
    doctor's selected days [k] (from 1), the pair [(k - 1, doctor_index)]:
    the day index first. *)
Theorem off_days_conversion (off_days : list (Z * list (Z * (Z * string)))) :
  (forall e o, In e off_days -> In o (snd e) -> 0 <= fst o) ->
  to_disallowed_pairs
    (map (fun e =>
            (fst e,
             map (fun o => off_day_option (fst o) (fst (snd o)) (snd (snd o))) (snd e)))
         off_days)
  = Ok (flat_map (fun e => map (fun o => (fst o - 1, fst e)) (snd e)) off_days).
Proof.
  unfold to_disallowed_pairs.
  induction off_days as [|[i sel] off_days IH]; intros H; [reflexivity|].
  cbn [map flat_map fst snd]. rewrite mapM_app.
  rewrite selected_options_pairs by (intros o Ho; apply (H (i, sel)); [now left|exact Ho]).
  cbn [Py.bind]. rewrite IH by (intros e o He Ho; apply (H e o); [now right|exact Ho]).
  reflexivity.
Qed.

(** X16. What an off-day does to the schedule the handler returns (the
    engine being sound): when doctor [doctor_index] selected day [k] of the
    month, the day of index [doctor_index] is not given to the doctor of
    index [k - 1]; the handler returns only if [doctor_index] is less than
    the number of days. *)
Theorem off_day_effect (solve : Solver) (n m starting_day : Z)
    (off_days : list (Z * list (Z * (Z * string)))) (sched : list Z) :
  sound solve ->
  (forall e o, In e off_days -> In o (snd e) -> 0 <= fst e /\ 0 <= fst o) ->
  on_generate solve n m starting_day
    (map (fun e =>
            (fst e,
             map (fun o => off_day_option (fst o) (fst (snd o)) (snd (snd o))) (snd e)))
         off_days)
  = Ok sched ->
  forall doctor_index sel k mw,
    In (doctor_index, sel) off_days -> In (k, mw) sel ->
    doctor_index < m /\ Validator.doctor_on sched doctor_index <> k - 1.
Proof.
  intros Hsound Hpos H doctor_index sel k mw He Ho.
  unfold on_generate in H.
  rewrite off_days_conversion in H
    by (intros e o He' Ho'; apply (Hpos e o He' Ho')).
  cbn [Py.bind] in H.
  destruct (generate_schedule_Ok_inv _ _ _ _ _ _ Hsound H) as (name & _ & R).
  destruct (Hpos _ _ He Ho) as [Hi _]. simpl in Hi.
  destruct (returned_schedule_excludes_pairs _ _ _ _ _ _ _ _ _ Hsound R
              (k - 1) doctor_index) as [Hr Hne].
  - apply in_flat_map. exists (doctor_index, sel). split; [exact He|].
    apply in_map_iff. exists (k, mw). split; [reflexivity|exact Ho].
  - destruct (doctor_index <? 0) eqn:E; [apply Z.ltb_lt in E; lia|].
    split; [lia|exact Hne].
Qed.

(** X17. When a doctor whose index is not less than the number of days
    has selected an off-day, the handler raises [IndexError]: the core
    indexes the days by the doctor's index. *)
Theorem off_day_of_late_doctor_raises (solve : Solver) (n m starting_day : Z)
    (off_days : list (Z * list (Z * (Z * string))))
    (doctor_index : Z) (sel : list (Z * (Z * string))) :
  (forall e o, In e off_days -> In o (snd e) -> 0 <= fst o) ->
  In (doctor_index, sel) off_days ->
  sel <> [] ->
  0 <= doctor_index -> m <= doctor_index ->
  on_generate solve n m starting_day
    (map (fun e =>
            (fst e,
             map (fun o => off_day_option (fst o) (fst (snd o)) (snd (snd o))) (snd e)))
         off_days)
  = Raise IndexError.
Proof.
  intros Hpos He Hsel Hi0 Him.
  unfold on_generate. rewrite off_days_conversion by exact Hpos.
  cbn [Py.bind]. unfold generate_schedule.
  destruct (getitem_cases weekdays starting_day) as [(name & -> & Hin)| ->];
    [|reflexivity].
  cbn [Py.bind].
  destruct (weekdays_in_days name Hin) as [idx Hidx].
  set (pairs := flat_map _ off_days).
  destruct (generate_cases solve n m name pairs default_time_limit
              default_num_workers None)
    as [[Hv _]|(idx' & _ & [[_ ->]|[(F & _)|(F & _)]])];
    [congruence|reflexivity| |];
    exfalso; rewrite Forall_forall in F;
    destruct sel as [|[k mw] sel']; try contradiction;
    specialize (F (k - 1, doctor_index)); simpl in F;
    (assert (X : - m <= doctor_index < m); [apply F|lia]);
    apply in_flat_map; exists (doctor_index, (k, mw) :: sel');
    (split; [exact He|now left]).
Qed.

(* ------------------------------------------------------------------ *)
(** ** Colours and cell styles *)

Lemma set_same (d : dict) (key value : string) : set d key value key = Some value.
Proof. unfold set. now rewrite String.eqb_refl. Qed.

Lemma set_other (d : dict) (key value k : string) :
  k <> key -> set d key value k = d k.
Proof. intros H. unfold set. now rewrite (proj2 (String.eqb_neq k key) H). Qed.

Lemma assign_from_spec (palette : string * list string) (doctors : list string)
    (j0 : nat) (out : dict) :
  NoDup (filter (fun d => negb (String.eqb d "")) doctors) ->
  (forall j name,
     nth_error (filter (fun d => negb (String.eqb d "")) doctors) j = Some name ->
     assign_from palette doctors j0 out name = Some (color_cycle palette (j0 + j))) /\
  (forall name,
     ~ In name (filter (fun d => negb (String.eqb d "")) doctors) ->
     assign_from palette doctors j0 out name = out name).
Proof.
  revert j0 out. induction doctors as [|d doctors IH]; intros j0 out ND.
  - split; [intros [|j] name H; discriminate|reflexivity].
  - cbn [filter assign_from] in *. destruct (String.eqb_spec d "") as [E|E].
    + exact (IH j0 out ND).
    + cbn [negb] in *. inversion ND as [|? ? Hnotin ND']; subst.
      destruct (IH (S j0) (set out d (color_cycle palette j0)) ND') as [IH1 IH2].
      split.
      * intros [|j] name H.
        -- inversion H; subst. rewrite IH2 by exact Hnotin.
           rewrite set_same, Nat.add_0_r. reflexivity.
        -- rewrite (IH1 j name H). do 2 f_equal. lia.
      * intros name Hn. rewrite IH2 by (intros X; apply Hn; now right).
        apply set_other. intros ->. apply Hn. now left.
Qed.

(** X18. [assign_colors] when the non-empty names are pairwise distinct:
    the empty name is black; the [j]-th non-empty name (from 0) has the
    colour of index [j] modulo the length of the palette, so that names
    whose ranks differ by that length share a colour, and, the colours of
    the palette being distinct, names of lower rank all differ in colour; a
    non-empty name that is not a doctor's has no colour. *)
Theorem assign_colors_cycle (palette : string * list string) (doctors : list string) :
  let names := filter (fun d => negb (String.eqb d "")) doctors in
  let L := S (length (snd palette)) in
  NoDup names ->
  assign_colors palette doctors "" = Some "#000000" /\
  (forall j name, nth_error names j = Some name ->
     assign_colors palette doctors name
     = Some (nth (j mod L) (fst palette :: snd palette) (fst palette))) /\
  (forall j j' name name',
     NoDup (fst palette :: snd palette) -> (j < L)%nat -> (j' < L)%nat ->
     nth_error names j = Some name -> nth_error names j' = Some name' ->
     assign_colors palette doctors name = assign_colors palette doctors name' ->
     name = name') /\
  (forall name, name <> "" -> ~ In name doctors ->
     assign_colors palette doctors name = None).
Proof.
  intros names L ND.
  destruct (assign_from_spec palette doctors 0 empty ND) as [H1 H2].
  fold names in H1, H2.
  assert (Hnonempty : forall j name, nth_error names j = Some name -> name <> "").
  { intros j name H. apply nth_error_In in H. apply filter_In in H.
    destruct H as [_ H]. apply negb_true_iff in H. now apply String.eqb_neq. }
  assert (Hcol : forall j name, nth_error names j = Some name ->
     assign_colors palette doctors name
     = Some (nth (j mod L) (fst palette :: snd palette) (fst palette))).
  { intros j name H. unfold assign_colors.
    rewrite set_other by (eapply Hnonempty; exact H).
    rewrite (H1 j name H). reflexivity. }
  split; [apply set_same|]. split; [exact Hcol|]. split.
  - intros j j' name name' NDp Hj Hj' Hn Hn' E.
    rewrite (Hcol j name Hn), (Hcol j' name' Hn') in E.
    rewrite !Nat.mod_small in E by assumption. inversion E as [E'].
    apply (proj1 (NoDup_nth _ (fst palette)) NDp) in E';
      [|simpl; fold L; lia|simpl; fold L; lia].
    subst j'. congruence.
  - intros name Hne Hnot. unfold assign_colors.
    rewrite set_other by exact Hne. rewrite H2; [reflexivity|].
    intros X. apply filter_In in X. now apply Hnot.
Qed.




(* ------------------------------------------------------------------ *)
(** ** The model mentions only variables it created *)

Lemma vars_Add_Sum_Const (vs : list var) (r : rel) (c : Z) (v : var) :
  In v (constraint_vars (Add (Sum vs) r (Const c))) -> In v vs.
Proof.
  unfold constraint_vars. cbn [Add ct_body enforcement_literal map expr_vars].
  now rewrite !app_nil_r.
Qed.

Section Declared.
Variables n m start_idx : Z.
Variable pairs : list (Z * Z).
Variable M : CpModel.
Hypothesis HM : build_model n m start_idx pairs = Ok M.

Let fr : list Z := weekend_fridays start_idx m.

Lemma declared_day (d : Z) : 0 <= d < m -> In (day_ d) (map fst (variables M)).
Proof.
  intros Hd. apply in_map_iff. exists (day_ d, (0, n - 1)). split; [reflexivity|].
  apply (in_variables n m fr pairs M HM). left.
  apply in_map_iff. exists d. split; [reflexivity|now apply in_range].
Qed.

Lemma declared_b (i d : Z) :
  0 <= i < n -> 0 <= d < m -> In (b_ i d) (map fst (variables M)).
Proof.
  intros Hi Hd. apply in_map_iff. exists (b_ i d, (0, 1)). split; [reflexivity|].
  apply (in_variables n m fr pairs M HM). right. left.
  apply in_flat_map. exists i. split; [now apply in_range|].
  apply in_map_iff. exists d. split; [reflexivity|now apply in_range].
Qed.

Lemma declared_w (i k : Z) :
  0 <= i < n -> 0 <= k < W fr -> In (w_ i k) (map fst (variables M)).
Proof.
  intros Hi Hk. destruct (in_enumerate_of_index fr k Hk) as [d Hd].
  apply in_map_iff. exists (w_ i k, (0, 1)). split; [reflexivity|].
  apply (in_variables n m fr pairs M HM). right. right. left.
  apply in_flat_map. exists i. split; [now apply in_range|].
  apply in_map_iff. exists (k, d). split; [reflexivity|exact Hd].
Qed.

Lemma declared_weekend_used (i : Z) :
  0 <= i < n -> In (weekend_used_ i) (map fst (variables M)).
Proof.
  intros Hi. apply in_map_iff. exists (weekend_used_ i, (0, 1)). split; [reflexivity|].
  apply (in_variables n m fr pairs M HM). right. right. right.
  apply in_map_iff. exists i. split; [reflexivity|now apply in_range].
Qed.

Lemma declared_constraint_vars (c : constraint) (v : var) :
  In c (constraints M) -> In v (constraint_vars c) -> In v (map fst (variables M)).
Proof.
  pose proof HM as HM'. unfold build_model in HM'.
  destruct (build_Ok_inv _ _ _ _ _ HM') as (Hn & dis & wfair & Hd & Hw & _ & Ec).
  apply disallowed_Ok_inv in Hd. destruct Hd as [F Edis].
  rewrite fair_weekends_Ok in Hw by exact Hn. inversion Hw as [Ew]. clear Hw.
  fold fr in Ec, Ew. rewrite Ec, !in_app_iff. clear Ec.
  intros [H|[H|[H|[H|[H|[H|[H|[H|H]]]]]]]] Hv.
  - apply in_flat_map in H. destruct H as (i & Hi & H).
    apply in_flat_map in H. destruct H as (d & Hd & H).
    apply in_range in Hi, Hd.
    destruct H as [<-|[<-|[]]]; simpl in Hv;
      destruct Hv as [<-|[<-|[]]];
      first [now apply declared_day | now apply declared_b].
  - apply in_flat_map in H. destruct H as (i & Hi & H).
    apply in_flat_map in H. destruct H as ([k d] & Hkd & H).
    apply in_range in Hi.
    destruct (in_enumerate_l fr k d Hkd) as [Hk Hd].
    apply in_weekend_fridays in Hd.
    destruct H as [<-|[<-|[<-|[]]]]; simpl in Hv;
      destruct Hv as [<-|[<-|[]]];
      first [apply declared_day; lia | now apply declared_w].
  - apply in_no_four_consecutive in H. destruct H as (i & d & Hi & Hd & ->).
    unfold four_days in Hv. apply vars_Add_Sum_Const in Hv. apply in_map_iff in Hv.
    destruct Hv as (k & <- & Hk). apply in_range in Hk.
    apply declared_b; lia.
  - apply in_map_iff in H. destruct H as (d & <- & Hd).
    apply in_weekend_fridays in Hd. simpl in Hv.
    destruct Hv as [<-|[<-|[]]]; apply declared_day; lia.
  - unfold weekend_spread in H. apply in_app_iff in H. destruct H as [H|[<-|[]]].
    + apply in_map_iff in H. destruct H as (i & <- & Hi). apply in_range in Hi.
      unfold constraint_vars in Hv. cbn [AddMaxEquality ct_body enforcement_literal map] in Hv.
      rewrite app_nil_r in Hv. destruct Hv as [<-|Hv].
      * now apply declared_weekend_used.
      * apply in_map_iff in Hv. destruct Hv as (k & <- & Hk). apply in_range in Hk.
        now apply declared_w.
    + apply vars_Add_Sum_Const in Hv. unfold weekend_used in Hv.
      apply in_map_iff in Hv. destruct Hv as (i & <- & Hi). apply in_range in Hi.
      now apply declared_weekend_used.
  - subst dis. apply in_map_iff in H. destruct H as ([i d] & <- & Hin).
    rewrite Forall_forall in F. pose proof (F _ Hin) as Hd. simpl in Hd.
    simpl in Hv. destruct Hv as [<-|[]].
    apply declared_day. destruct (d <? 0) eqn:E; lia.
  - apply in_flat_map in H. destruct H as (i & Hi & H). apply in_range in Hi.
    destruct H as [<-|[<-|[]]];
      apply vars_Add_Sum_Const in Hv; apply in_map_iff in Hv;
      destruct Hv as (d & <- & Hd); apply in_range in Hd; now apply declared_b.
  - unfold window_coverage, window_size in H.
    destruct (3 * n <=? m) eqn:E3; [|destruct H]. apply Z.leb_le in E3.
    apply in_flat_map in H. destruct H as (i & Hi & H). apply in_range in Hi.
    apply in_map_iff in H. destruct H as (d & <- & Hd). apply in_range in Hd.
    apply vars_Add_Sum_Const in Hv. apply in_map_iff in Hv.
    destruct Hv as (k & <- & Hk). apply in_range in Hk.
    apply declared_b; lia.
  - subst wfair. destruct (0 <? W fr); [|destruct H].
    apply in_flat_map in H. destruct H as (i & Hi & H). apply in_range in Hi.
    destruct H as [<-|[<-|[]]];
      apply vars_Add_Sum_Const in Hv; apply in_map_iff in Hv;
      destruct Hv as (k & <- & Hk); apply in_range in Hk; now apply declared_w.
Qed.

End Declared.

(** X20. Whenever the model is built, every variable one of its
    constraints mentions is one of the variables created: the lookups
    [b[i, d+k]], [w[i, k]] and [day_vars[d+1]] of the construction never
    miss, and a disallowed pair that does not raise names a day of the
    month. *)
Theorem model_mentions_created_variables (n m start_idx : Z) (pairs : list (Z * Z))
    (M : CpModel) :
  build_model n m start_idx pairs = Ok M ->
  forall c v, In c (constraints M) -> In v (constraint_vars c) ->
    In v (map fst (variables M)).
Proof.
  intros HM c v. exact (declared_constraint_vars n m start_idx pairs M HM c v).
Qed.

(** X21. The constraints exclude nothing but what the seven checks of the
    validator exclude: in a month with a weekend block, a list of [m]
    doctor indices of [0, n) that passes the checks, the day indices of the
    pairs being in [0, m), is returned by the core when the engine tries
    it. *)
Theorem accepted_schedule_is_returned (n m : Z) (start_day : string)
    (pairs : list (Z * Z)) (tl nw : Z) (seed : option Z) (sched : list Z)
    (start_idx : Z) :
  index start_day days = Ok start_idx ->
  1 <= n ->
  1 <= W (weekend_fridays start_idx m) ->
  len sched = m ->
  Forall (fun x => 0 <= x < n) sched ->
  Forall (fun id => 0 <= snd id < m) pairs ->
  Validator.violated n m (weekend_fridays start_idx m) pairs sched = [] ->
  cp_sat_generate_schedule
    (try_candidate (Validator.valuation_of (weekend_fridays start_idx m) sched))
    n m start_day pairs tl nw seed
  = Ok sched.
Proof.
  intros Hi Hn HW Hlen Hdom F Hv.
  unfold cp_sat_generate_schedule. rewrite Hi. cbn [Py.bind].
  destruct (build_cases n m (weekend_fridays start_idx m) pairs)
    as [[E _]|[(_ & Hn0 & _)|(_ & _ & M & HM)]].
  - exfalso. apply Exists_exists in E. destruct E as (id & Hin & Hbad).
    rewrite Forall_forall in F. specialize (F id Hin). cbv beta in Hbad. lia.
  - lia.
  - unfold build_model. rewrite HM. cbn [Py.bind].
    assert (Hdom' : forall d, 0 <= d < m -> 0 <= Validator.doctor_on sched d < n).
    { intros d Hd. rewrite Forall_forall in Hdom. apply Hdom.
      unfold Validator.doctor_on. apply nth_In. unfold len in Hlen. lia. }
    pose proof (complete_model_holds n m start_idx pairs M sched HM Hn HW Hdom' F Hv)
      as Hs.
    unfold try_candidate. rewrite Hs. cbn [status has_solution Value].
    f_equal. apply schedule_of_valuation_of. unfold len in Hlen. lia.
Qed.

(* ------------------------------------------------------------------ *)
(** ** The properties above on the fixtures of [examples] *)

Lemma fixture1_returned :
  cp_sat_generate_schedule (fixture_solver 6 example1) 4 30 "Sunday"
    (disallowed_pairs example1) 10 8 None
  = Ok (valid_schedule example1).
Proof. vm_compute. reflexivity. Qed.

Lemma returned_schedule_is_total_witness :
  sound (fixture_solver 6 example1) /\
  cp_sat_generate_schedule (fixture_solver 6 example1) 4 30 "Sunday"
    (disallowed_pairs example1) 10 8 None = Ok (valid_schedule example1) /\
  2 <= 30 /\ len (valid_schedule example1) = 30 /\
  Forall (fun x => 0 <= x < 4) (valid_schedule example1).
Proof.
  split; [apply try_candidate_sound|]. split; [exact fixture1_returned|].
  apply (returned_schedule_is_total (fixture_solver 6 example1) 4 30 "Sunday"
           (disallowed_pairs example1) 10 8 None).
  - apply try_candidate_sound.
  - exact fixture1_returned.
Defined.

Lemma returned_schedule_excludes_pairs_witness :
  sound (fixture_solver 6 example1) /\
  cp_sat_generate_schedule (fixture_solver 6 example1) 4 30 "Sunday"
    (disallowed_pairs example1) 10 8 None = Ok (valid_schedule example1) /\
  forall i d, In (i, d) (disallowed_pairs example1) ->
    - 30 <= d < 30 /\
    Validator.doctor_on (valid_schedule example1) (if d <? 0 then 30 + d else d) <> i.
Proof.
  split; [apply try_candidate_sound|]. split; [exact fixture1_returned|].
  apply (returned_schedule_excludes_pairs (fixture_solver 6 example1) 4 30 "Sunday"
           (disallowed_pairs example1) 10 8 None).
  - apply try_candidate_sound.
  - exact fixture1_returned.
Defined.

Lemma returned_schedule_pairs_weekends_witness :
  sound (fixture_solver 6 example1) /\
  index "Sunday" days = Ok 6 /\
  cp_sat_generate_schedule (fixture_solver 6 example1) 4 30 "Sunday"
    (disallowed_pairs example1) 10 8 None = Ok (valid_schedule example1) /\
  forall d, 0 <= d -> d + 1 < 30 -> (6 + d) mod 7 = friday ->
    Validator.doctor_on (valid_schedule example1) d
    = Validator.doctor_on (valid_schedule example1) (d + 1).
Proof.
  split; [apply try_candidate_sound|]. split; [reflexivity|].
  split; [exact fixture1_returned|].
  apply (returned_schedule_pairs_weekends (fixture_solver 6 example1) 4 30 "Sunday"
           (disallowed_pairs example1) 10 8 None).
  - apply try_candidate_sound.
  - reflexivity.
  - exact fixture1_returned.
Defined.

Lemma returned_schedule_totals_fair_witness :
  sound (fixture_solver 6 example1) /\
  cp_sat_generate_schedule (fixture_solver 6 example1) 4 30 "Sunday"
    (disallowed_pairs example1) 10 8 None = Ok (valid_schedule example1) /\
  (30 + 4 - 1) / 4 <= 30 / 4 + 1 /\
  forall i, 0 <= i < 4 ->
    30 / 4 <= Validator.total 30 (valid_schedule example1) i <= (30 + 4 - 1) / 4.
Proof.
  split; [apply try_candidate_sound|]. split; [exact fixture1_returned|].
  apply (returned_schedule_totals_fair (fixture_solver 6 example1) 4 30 "Sunday"
           (disallowed_pairs example1) 10 8 None).
  - apply try_candidate_sound.
  - exact fixture1_returned.
Defined.

Lemma returned_schedule_covers_windows_witness :
  sound (fixture_solver 6 example1) /\
  cp_sat_generate_schedule (fixture_solver 6 example1) 4 30 "Sunday"
    (disallowed_pairs example1) 10 8 None = Ok (valid_schedule example1) /\
  3 * 4 <= 30 /\
  forall i d, 0 <= i < 4 -> 0 <= d -> d + 3 * 4 <= 30 ->
    exists k, 0 <= k < 3 * 4 /\ Validator.doctor_on (valid_schedule example1) (d + k) = i.
Proof.
  split; [apply try_candidate_sound|]. split; [exact fixture1_returned|].
  split; [lia|].
  apply (returned_schedule_covers_windows (fixture_solver 6 example1) 4 30 "Sunday"
           (disallowed_pairs example1) 10 8 None).
  - apply try_candidate_sound.
  - exact fixture1_returned.
  - lia.
Defined.

Lemma returned_schedule_weekends_fair_witness :
  sound (fixture_solver 6 example1) /\
  index "Sunday" days = Ok 6 /\
  cp_sat_generate_schedule (fixture_solver 6 example1) 4 30 "Sunday"
    (disallowed_pairs example1) 10 8 None = Ok (valid_schedule example1) /\
  forall i, 0 <= i < 4 ->
    W (weekend_fridays 6 30) / 4
    <= Validator.weekends_of (weekend_fridays 6 30) (valid_schedule example1) i
    <= (W (weekend_fridays 6 30) + 4 - 1) / 4.
Proof.
  split; [apply try_candidate_sound|]. split; [reflexivity|].
  split; [exact fixture1_returned|].
  apply (returned_schedule_weekends_fair (fixture_solver 6 example1) 4 30 "Sunday"
           (disallowed_pairs example1) 10 8 None).
  - apply try_candidate_sound.
  - reflexivity.
  - exact fixture1_returned.
Defined.

Lemma no_weekend_block_no_schedule_witness :
  sound (try_candidate (Validator.valuation_of [] [0; 0; 0])) /\
  index "Sunday" days = Ok 6 /\
  Forall (fun id : Z * Z => - 3 <= snd id < 3) [] /\
  2 <> 0 /\
  weekend_fridays 6 3 = [] /\
  cp_sat_generate_schedule (try_candidate (Validator.valuation_of [] [0; 0; 0]))
    2 3 "Sunday" [] 10 8 None = Raise no_schedule.
Proof.
  split; [apply try_candidate_sound|]. split; [reflexivity|].
  split; [constructor|]. split; [lia|]. split; [reflexivity|].
  apply (no_weekend_block_no_schedule
           (try_candidate (Validator.valuation_of [] [0; 0; 0]))
           2 3 "Sunday" [] 10 8 None 6).
  - apply try_candidate_sound.
  - reflexivity.
  - constructor.
  - lia.
  - reflexivity.
Defined.

Lemma single_doctor_no_schedule_witness :
  sound (try_candidate (Validator.valuation_of (weekend_fridays 4 30)
                          (map (fun _ => 0) (range 30)))) /\
  index "Friday" days = Ok 4 /\
  Forall (fun id : Z * Z => - 30 <= snd id < 30) [] /\
  4 <= 30 /\
  cp_sat_generate_schedule
    (try_candidate (Validator.valuation_of (weekend_fridays 4 30)
                      (map (fun _ => 0) (range 30))))
    1 30 "Friday" [] 10 8 None = Raise no_schedule.
Proof.
  split; [apply try_candidate_sound|]. split; [reflexivity|].
  split; [constructor|]. split; [lia|].
  apply (single_doctor_no_schedule
           (try_candidate (Validator.valuation_of (weekend_fridays 4 30)
                             (map (fun _ => 0) (range 30))))
           30 "Friday" [] 10 8 None 4).
  - apply try_candidate_sound.
  - reflexivity.
  - constructor.
  - lia.
Defined.

Lemma unknown_weekday_is_ValueError_witness :
  ~ In "friday" days /\
  cp_sat_generate_schedule (fixture_solver 6 example1) 4 30 "friday"
    (disallowed_pairs example1) 10 8 None = Raise ValueError.
Proof.
  assert (H : ~ In "friday" days).
  { simpl. intros [H|[H|[H|[H|[H|[H|[H|[]]]]]]]]; discriminate. }
  split; [exact H|].
  apply (unknown_weekday_is_ValueError (fixture_solver 6 example1) 4 30 "friday"
           (disallowed_pairs example1) 10 8 None H).
Defined.

Lemma weeks_layout_witness :
  0 <= 5 <= 6 /\
  weeks 5 [0; 0; 1]
  = [ [None; None; None; None; None; Some 0; Some 0];
      [Some 1; None; None; None; None; None; None] ] /\
  let sd := Z.to_nat 5 in
  let df := weeks 5 [0; 0; 1] in
  Forall (fun row => length row = 7%nat) df /\
  (forall p, (p < sd)%nat -> cell_at df 0 p = Some None) /\
  (forall k person, nth_error [0; 0; 1] k = Some person ->
     cell_at df ((sd + k) / 7) ((sd + k) mod 7) = Some (Some person)) /\
  (exists t, (t <= 7)%nat /\ (length df * 7 = sd + length [0; 0; 1] + t)%nat /\
     (t = 7%nat -> 5 = 0 /\ [0; 0; 1] = []) /\
     concat df = repeat None sd ++ map Some [0; 0; 1] ++ repeat None t).
Proof.
  split; [lia|]. split; [reflexivity|].
  apply (weeks_layout 5 [0; 0; 1]). lia.
Defined.

Lemma numbered_calendar_witness :
  let doctors_names := fun i : Z =>
    if i =? 0 then Some "Ann" else if i =? 1 then Some "Bob" else None in
  0 <= 5 <= 6 /\
  add_day_numbers 5 (len [0; 0; 1]) doctors_names (weeks 5 [0; 0; 1])
  = [ [Some ""; Some ""; Some ""; Some ""; Some ""; Some "1 <br> Ann"; Some "2 <br> Ann"];
      [Some "3 <br> Bob"; Some ""; Some ""; Some ""; Some ""; Some ""; Some ""] ] /\
  let sd := Z.to_nat 5 in
  let df := weeks 5 [0; 0; 1] in
  let shown := add_day_numbers 5 (len [0; 0; 1]) doctors_names df in
  Forall (fun row => length row = 7%nat) shown /\
  length shown = length df /\
  (forall k person, nth_error [0; 0; 1] k = Some person ->
     cell_at shown ((sd + k) / 7) ((sd + k) mod 7)
     = Some (Some (day_text (Z.of_nat k + 1) (get doctors_names person "")))) /\
  (forall p, (p < sd \/ sd + length [0; 0; 1] <= p)%nat -> (p < length df * 7)%nat ->
     cell_at shown (p / 7) (p mod 7) = Some (Some "")).
Proof.
  cbv zeta. split; [lia|]. split; [reflexivity|].
  apply (numbered_calendar 5 [0; 0; 1]). lia.
Defined.

Lemma exported_schedule_witness :
  let doctors_names := fun i : Z =>
    if i =? 0 then Some "Ann" else if i =? 1 then Some "Bob" else None in
  0 <= 5 <= 6 /\
  prepare_export_df 5 (len [0; 0; 1]) doctors_names (weeks 5 [0; 0; 1])
  = [ mkEntry 1 "Friday" "Ann"; mkEntry 2 "Saturday" "Ann"; mkEntry 3 "Sunday" "Bob" ] /\
  prepare_export_df 5 (len [0; 0; 1]) doctors_names (weeks 5 [0; 0; 1])
  = map (fun kp : Z * Z =>
           mkEntry (fst kp + 1) (nth (Z.to_nat ((5 + fst kp) mod 7)) weekdays "")
                   (get doctors_names (snd kp) ""))
        (enumerate [0; 0; 1]).
Proof.
  cbv zeta. split; [lia|]. split; [reflexivity|].
  apply (exported_schedule 5 [0; 0; 1]). lia.
Defined.

Lemma calendar_weekends_paired_witness :
  sound (fixture_solver 6 example1) /\
  0 <= 6 < 7 /\
  generate_schedule_weeks (fixture_solver 6 example1) 4 30 (starting_day_of 6)
    (disallowed_pairs example1) = Ok (weeks 0 (valid_schedule example1)) /\
  nth 5 weekdays "" = "Friday" /\ nth 6 weekdays "" = "Saturday" /\
  forall row a b,
    cell_at (weeks 0 (valid_schedule example1)) row 5 = Some (Some a) ->
    cell_at (weeks 0 (valid_schedule example1)) row 6 = Some (Some b) -> a = b.
Proof.
  split; [apply try_candidate_sound|]. split; [lia|].
  split; [vm_compute; reflexivity|].
  apply (calendar_weekends_paired (fixture_solver 6 example1) 4 30 6
           (disallowed_pairs example1)).
  - apply try_candidate_sound.
  - lia.
  - vm_compute. reflexivity.
Defined.

Lemma off_days_conversion_witness :
  let off_days := [ (0, [(6, (11, "Wednesday")); (13, (11, "Wednesday"))]);
                    (1, []);
                    (2, [(1, (11, "Friday"))]) ] in
  (forall e o, In e off_days -> In o (snd e) -> 0 <= fst o) /\
  to_disallowed_pairs
    [ (0, ["6/11 - Wednesday"; "13/11 - Wednesday"]); (1, []); (2, ["1/11 - Friday"]) ]
  = Ok [(5, 0); (12, 0); (0, 2)] /\
  to_disallowed_pairs
    (map (fun e =>
            (fst e,
             map (fun o => off_day_option (fst o) (fst (snd o)) (snd (snd o))) (snd e)))
         off_days)
  = Ok (flat_map (fun e => map (fun o => (fst o - 1, fst e)) (snd e)) off_days).
Proof.
  cbv zeta.
  assert (H : forall e o,
            In e [ (0, [(6, (11, "Wednesday")); (13, (11, "Wednesday"))]);
                   (1, []); (2, [(1, (11, "Friday"))]) ] ->
            In o (snd e) -> 0 <= fst o).
  { intros e o He Ho. simpl in He.
    destruct He as [<-|[<-|[<-|[]]]]; simpl in Ho;
      repeat (destruct Ho as [<-|Ho]; [simpl; lia|]); destruct Ho. }
  split; [exact H|]. split; [reflexivity|].
  apply (off_days_conversion
           [ (0, [(6, (11, "Wednesday")); (13, (11, "Wednesday"))]);
             (1, []); (2, [(1, (11, "Friday"))]) ] H).
Defined.

Lemma off_day_effect_witness :
  let off_days := [ (0, [(6, (11, "Wednesday"))]); (1, []); (2, []) ] in
  let sched := [ 0; 0;
                 0; 1; 0; 0; 0; 2; 2;
                 0; 0; 1; 1; 1; 2; 2;
                 0; 1; 1; 2; 2; 1; 1;
                 2; 0; 2; 2; 2; 1; 1 ] in
  let solve := try_candidate (Validator.valuation_of (weekend_fridays 4 30) sched) in
  sound solve /\
  (forall e o, In e off_days -> In o (snd e) -> 0 <= fst e /\ 0 <= fst o) /\
  on_generate solve 3 30 5
    (map (fun e =>
            (fst e,
             map (fun o => off_day_option (fst o) (fst (snd o)) (snd (snd o))) (snd e)))
         off_days)
  = Ok sched /\
  forall doctor_index sel k mw,
    In (doctor_index, sel) off_days -> In (k, mw) sel ->
    doctor_index < 30 /\ Validator.doctor_on sched doctor_index <> k - 1.
Proof.
  cbv zeta.
  assert (H : forall e o,
            In e [ (0, [(6, (11, "Wednesday"))]); (1, []); (2, []) ] ->
            In o (snd e) -> 0 <= fst e /\ 0 <= fst o).
  { intros e o He Ho. simpl in He.
    destruct He as [<-|[<-|[<-|[]]]]; simpl in Ho;
      repeat (destruct Ho as [<-|Ho]; [simpl; lia|]); destruct Ho. }
  split; [apply try_candidate_sound|]. split; [exact H|].
  split; [vm_compute; reflexivity|].
  apply (off_day_effect
           (try_candidate
              (Validator.valuation_of (weekend_fridays 4 30)
                 [ 0; 0;
                   0; 1; 0; 0; 0; 2; 2;
                   0; 0; 1; 1; 1; 2; 2;
                   0; 1; 1; 2; 2; 1; 1;
                   2; 0; 2; 2; 2; 1; 1 ]))
           3 30 5 [ (0, [(6, (11, "Wednesday"))]); (1, []); (2, []) ]).
  - apply try_candidate_sound.
  - exact H.
  - vm_compute. reflexivity.
Defined.

Lemma off_day_of_late_doctor_raises_witness :
  let off_days := [ (29, [(1, (2, "Sunday"))]) ] in
  (forall e o, In e off_days -> In o (snd e) -> 0 <= fst o) /\
  In (29, [(1, (2, "Sunday"))]) off_days /\
  [(1, (2, "Sunday"))] <> [] /\
  0 <= 29 /\ 28 <= 29 /\
  on_generate (fixture_solver 6 example1) 30 28 0
    (map (fun e =>
            (fst e,
             map (fun o => off_day_option (fst o) (fst (snd o)) (snd (snd o))) (snd e)))
         off_days)
  = Raise IndexError.
Proof.
  cbv zeta.
  assert (H : forall e o,
            In e [ (29, [(1, (2, "Sunday"))]) ] -> In o (snd e) -> 0 <= fst o).
  { intros e o He Ho. simpl in He. destruct He as [<-|[]]. simpl in Ho.
    destruct Ho as [<-|[]]. simpl. lia. }
  split; [exact H|]. split; [now left|]. split; [discriminate|].
  split; [lia|]. split; [lia|].
  apply (off_day_of_late_doctor_raises (fixture_solver 6 example1) 30 28 0
           [ (29, [(1, (2, "Sunday"))]) ] 29 [(1, (2, "Sunday"))] H).
  - now left.
  - discriminate.
  - lia.
  - lia.
Defined.

Lemma assign_colors_cycle_witness :
  let palette := ("#1f77b4", ["#ff7f0e"]) in
  let doctors := [""; "Ann"; "Bob"; "Cid"] in
  let names := filter (fun d => negb (String.eqb d "")) doctors in
  let L := S (length (snd palette)) in
  NoDup names /\
  assign_colors palette doctors "Cid" = Some "#1f77b4" /\
  assign_colors palette doctors "" = Some "#000000" /\
  (forall j name, nth_error names j = Some name ->
     assign_colors palette doctors name
     = Some (nth (j mod L) (fst palette :: snd palette) (fst palette))) /\
  (forall j j' name name',
     NoDup (fst palette :: snd palette) -> (j < L)%nat -> (j' < L)%nat ->
     nth_error names j = Some name -> nth_error names j' = Some name' ->
     assign_colors palette doctors name = assign_colors palette doctors name' ->
     name = name') /\
  (forall name, name <> "" -> ~ In name doctors ->
     assign_colors palette doctors name = None).
Proof.
  cbv zeta.
  assert (ND : NoDup (filter (fun d => negb (String.eqb d "")) [""; "Ann"; "Bob"; "Cid"])).
  { simpl. repeat constructor; simpl; intuition discriminate. }
  split; [exact ND|]. split; [reflexivity|].
  apply (assign_colors_cycle ("#1f77b4", ["#ff7f0e"]) [""; "Ann"; "Bob"; "Cid"] ND).
Defined.


Lemma model_mentions_created_variables_witness :
  exists M,
    build_model 4 30 6 (disallowed_pairs example1) = Ok M /\
    forall c v, In c (constraints M) -> In v (constraint_vars c) ->
      In v (map fst (variables M)).
Proof.
  eexists. split; [reflexivity|].
  eapply (model_mentions_created_variables 4 30 6 (disallowed_pairs example1)).
  reflexivity.
Defined.

Lemma accepted_schedule_is_returned_witness :
  index "Sunday" days = Ok 6 /\
  1 <= 4 /\
  1 <= W (weekend_fridays 6 30) /\
  len (valid_schedule example1) = 30 /\
  Forall (fun x => 0 <= x < 4) (valid_schedule example1) /\
  Forall (fun id => 0 <= snd id < 30) (disallowed_pairs example1) /\
  Validator.violated 4 30 (weekend_fridays 6 30) (disallowed_pairs example1)
                     (valid_schedule example1) = [] /\
  cp_sat_generate_schedule
    (try_candidate (Validator.valuation_of (weekend_fridays 6 30) (valid_schedule example1)))
    4 30 "Sunday" (disallowed_pairs example1) 10 8 None
  = Ok (valid_schedule example1).
Proof.
  assert (D : Forall (fun x => 0 <= x < 4) (valid_schedule example1))
    by (simpl; repeat constructor; lia).
  assert (P : Forall (fun id : Z * Z => 0 <= snd id < 30) (disallowed_pairs example1))
    by (simpl; repeat constructor; simpl; lia).
  split; [reflexivity|]. split; [lia|]. split; [vm_compute; discriminate|].
  split; [reflexivity|]. split; [exact D|]. split; [exact P|].
  split; [vm_compute; reflexivity|].
  apply (accepted_schedule_is_returned 4 30 "Sunday" (disallowed_pairs example1)
           10 8 None (valid_schedule example1) 6).
  - reflexivity.
  - lia.
  - vm_compute. discriminate.
  - reflexivity.
  - exact D.
  - exact P.
  - vm_compute. reflexivity.
Defined.

(* ------------------------------------------------------------------ *)
(** ** Errors of the core before the search *)



